(** * Prawncare backend: sensor monitoring, feeding reminders and alert dispatch

    A shallow embedding of the monitoring core of the backend:
    - the store connection's error handlers (the two [db] modules),
    - the worker routes' feeding-reminder scan and [/acknowledge] route,
    - the sensor routes' telemetry fetch, archival job and condition check.

    JavaScript values are modelled as an inductive type of scalars, objects
    as association lists, thrown errors as a result type, and the calls the
    code makes to the outside world (socket, push provider, mail transport,
    store, hardware endpoint, console, timers) as a trace of effects whose
    outcomes are read from an explicit description of the outside world. *)

From Stdlib Require Import List String Ascii Bool Arith NArith ZArith QArith Lia.
From Stdlib Require Import DecimalString.
Import ListNotations.
Close Scope Q_scope.
Local Open Scope string_scope.
Local Open Scope list_scope.

(* ===================================================================== *)
(** ** JavaScript scalars, objects and the operators the code uses *)
(* ===================================================================== *)

Module JS.

(** The scalars a parsed JSON body or a store row can hold.  A number is a
    finite rational (ordering and equality of finite doubles are those of
    the rationals they denote); NaN only arises as the result of a numeric
    conversion and is the [None] of [ToNumber]. *)
Inductive value : Type :=
| Undefined
| Null
| Bool (b : bool)
| Num (q : Q)
| Str (s : string).

(** A JSON object or a result row: property name to value. *)
Definition object := list (string * value).

(** Property read [o.k]: [undefined] when the property is absent. *)
Fixpoint get (o : object) (k : string) : value :=
  match o with
  | [] => Undefined
  | (k', v) :: o' => if String.eqb k' k then v else get o' k
  end.

(** The host's string primitives, left abstract: numeric parsing of a
    string, rendering of a number, the ordering of two strings and
    [JSON.parse] restricted to object results. *)
Class Host : Type := {
  StringToNumber : string -> option Q;
  NumberToString : Q -> string;
  StringLess : string -> string -> bool;
  JSON_parse : string -> option object
}.

Definition Qlt_bool (x y : Q) : bool := negb (Qle_bool y x).

(** [!v] is [negb (truthy v)]. *)
Definition truthy (v : value) : bool :=
  match v with
  | Undefined => false
  | Null => false
  | Bool b => b
  | Num q => negb (Qeq_bool q 0)
  | Str s => negb (String.eqb s EmptyString)
  end.

(** [a === b]. *)
Definition strict_eq (a b : value) : bool :=
  match a, b with
  | Undefined, Undefined => true
  | Null, Null => true
  | Bool x, Bool y => Bool.eqb x y
  | Num x, Num y => Qeq_bool x y
  | Str x, Str y => String.eqb x y
  | _, _ => false
  end.

(** [a || b]. *)
Definition or (a b : value) : value := if truthy a then a else b.

Section WithHost.
Context `{Host}.

(** Numeric conversion; [None] is NaN. *)
Definition ToNumber (v : value) : option Q :=
  match v with
  | Undefined => None
  | Null => Some 0%Q
  | Bool true => Some 1%Q
  | Bool false => Some 0%Q
  | Num q => Some q
  | Str s => StringToNumber s
  end.

(** [a < b]: two strings are compared as strings, anything else as
    numbers, and a comparison with NaN is false. *)
Definition less (a b : value) : bool :=
  match a, b with
  | Str x, Str y => StringLess x y
  | _, _ =>
      match ToNumber a, ToNumber b with
      | Some x, Some y => Qlt_bool x y
      | _, _ => false
      end
  end.

(** [a > b]. *)
Definition greater (a b : value) : bool := less b a.

(** String conversion, as in a template literal or [String(v)]. *)
Definition ToString (v : value) : string :=
  match v with
  | Undefined => "undefined"
  | Null => "null"
  | Bool true => "true"
  | Bool false => "false"
  | Num q => NumberToString q
  | Str s => s
  end.

(** One element of [Array.prototype.join]: [undefined] and [null] render
    as the empty string. *)
Definition join_item (v : value) : string :=
  match v with
  | Undefined => EmptyString
  | Null => EmptyString
  | _ => ToString v
  end.

End WithHost.

(** [xs.join(sep)] on an array of strings. *)
Definition join (sep : string) (xs : list string) : string := String.concat sep xs.

(** A thrown error object: [name], [message] and the driver's [code]. *)
Record error : Type := {
  name : string;
  message : string;
  code : value
}.

(** [new Error(msg)]. *)
Definition Error (msg : string) : error :=
  {| name := "Error"; message := msg; code := Undefined |}.

End JS.

(* ===================================================================== *)
(** ** Effects and the monad of a function that can throw *)
(* ===================================================================== *)

(** The reminder object built by the feeding scan. *)
Record reminder : Type := {
  feeding_ID : JS.value;
  pond_ID : JS.value;
  reminder_time : string;
  message : string;
  acknowledged : bool
}.

(** A message handed to the Admin SDK: notification, data map and topic. *)
Record fcm_message : Type := {
  title : string;
  body : string;
  data : list (string * string);
  topic : string
}.

(** [mailOptions] of [transporter.sendMail]. *)
Record mail_options : Type := {
  from : JS.value;
  to : string;
  subject : string;
  text : string
}.

Inductive level : Type := LOG | WARN | ERROR.

(** What the code does to the outside world, in the order it does it. *)
Inductive effect : Type :=
| Console (l : level) (line : string)
| Emit (event : string) (payload : reminder)     (* io.emit *)
| AdminSend (m : fcm_message)                     (* admin.messaging().send *)
| HttpPost (url : string) (title body : string)   (* fetch(url, {method: 'POST'}) *)
| SendMail (m : mail_options)                     (* transporter.sendMail *)
| Query (sql : string) (values : list JS.value)   (* db.query *)
| HttpGet (url : string)                          (* fetch(url, {signal}) *)
| SetTimeout (ms : N)
| ClearTimeout
| Abort (at_ms : N)                               (* controller.abort() *)
| Connect.                                        (* connection.connect() *)

(** The three notification channels, and whether a trace holds an attempt
    on one. *)
Inductive channel : Type := Realtime | Push | Email.

Definition attempt_on (c : channel) (e : effect) : bool :=
  match c, e with
  | Realtime, Emit _ _ => true
  | Push, AdminSend _ => true
  | Push, HttpPost _ _ _ => true
  | Email, SendMail _ => true
  | _, _ => false
  end.

Definition attempted (c : channel) (es : list effect) : bool := existsb (attempt_on c) es.

Module Eff.

Inductive outcome (A : Type) : Type :=
| Returned (a : A)
| Thrown (e : JS.error).
Arguments Returned {A} a.
Arguments Thrown {A} e.

(** A run: the effects performed and how the run ended. *)
Definition M (A : Type) : Type := list effect * outcome A.

Definition ret {A} (a : A) : M A := ([], Returned a).
Definition throw {A} (e : JS.error) : M A := ([], Thrown e).
Definition tell (es : list effect) : M unit := (es, Returned tt).

Definition bind {A B} (m : M A) (k : A -> M B) : M B :=
  match snd m with
  | Returned a => (fst m ++ fst (k a), snd (k a))
  | Thrown e => (fst m, Thrown e)
  end.

(** [try { m } catch (e) { h e }]. *)
Definition try_catch {A} (m : M A) (h : JS.error -> M A) : M A :=
  match snd m with
  | Returned a => m
  | Thrown e => (fst m ++ fst (h e), snd (h e))
  end.

(** The outcome of an awaited external call, and its lifting. *)
Definition await {A} (r : outcome A) : M A := ([], r).

Definition effects {A} (m : M A) : list effect := fst m.
Definition result {A} (m : M A) : outcome A := snd m.

End Eff.

Import Eff.

Declare Scope eff_scope.
Delimit Scope eff_scope with eff.
Notation "x <- c ;; k" := (bind c (fun x => k))
  (at level 61, c at next level, right associativity) : eff_scope.
Notation "c ;; k" := (bind c (fun _ => k))
  (at level 61, right associativity) : eff_scope.
Local Open Scope eff_scope.

(* ===================================================================== *)
(** ** The store connection's error handlers *)
(* ===================================================================== *)

Module Db.

(** [err.code === c]. *)
Definition has_code (err : JS.error) (c : string) : bool :=
  JS.strict_eq (JS.code err) (JS.Str c).

(** [connection.on('error', ...)] of the local-database module. *)
Definition on_error_local (err : JS.error) : M unit :=
  tell [Console ERROR "Database connection error:"] ;;
  if has_code err "PROTOCOL_CONNECTION_LOST" || has_code err "ECONNRESET"
  then
    tell [Console LOG "Attempting to reconnect..."] ;;
    tell [Connect]
  else
    throw err.

(** [connection.on('error', ...)] of the deployed-database module. *)
Definition on_error (err : JS.error) : M unit :=
  tell [Console ERROR "Database connection error:"] ;;
  if has_code err "PROTOCOL_CONNECTION_LOST" || has_code err "ECONNRESET"
     || has_code err "PROTOCOL_ENQUEUE_AFTER_FATAL_ERROR"
  then
    tell [Console LOG "Attempting to reconnect..."] ;;
    tell [Connect]
  else
    throw err.

(** Number of reconnection attempts in a trace. *)
Definition reconnects (es : list effect) : nat :=
  List.length (filter (fun e => match e with Connect => true | _ => false end) es).

End Db.

(* ===================================================================== *)
(** ** Worker routes: feeding reminders *)
(* ===================================================================== *)

Module Worker.

(** A row of [SELECT feeding_ID, Pond_ID, feeding_time FROM feeding_schedule]. *)
Record row : Type := {
  row_feeding_ID : JS.value;
  row_Pond_ID : JS.value;
  row_feeding_time : JS.value
}.

(** The part of [new Date()] the scan reads. *)
Record date : Type := {
  getHours : nat;
  getMinutes : nat
}.

(** The push provider as the scan finds it: whether the Admin SDK has an
    initialised app, and how [admin.messaging().send] ends for a message. *)
Record fcm : Type := {
  apps_initialized : bool;
  send : fcm_message -> outcome string
}.

(** [n.toString().padStart(2, "0")]. *)
Definition pad2 (n : nat) : string :=
  let s := NilEmpty.string_of_uint (Nat.to_uint n) in
  if (String.length s <? 2)%nat then "0" ++ s else s.

Definition currentTime (now : date) : string :=
  pad2 (getHours now) ++ ":" ++ pad2 (getMinutes now) ++ ":00".

(** The statement of the scan: the schedule rows due within a quarter of
    an hour from the minute it is bound to. *)
Definition SCAN_SQL : string := "
    SELECT feeding_ID, Pond_ID, feeding_time
    FROM feeding_schedule
    WHERE feeding_time BETWEEN ? AND ADDTIME(?, '00:15:00')
  ".

(** The response of a route: status and JSON body. *)
Inductive json : Type :=
| ErrorBody (error : string)
| SuccessBody (success : bool) (message : string)
| Reminders (rs : list reminder).

Record response : Type := {
  status : nat;
  payload : json
}.

Section WithHost.
Context `{JS.Host}.

(** [sendFeedingPush(reminder)]. *)
Definition sendFeedingPush (f : fcm) (r : reminder) : M unit :=
  if negb (apps_initialized f) then
    tell [Console WARN "[FCM-worker] Firebase Admin not initialized; skipping feeding push"]
  else
    let m := {|
      title := "Feeding Reminder";
      body := JS.ToString
                (JS.or (JS.Str (message r))
                       (JS.Str ("Feeding needed at Pond " ++ JS.ToString (pond_ID r))));
      data := [ ("feeding_ID", JS.ToString (JS.or (feeding_ID r) (JS.Str EmptyString)));
                ("pond_ID", JS.ToString (JS.or (pond_ID r) (JS.Str EmptyString)));
                ("reminder_time", JS.ToString (JS.or (JS.Str (reminder_time r)) (JS.Str EmptyString))) ];
      topic := "feeding"
    |} in
    try_catch
      (tell [AdminSend m] ;;
       _ <- await (send f m) ;;
       tell [Console LOG "[FCM-worker] Feeding push sent:"])
      (fun err => tell [Console ERROR "[FCM-worker] Error sending feeding push:"]).

(** The reminder object literal of the scan. *)
Definition new_reminder (currentTime : string) (r : row) : reminder :=
  {| feeding_ID := row_feeding_ID r;
     pond_ID := row_Pond_ID r;
     reminder_time := currentTime;
     message := "Feeding reminder: Pond " ++ JS.ToString (row_Pond_ID r)
                ++ " needs feeding at " ++ JS.ToString (row_feeding_time r);
     acknowledged := false |}.

(** [reminders.some((rem) => rem.feeding_ID === row.feeding_ID)]. *)
Definition exists_for (reminders : list reminder) (id : JS.value) : bool :=
  existsb (fun rem => JS.strict_eq (feeding_ID rem) id) reminders.

(** The decision of the scan's loop body: the reminder to create for a
    row, or none when one with the same identifier is already held. *)
Definition tryCreate (reminders : list reminder) (currentTime : string) (r : row)
  : option reminder :=
  if negb (exists_for reminders (row_feeding_ID r))
  then Some (new_reminder currentTime r)
  else None.

(** What the scan does with a created reminder: log, broadcast, push.
    [io.emit] stands outside the [try]; the push call is wrapped in one
    and its promise has a [catch]. *)
Definition dispatch (f : fcm) (r : reminder) : M unit :=
  tell [Console LOG "Reminder created:"] ;;
  tell [Emit "feeding-reminder" r] ;;
  try_catch
    (try_catch (sendFeedingPush f r)
       (fun err => tell [Console ERROR "[FCM-worker] sendFeedingPush error:"]))
    (fun e => tell [Console ERROR "[FCM-worker] Error invoking sendFeedingPush:"]).

(** The body of [results.forEach]: the state is the [reminders] array and
    the effects performed so far. *)
Definition forEach_row (f : fcm) (currentTime : string)
  (st : list reminder * list effect) (r : row) : list reminder * list effect :=
  match tryCreate (fst st) currentTime r with
  | Some rem => (fst st ++ [rem], snd st ++ effects (dispatch f rem))
  | None => st
  end.

(** One run of the cron callback, given the outcome of its query: the
    statement is sent, bound twice to the minute of the run, and its
    callback logs the error or walks the rows. *)
Definition scan (f : fcm) (now : date) (results : outcome (list row))
  (reminders : list reminder) : list reminder * list effect :=
  let sent := [Query SCAN_SQL [JS.Str (currentTime now); JS.Str (currentTime now)]] in
  match results with
  | Thrown err => (reminders, sent ++ [Console ERROR "Error checking reminders:"])
  | Returned rows =>
      if (0 <? List.length rows)%nat
      then fold_left (forEach_row f (currentTime now)) rows (reminders, sent)
      else (reminders, sent)
  end.

(** [GET /reminder]. *)
Definition list_reminders (reminders : list reminder) : response :=
  {| status := 200; payload := Reminders reminders |}.

(** [POST /acknowledge] from its guard on, for a body that was
    destructured with [feeding_ID = id]: the response and the new value of
    [reminders].  The whole route, which first destructures the body, is
    [WorkerRoutes.post_acknowledge]. *)
Definition acknowledge (id : JS.value) (reminders : list reminder)
  : response * list reminder :=
  if negb (JS.truthy id) then
    ({| status := 400; payload := ErrorBody "feeding_ID is required" |}, reminders)
  else
    ({| status := 200;
        payload := SuccessBody true ("Reminder " ++ JS.ToString id ++ " acknowledged") |},
     filter (fun rem => negb (JS.strict_eq (feeding_ID rem) id)) reminders).

(** The operations that touch [reminders], and a run of several. *)
Inductive op : Type :=
| Scan (f : fcm) (now : date) (results : outcome (list row))
| Acknowledge (id : JS.value).

Definition step (reminders : list reminder) (o : op) : list reminder * list effect :=
  match o with
  | Scan f now results => scan f now results reminders
  | Acknowledge id => (snd (acknowledge id reminders), [])
  end.

Fixpoint run (reminders : list reminder) (ops : list op) : list reminder * list effect :=
  match ops with
  | [] => (reminders, [])
  | o :: ops' =>
      let s := step reminders o in
      let s' := run (fst s) ops' in
      (fst s', snd s ++ snd s')
  end.

(** The realtime broadcasts a trace holds for an identifier. *)
Definition broadcasts_for (id : JS.value) (es : list effect) : nat :=
  List.length (filter (fun e =>
    match e with
    | Emit _ r => JS.strict_eq (feeding_ID r) id
    | _ => false
    end) es).

(** The reminders held for an identifier. *)
Definition held_for (id : JS.value) (reminders : list reminder) : nat :=
  List.length (filter (fun rem => JS.strict_eq (feeding_ID rem) id) reminders).

(** An operation that is not an acknowledgment of the identifier. *)
Definition keeps (id : JS.value) (o : op) : Prop :=
  match o with
  | Scan _ _ _ => True
  | Acknowledge id' => JS.strict_eq id' id = false
  end.

(** The boolean the response carries, if it carries one. *)
Definition success_of (r : response) : option bool :=
  match payload r with
  | SuccessBody b _ => Some b
  | _ => None
  end.

End WithHost.

End Worker.

(* ===================================================================== *)
(** ** Sensor routes: telemetry fetch, archival job, condition check *)
(* ===================================================================== *)

Module Sensors.

Definition FETCH_TIMEOUT_MS : N := 30000.

(** The line feed of ['\n']. *)
Definition nl : string := String (ascii_of_nat 10) EmptyString.

(** How the hardware endpoint answers one request in an exchange that
    comes to an end: a response some milliseconds after the request, whose
    body is there as soon as it is read, a transport failure after some
    milliseconds, or nothing at all.  Exchanges in which the body comes
    later than the response, or never, are those of [Timeline.wire]. *)
Inductive endpoint : Type :=
| Responds (after_ms : N) (status : N) (body_text : string)
| Fails (after_ms : N) (err : JS.error)
| Silent.

(** The outside world of one run of a sensor job. *)
Record world : Type := {
  ESP_IP : string;
  EMAIL_USER : JS.value;
  esp : endpoint;
  db_query : string -> list JS.value -> outcome (list JS.object);
  sendMail_result : mail_options -> outcome string;
  FCM_SERVER_KEY : JS.value;
  fcm_endpoint : outcome (N * string)
}.

(** [response.ok]. *)
Definition ok (status : N) : bool := ((200 <=? status) && (status <=? 299))%N.

(** The error with which an aborted [fetch] rejects. *)
Definition AbortError : JS.error :=
  {| JS.name := "AbortError";
     JS.message := "This operation was aborted";
     JS.code := JS.Num 20 |}.

(** The error with which [response.json()] rejects on a malformed body. *)
Definition SyntaxError : JS.error :=
  {| JS.name := "SyntaxError";
     JS.message := "Unexpected token in JSON";
     JS.code := JS.Undefined |}.

(** [{ waterLevel, temperature, tds }]. *)
Record pondData : Type := {
  waterLevel : JS.value;
  temperature : JS.value;
  tds : JS.value
}.

Inductive metric : Type := WaterLevel | Temperature | TDS.

(** The text with which the alert of a metric starts. *)
Definition alert_prefix (m : metric) : string :=
  match m with
  | WaterLevel => "‚ö†Ô∏è Water Level: "
  | Temperature => "‚ö†Ô∏è Temperature: "
  | TDS => "‚ö†Ô∏è TDS: "
  end.

(** Whether an entry of [alerts] is the alert of a metric. *)
Definition alert_for (m : metric) (a : string) : bool := String.prefix (alert_prefix m) a.

(** Occurrences of a character in a string. *)
Fixpoint count_char (c : ascii) (s : string) : nat :=
  match s with
  | EmptyString => 0
  | String c' s' => (if Ascii.eqb c c' then 1 else 0) + count_char c s'
  end.

(** The URL of the hardware endpoint's readings. *)
Definition sensors_url (w : world) : string := "http://" ++ ESP_IP w ++ "/sensors".

Definition INSERT_SENSORS : string :=
  "INSERT INTO sensors_data (Pond_ID, Water_Level, WaterTemp, TDS, pH) VALUES (?, ?, ?, ?, ?)".

(** The value a metric's test reads, and the two bounds it is tested
    against. *)
Definition observed (m : metric) (p : pondData) : JS.value :=
  match m with
  | WaterLevel => waterLevel p
  | Temperature => temperature p
  | TDS => tds p
  end.

Definition min_key (m : metric) : string :=
  match m with
  | WaterLevel => "min_water_level"
  | Temperature => "min_temperature"
  | TDS => "min_tds"
  end.

Definition max_key (m : metric) : string :=
  match m with
  | WaterLevel => "max_water_level"
  | Temperature => "max_temperature"
  | TDS => "max_tds"
  end.

(** The metric an entry of [alerts] names, if any. *)
Definition metric_of (a : string) : option metric :=
  if alert_for WaterLevel a then Some WaterLevel
  else if alert_for Temperature a then Some Temperature
  else if alert_for TDS a then Some TDS
  else None.

(** Nothing arrives from the endpoint before the deadline. *)
Definition silent_until_deadline (e : endpoint) : bool :=
  match e with
  | Responds t _ _ => (FETCH_TIMEOUT_MS <=? t)%N
  | Fails t _ => (FETCH_TIMEOUT_MS <=? t)%N
  | Silent => true
  end.

(** The URLs of the GET requests in a trace. *)
Fixpoint requests (es : list effect) : list string :=
  match es with
  | [] => []
  | HttpGet url :: es' => url :: requests es'
  | _ :: es' => requests es'
  end.

(** The store statements in a trace, with the values bound to them. *)
Fixpoint queries (es : list effect) : list (string * list JS.value) :=
  match es with
  | [] => []
  | Query sql values :: es' => (sql, values) :: queries es'
  | _ :: es' => queries es'
  end.

Section WithHost.
Context `{JS.Host}.

(** The test of one metric, [v < min || v > max]. *)
Definition out_of_range (m : metric) (p : pondData) (threshold : JS.object) : bool :=
  JS.less (observed m p) (JS.get threshold (min_key m))
  || JS.greater (observed m p) (JS.get threshold (max_key m)).

(** The alert text of a metric for an observed value and two bounds. *)
Definition alert_text (m : metric) (v lo hi : JS.value) : string :=
  match m with
  | WaterLevel =>
      "‚ö†Ô∏è Water Level: " ++ JS.ToString v ++ " (Range: " ++ JS.ToString lo ++ "-"
      ++ JS.ToString hi ++ ")"
  | Temperature =>
      "‚ö†Ô∏è Temperature: " ++ JS.ToString v ++ "¬∞C (Range: " ++ JS.ToString lo ++ "-"
      ++ JS.ToString hi ++ "¬∞C)"
  | TDS =>
      "‚ö†Ô∏è TDS: " ++ JS.ToString v ++ " (Range: " ++ JS.ToString lo ++ "-"
      ++ JS.ToString hi ++ ")"
  end.

(** The alert a metric contributes: its text when its test holds, nothing
    otherwise. *)
Definition alert_if (m : metric) (p : pondData) (threshold : JS.object) : list string :=
  if out_of_range m p threshold
  then [alert_text m (observed m p) (JS.get threshold (min_key m))
          (JS.get threshold (max_key m))]
  else [].

(** [fetch(url, { signal })] while the abort timer is armed: the timer
    fires when nothing has arrived by [FETCH_TIMEOUT_MS].  What is
    awaited here is the response, not its body. *)
Definition fetch_with_signal (url : string) (e : endpoint) : M (N * string) :=
  tell [HttpGet url] ;;
  match e with
  | Responds t status body_text =>
      if (t <? FETCH_TIMEOUT_MS)%N then ret (status, body_text)
      else tell [Abort FETCH_TIMEOUT_MS] ;; throw AbortError
  | Fails t err =>
      if (t <? FETCH_TIMEOUT_MS)%N then throw err
      else tell [Abort FETCH_TIMEOUT_MS] ;; throw AbortError
  | Silent => tell [Abort FETCH_TIMEOUT_MS] ;; throw AbortError
  end.

Definition fetchSensorDataFromESP (w : world) : M JS.object :=
  tell [SetTimeout FETCH_TIMEOUT_MS] ;;
  try_catch
    (response <- fetch_with_signal (sensors_url w) (esp w) ;;
     tell [ClearTimeout] ;;
     if negb (ok (fst response)) then
       throw (JS.Error ("HTTP " ++ JS.NumberToString (inject_Z (Z.of_N (fst response)))
                        ++ ": " ++ snd response))
     else
       match JS.JSON_parse (snd response) with
       | Some o => ret o
       | None => throw SyntaxError
       end)
    (fun error => tell [ClearTimeout] ;; throw error).

Definition executeQuery (w : world) (sql : string) (values : list JS.value)
  : M (list JS.object) :=
  tell [Query sql values] ;;
  await (db_query w sql values).

Definition saveSensorsData (w : world) : M unit :=
  try_catch
    (data <- fetchSensorDataFromESP w ;;
     let sql := INSERT_SENSORS in
     let values := [JS.Num 1; JS.get data "waterLevelInside"; JS.get data "waterTemp";
                    JS.get data "tds"] in
     _ <- executeQuery w sql values ;;
     tell [Console LOG "[Sensors] Data inserted successfully"])
    (fun error =>
       if String.eqb (JS.name error) "AbortError" then
         tell [Console ERROR "[Sensors] Fetch request timed out after 30 seconds"]
       else
         tell [Console ERROR ("[Sensors] Error saving sensor data: " ++ JS.message error)]).

Definition sendAlertEmails (w : world) (alerts : list string) (workerEmails : list JS.value)
  : M unit :=
  let message := JS.join nl alerts in
  let mailOptions := {|
    from := EMAIL_USER w;
    to := JS.join ", " (map JS.join_item workerEmails);
    subject := "üö® Pond Condition Alert";
    text := message
  |} in
  tell [SendMail mailOptions] ;;
  (* the callback of [sendMail]: its console line is recorded with the send *)
  match sendMail_result w mailOptions with
  | Thrown err => tell [Console ERROR ("[Email] Failed to send alert: " ++ JS.message err)]
  | Returned info => tell [Console LOG ("[Email] Alert sent successfully: " ++ info)]
  end.

(** The second declaration of [sendPushNotificationFCM] (legacy HTTP
    API): it is the later of two declarations of that name in the module,
    so it is the one every call reaches. *)
Definition sendPushNotificationFCM (w : world) (alerts : list string) : M unit :=
  let serverKey := FCM_SERVER_KEY w in
  if negb (JS.truthy serverKey) then
    tell [Console WARN "[FCM] FCM_SERVER_KEY not configured; skipping push"]
  else
    let title := "üö® Pond Condition Alert" in
    let body := JS.join nl alerts in
    try_catch
      (tell [HttpPost "https://fcm.googleapis.com/fcm/send" title body] ;;
       resp <- await (fcm_endpoint w) ;;
       if negb (ok (fst resp)) then
         tell [Console ERROR "[FCM] Push send failed:"]
       else
         match JS.JSON_parse (snd resp) with
         | Some _ => tell [Console LOG "[FCM] Push sent successfully:"]
         | None => throw SyntaxError
         end)
      (fun err => tell [Console ERROR ("[FCM] Error sending push: " ++ JS.message err)]).

(** Step 4 of the condition check: the [alerts] array built from the
    observed values and the threshold row. *)
Definition checkConditions (p : pondData) (threshold : JS.object) : list string :=
  let alerts := [] in
  let alerts :=
    if JS.less (waterLevel p) (JS.get threshold "min_water_level")
       || JS.greater (waterLevel p) (JS.get threshold "max_water_level")
    then alerts ++ [("‚ö†Ô∏è Water Level: " ++ JS.ToString (waterLevel p) ++ " (Range: "
                    ++ JS.ToString (JS.get threshold "min_water_level") ++ "-"
                    ++ JS.ToString (JS.get threshold "max_water_level") ++ ")")%string]
    else alerts in
  let alerts :=
    if JS.less (temperature p) (JS.get threshold "min_temperature")
       || JS.greater (temperature p) (JS.get threshold "max_temperature")
    then alerts ++ [("‚ö†Ô∏è Temperature: " ++ JS.ToString (temperature p) ++ "¬∞C (Range: "
                    ++ JS.ToString (JS.get threshold "min_temperature") ++ "-"
                    ++ JS.ToString (JS.get threshold "max_temperature") ++ "¬∞C)")%string]
    else alerts in
  let alerts :=
    if JS.less (tds p) (JS.get threshold "min_tds")
       || JS.greater (tds p) (JS.get threshold "max_tds")
    then alerts ++ [("‚ö†Ô∏è TDS: " ++ JS.ToString (tds p) ++ " (Range: "
                    ++ JS.ToString (JS.get threshold "min_tds") ++ "-"
                    ++ JS.ToString (JS.get threshold "max_tds") ++ ")")%string]
    else alerts in
  alerts.

(** Step 5 of the condition check, taken when [alerts] is not empty:
    worker emails, the alert mail, then the push. *)
Definition dispatchAlerts (w : world) (alerts : list string) : M unit :=
  workerResults <- executeQuery w "SELECT email FROM worker" [] ;;
  let workerEmails := map (fun row => JS.get row "email") workerResults in
  (if (List.length workerEmails =? 0)%nat then
     tell [Console ERROR "[Alerts] No worker emails found"]
   else
     sendAlertEmails w alerts workerEmails) ;;
  sendPushNotificationFCM w alerts.

Definition checkConditionsAndSendAlert (w : world) : M unit :=
  try_catch
    (espData <- fetchSensorDataFromESP w ;;
     thresholds <- executeQuery w "SELECT * FROM thresholds LIMIT 1" [] ;;
     match thresholds with
     | [] => tell [Console ERROR "[Alerts] No threshold configuration found"]
     | threshold :: _ =>
         let p := {| waterLevel := JS.get espData "waterLevelInside";
                     temperature := JS.get espData "waterTemp";
                     tds := JS.get espData "tds" |} in
         let alerts := checkConditions p threshold in
         if (0 <? List.length alerts)%nat then
           dispatchAlerts w alerts
         else
           tell [Console LOG "[Alerts] All pond conditions are normal"]
     end)
    (fun error =>
       if String.eqb (JS.name error) "AbortError" then
         tell [Console ERROR "[Alerts] Fetch request timed out"]
       else
         tell [Console ERROR ("[Alerts] Error checking conditions: " ++ JS.message error)]).

End WithHost.

End Sensors.

(* ===================================================================== *)
(** ** The fetch along the time of one exchange *)
(* ===================================================================== *)

Module Timeline.
Import Sensors.

(** How the body of a response arrives once the response has: whole some
    milliseconds later, broken off with an error some milliseconds later,
    or never to its end. *)
Inductive body_read : Type :=
| Completes (after_ms : N) (body_text : string)
| Breaks (after_ms : N) (err : JS.error)
| Stalls.

(** How the hardware endpoint behaves on one request: a response (status
    line and headers) some milliseconds after the request, followed by its
    body; a transport failure after some milliseconds; or nothing at all. *)
Inductive wire : Type :=
| Answers (after_ms : N) (status : N) (body : body_read)
| Refuses (after_ms : N) (err : JS.error)
| Dead.

(** Where a call of the fetch stands: at [await fetch(...)], at
    [await response.text()] or [await response.json()], or settled. *)
Inductive phase : Type :=
| Waiting
| Reading
| Settled (r : outcome JS.object).

(** Whether the response or a transport failure comes before the timer
    fires. *)
Definition heard_by_deadline (x : wire) : bool :=
  match x with
  | Answers t _ _ => (t <? FETCH_TIMEOUT_MS)%N
  | Refuses t _ => (t <? FETCH_TIMEOUT_MS)%N
  | Dead => false
  end.

(** An exchange of [Sensors.endpoint]: the body is there with the
    response. *)
Definition wire_of (e : endpoint) : wire :=
  match e with
  | Responds t status body_text => Answers t status (Completes 0 body_text)
  | Fails t err => Refuses t err
  | Silent => Dead
  end.

Section WithHost.
Context `{JS.Host}.

(** [fetchSensorDataFromESP], [now] milliseconds after it was called on
    [url], the endpoint behaving as [x]: what it has done so far and where
    it stands.  The timer is armed before the request and aborts it when
    it fires; it is cleared as soon as [await fetch] yields the response,
    before the status is looked at and the body read, and once more in the
    handler of any error. *)
Definition fetchSensorDataFromESP_at (url : string) (x : wire) (now : N)
  : list effect * phase :=
  let started := [SetTimeout FETCH_TIMEOUT_MS; HttpGet url] in
  let aborted :=
    (started ++ [Abort FETCH_TIMEOUT_MS; ClearTimeout], Settled (Thrown AbortError)) in
  let caught (done : list effect) (error : JS.error) :=
    (done ++ [ClearTimeout], Settled (Thrown error)) in
  match x with
  | Dead => if (now <? FETCH_TIMEOUT_MS)%N then (started, Waiting) else aborted
  | Refuses t err =>
      if (now <? N.min t FETCH_TIMEOUT_MS)%N then (started, Waiting)
      else if (t <? FETCH_TIMEOUT_MS)%N then caught started err
      else aborted
  | Answers t status body =>
      if (now <? N.min t FETCH_TIMEOUT_MS)%N then (started, Waiting)
      else if (t <? FETCH_TIMEOUT_MS)%N then
        let cleared := started ++ [ClearTimeout] in
        match body with
        | Stalls => (cleared, Reading)
        | Breaks d err =>
            if (now <? t + d)%N then (cleared, Reading) else caught cleared err
        | Completes d body_text =>
            if (now <? t + d)%N then (cleared, Reading)
            else if negb (ok status) then
              caught cleared
                (JS.Error ("HTTP " ++ JS.NumberToString (inject_Z (Z.of_N status))
                           ++ ": " ++ body_text))
            else
              match JS.JSON_parse body_text with
              | Some o => (cleared, Settled (Returned o))
              | None => caught cleared SyntaxError
              end
        end
      else aborted
  end.

End WithHost.

End Timeline.

(* ===================================================================== *)
(** ** Concrete inputs on which the definitions are evaluated *)
(* ===================================================================== *)

Module Sample.

(** A host for integer inputs: an integer is rendered in decimal, no
    string parses as a number, strings are ordered by their bytes, and the
    one body the sample endpoint sends parses to the sample snapshot. *)
Definition esp_text : string := "{waterLevelInside:5,waterTemp:26,tds:300}".

Definition snapshot : JS.object :=
  [("waterLevelInside", JS.Num 5); ("waterTemp", JS.Num 26); ("tds", JS.Num 300)].

(** A payload with none of the three readings, and one that also carries
    a pH reading. *)
Definition empty_text : string := "{}".

Definition ph_text : string := "{waterLevelInside:30,waterTemp:26,tds:300,pH:7}".

Definition ph_snapshot : JS.object :=
  [("waterLevelInside", JS.Num 30); ("waterTemp", JS.Num 26); ("tds", JS.Num 300);
   ("pH", JS.Num 7)].

Definition host : JS.Host := {|
  JS.StringToNumber := fun _ => None;
  JS.NumberToString := fun q => NilZero.string_of_int (Z.to_int (Qnum q));
  JS.StringLess := String.ltb;
  JS.JSON_parse := fun s =>
    if String.eqb s esp_text then Some snapshot
    else if String.eqb s empty_text then Some []
    else if String.eqb s ph_text then Some ph_snapshot
    else None
|}.

(** Thresholds of the end-to-end scenario. *)
Definition threshold : JS.object :=
  [("min_water_level", JS.Num 10); ("max_water_level", JS.Num 50);
   ("min_temperature", JS.Num 20); ("max_temperature", JS.Num 32);
   ("min_tds", JS.Num 0); ("max_tds", JS.Num 500)].

(** A schedule entry at 14:00:00 and a scan at 13:50. *)
Definition entry : Worker.row :=
  {| Worker.row_feeding_ID := JS.Num 7;
     Worker.row_Pond_ID := JS.Num 1;
     Worker.row_feeding_time := JS.Str "14:00:00" |}.

Definition now : Worker.date := {| Worker.getHours := 13; Worker.getMinutes := 50 |}.

(** A push provider that is initialised and whose sends fail. *)
Definition failing_fcm : Worker.fcm :=
  {| Worker.apps_initialized := true;
     Worker.send := fun _ => Thrown (JS.Error "messaging/server-unavailable") |}.

(** A push provider that is initialised and whose sends succeed. *)
Definition working_fcm : Worker.fcm :=
  {| Worker.apps_initialized := true;
     Worker.send := fun _ => Returned "projects/prawncare/messages/1" |}.

(** The store of the end-to-end scenario: one threshold row, two workers. *)
Definition db (sql : string) (values : list JS.value) : outcome (list JS.object) :=
  if String.eqb sql "SELECT * FROM thresholds LIMIT 1" then Returned [threshold]
  else if String.eqb sql "SELECT email FROM worker" then
    Returned [[("email", JS.Str "nimal@prawncare.lk")]; [("email", JS.Str "kamal@prawncare.lk")]]
  else Returned [].

(** A world in which the endpoint answers the scenario's payload after
    120 ms, the mail transport refuses and the push endpoint is down. *)
Definition world : Sensors.world :=
  {| Sensors.ESP_IP := "192.168.1.127";
     Sensors.EMAIL_USER := JS.Str "alerts@prawncare.lk";
     Sensors.esp := Sensors.Responds 120 200 esp_text;
     Sensors.db_query := db;
     Sensors.sendMail_result := fun _ => Thrown (JS.Error "connect ECONNREFUSED");
     Sensors.FCM_SERVER_KEY := JS.Str "server-key";
     Sensors.fcm_endpoint := Thrown (JS.Error "fetch failed") |}.

(** The same world with another behaviour of the hardware endpoint. *)
Definition world_with (e : Sensors.endpoint) : Sensors.world :=
  {| Sensors.ESP_IP := Sensors.ESP_IP world;
     Sensors.EMAIL_USER := Sensors.EMAIL_USER world;
     Sensors.esp := e;
     Sensors.db_query := Sensors.db_query world;
     Sensors.sendMail_result := Sensors.sendMail_result world;
     Sensors.FCM_SERVER_KEY := Sensors.FCM_SERVER_KEY world;
     Sensors.fcm_endpoint := Sensors.fcm_endpoint world |}.

(** The same world whose store holds no threshold row. *)
Definition world_without_thresholds : Sensors.world :=
  {| Sensors.ESP_IP := Sensors.ESP_IP world;
     Sensors.EMAIL_USER := Sensors.EMAIL_USER world;
     Sensors.esp := Sensors.esp world;
     Sensors.db_query := fun _ _ => Returned [];
     Sensors.sendMail_result := Sensors.sendMail_result world;
     Sensors.FCM_SERVER_KEY := Sensors.FCM_SERVER_KEY world;
     Sensors.fcm_endpoint := Sensors.fcm_endpoint world |}.

(** Store errors as the driver reports them. *)
Definition connection_lost : JS.error :=
  {| JS.name := "Error"; JS.message := "Connection lost: The server closed the connection.";
     JS.code := JS.Str "PROTOCOL_CONNECTION_LOST" |}.

Definition enqueue_after_fatal : JS.error :=
  {| JS.name := "Error"; JS.message := "Cannot enqueue Query after fatal error.";
     JS.code := JS.Str "PROTOCOL_ENQUEUE_AFTER_FATAL_ERROR" |}.

Definition access_denied : JS.error :=
  {| JS.name := "Error"; JS.message := "Access denied for user";
     JS.code := JS.Str "ER_ACCESS_DENIED_ERROR" |}.

End Sample.

(* ===================================================================== *)
(** ** HTTP responses and the store as the routes see it *)
(* ===================================================================== *)

Module Http.

(** A JSON body: a scalar, an object literal or an array. *)
#[local] Unset Elimination Schemes.
Inductive json : Type :=
| JVal (v : JS.value)
| JObject (fields : list (string * json))
| JArray (items : list json).
#[local] Set Elimination Schemes.

(** A row or parsed object sent as it is. *)
Definition of_object (o : JS.object) : json :=
  JObject (map (fun kv => (fst kv, JVal (snd kv))) o).

Definition of_rows (rows : list JS.object) : json := JArray (map of_object rows).

Record response : Type := {
  status : nat;
  body : json
}.

(** [res.status(s).json({ error: msg })]. *)
Definition error_response (s : nat) (msg : string) : response :=
  {| status := s; body := JObject [("error", JVal (JS.Str msg))] |}.

(** [res.json(b)]. *)
Definition ok_response (b : json) : response := {| status := 200; body := b |}.

(** The store behind [db.query]: what a statement with its bound values
    yields, as rows for a read and as a result header for a write. *)
Record store : Type := {
  select : string -> list JS.value -> outcome (list JS.object);
  execute : string -> list JS.value -> outcome JS.object
}.

(** [db.query(sql, values, (err, results) => ...)] for a read: the
    statement is sent and the callback receives the error or the rows. *)
Definition query_rows (st : store) (sql : string) (values : list JS.value)
  : M (outcome (list JS.object)) :=
  ([Query sql values], Returned (select st sql values)).

(** The same for a write, whose callback receives the result header. *)
Definition query_exec (st : store) (sql : string) (values : list JS.value)
  : M (outcome JS.object) :=
  ([Query sql values], Returned (execute st sql values)).

(** The statements of a trace that bind exactly as many values as they
    have placeholders. *)
Definition bound_exactly (q : string * list JS.value) : bool :=
  (Sensors.count_char "?" (fst q) =? List.length (snd q))%nat.

(** Whether a trace sends mail. *)
Definition mails (es : list effect) : bool := attempted Email es.

End Http.

(* ===================================================================== *)
(** ** Worker routes: authentication *)
(* ===================================================================== *)

Module Auth.

(** [s.split(" ")]. *)
Fixpoint split_space (s : string) : list string :=
  match s with
  | EmptyString => [EmptyString]
  | String c s' =>
      if Ascii.eqb c " " then EmptyString :: split_space s'
      else match split_space s' with
           | [] => [String c EmptyString]
           | p :: ps => String c p :: ps
           end
  end.

(** Whether a string holds a space. *)
Fixpoint has_space (s : string) : bool :=
  match s with
  | EmptyString => false
  | String c s' => (Ascii.eqb c " " || has_space s')%bool
  end.

(** [c.toLowerCase()] on the letters A to Z.  The result is compared with
    ["bearer"] only, which no character outside A to Z lower-cases into. *)
Definition lower (c : ascii) : ascii :=
  let n := nat_of_ascii c in
  if ((65 <=? n) && (n <=? 90))%nat then ascii_of_nat (n + 32) else c.

Fixpoint toLowerCase (s : string) : string :=
  match s with
  | EmptyString => EmptyString
  | String c s' => String (lower c) (toLowerCase s')
  end.

(** The parts of a request the middleware reads: the [authorization]
    header, and the parsed body and query when there are any. *)
Record request : Type := {
  authorization : option string;
  body : option JS.object;
  query : option JS.object
}.

(** [o && o.k]. *)
Definition field (o : option JS.object) (k : string) : JS.value :=
  match o with
  | None => JS.Undefined
  | Some o' => JS.get o' k
  end.

(** The token read from the header: the second part of a two-part header
    whose first part is [bearer] in any case, or a one-part header. *)
Definition header_token (authHeader : option string) : JS.value :=
  match authHeader with
  | None => JS.Null
  | Some h =>
      if negb (String.eqb h EmptyString) then
        let parts := split_space h in
        if ((List.length parts =? 2)%nat
            && String.eqb (toLowerCase (nth 0 parts EmptyString)) "bearer")%bool
        then JS.Str (nth 1 parts EmptyString)
        else if (List.length parts =? 1)%nat then JS.Str (nth 0 parts EmptyString)
        else JS.Null
      else JS.Null
  end.

(** The token the middleware ends up with: header, then body, then query. *)
Definition token_of (req : request) : JS.value :=
  let token := header_token (authorization req) in
  let token :=
    if (negb (JS.truthy token) && JS.truthy (field (body req) "token"))%bool
    then field (body req) "token" else token in
  let token :=
    if (negb (JS.truthy token) && JS.truthy (field (query req) "token"))%bool
    then field (query req) "token" else token in
  token.

(** How the middleware ends: it hands the request on with [req.user] set,
    or it answers itself. *)
Inductive verdict : Type :=
| Next (user : JS.object)
| Respond (r : Http.response).

(** [authenticateToken(req, res, next)], given what [jwt.verify] does
    with a token under the configured secret. *)
Definition authenticateToken (verify : JS.value -> outcome JS.object) (req : request)
  : M verdict :=
  let token := token_of req in
  if negb (JS.truthy token) then
    tell [Console WARN "Authentication failed: token missing"] ;;
    ret (Respond (Http.error_response 401 "Token missing"))
  else
    match verify token with
    | Returned decoded =>
        if (JS.truthy (JS.get decoded "role")
            && negb (JS.strict_eq (JS.get decoded "role") (JS.Str "worker")))%bool
        then
          tell [Console WARN "Authentication failed: role mismatch"] ;;
          ret (Respond (Http.error_response 403 "Access denied"))
        else ret (Next decoded)
    | Thrown err =>
        tell [Console ERROR "JWT verification error:"] ;;
        let msg := if String.eqb (JS.name err) "TokenExpiredError"
                   then "Token expired" else "Invalid token" in
        ret (Respond (Http.error_response 401 msg))
    end.

(** A route registered behind the middleware. *)
Definition guarded (verify : JS.value -> outcome JS.object) (req : request)
  (handler : JS.object -> M Http.response) : M Http.response :=
  v <- authenticateToken verify req ;;
  match v with
  | Next user => handler user
  | Respond r => ret r
  end.

End Auth.

(* ===================================================================== *)
(** ** Worker routes: orders, tasks, device tokens *)
(* ===================================================================== *)

Module WorkerRoutes.

Definition NEW_ORDERS_SQL : string := "SELECT * FROM customer_order WHERE approved_or_rejected = 'Approved' ORDER BY created_at DESC".
Definition UPDATE_ORDER_SQL : string := "UPDATE customer_order SET status = ? WHERE order_id = ?".
Definition TIME_TABLE_SQL : string := "SELECT * FROM feeding_schedule ORDER BY Pond_ID ASC, feeding_time ASC".
Definition CREATE_TOKENS_SQL : string := "
    CREATE TABLE IF NOT EXISTS device_tokens (
      id INT AUTO_INCREMENT PRIMARY KEY,
      worker_id INT NULL,
      token VARCHAR(255) UNIQUE,
      created_at TIMESTAMP DEFAULT CURRENT_TIMESTAMP
    ) ENGINE=InnoDB DEFAULT CHARSET=utf8mb4;
  ".
Definition UPSERT_TOKEN_SQL : string := "INSERT INTO device_tokens (worker_id, token) VALUES (?, ?) ON DUPLICATE KEY UPDATE worker_id = VALUES(worker_id)".
Definition WORKER_ID_SQL : string := "SELECT id FROM worker WHERE email = ?".
Definition TASKS_SQL : string := "SELECT * FROM task WHERE worker_id = ? ORDER BY created_date ASC".
Definition UPDATE_TASK_SQL : string := "UPDATE task SET status = 'completed' WHERE task_id = ? AND worker_id = ?".
Definition TASK_STATUS_SQL : string := "SELECT status FROM task WHERE task_id = ? AND worker_id = ?".

(** The address the status mails go to, and the environment's sender. *)
Definition NOTIFY_TO : string := "anjulac2006@gmail.com".

(** What a route needs of the outside: the store, the mail transport and
    the sender address of the environment. *)
Record world : Type := {
  db : Http.store;
  sendMail_result : mail_options -> outcome string;
  EMAIL_USER : JS.value
}.

(** The push provider's state: the number of initialised apps and the
    topic subscriptions made so far. *)
Record admin : Type := {
  apps : nat;
  subscriptions : list (JS.value * string)
}.

(** [new TypeError(...)] of destructuring an absent body. *)
Definition TypeError : JS.error :=
  {| JS.name := "TypeError";
     JS.message := "Cannot destructure property of undefined";
     JS.code := JS.Undefined |}.

Section WithHost.
Context `{JS.Host}.

(** [transporter.sendMail(mailOptions, callback)]: the send and the
    console line of its callback. *)
Definition sendMail (w : world) (m : mail_options) : M unit :=
  tell [SendMail m] ;;
  match sendMail_result w m with
  | Thrown err => tell [Console ERROR "Error sending email: "]
  | Returned info => tell [Console LOG ("Email sent: " ++ info)]
  end.

(** [POST /acknowledge] with the parsed body [b], [None] when the request
    has none: the run of the handler and the value of [reminders] after
    it.  Destructuring an absent body throws before the guard is reached;
    with a body the handler goes on as [Worker.acknowledge] with the
    body's [feeding_ID]. *)
Definition post_acknowledge (b : option JS.object) (reminders : list reminder)
  : M Worker.response * list reminder :=
  match b with
  | None => (throw TypeError, reminders)
  | Some b' =>
      (ret (fst (Worker.acknowledge (JS.get b' "feeding_ID") reminders)),
       snd (Worker.acknowledge (JS.get b' "feeding_ID") reminders))
  end.

(** [GET /New-Orders]. *)
Definition new_orders (w : world) : M Http.response :=
  r <- Http.query_rows (db w) NEW_ORDERS_SQL [] ;;
  match r with
  | Thrown err =>
      tell [Console ERROR "Error fetching customer-Order Details: "] ;;
      ret (Http.error_response 500 "Error fetching customer order data")
  | Returned results => ret (Http.ok_response (Http.of_rows results))
  end.

(** [GET /time-table]. *)
Definition time_table (w : world) : M Http.response :=
  r <- Http.query_rows (db w) TIME_TABLE_SQL [] ;;
  match r with
  | Thrown err =>
      tell [Console ERROR "Error fetching feeding schedule: "] ;;
      ret (Http.error_response 500 "Error fetching feeding schedule")
  | Returned results => ret (Http.ok_response (Http.of_rows results))
  end.

(** [PATCH /update-order-status] with body [b]. *)
Definition update_order_status (w : world) (b : JS.object) : M Http.response :=
  let order_id := JS.get b "order_id" in
  let status := JS.get b "status" in
  if (negb (JS.truthy order_id) || negb (JS.truthy status))%bool then
    ret (Http.error_response 400 "Order ID and status are required")
  else
    r <- Http.query_exec (db w) UPDATE_ORDER_SQL [status; order_id] ;;
    match r with
    | Thrown err =>
        tell [Console ERROR "Error updating order status: "] ;;
        ret (Http.error_response 500 "Error updating order status")
    | Returned results =>
        sendMail w {| from := EMAIL_USER w;
                      to := NOTIFY_TO;
                      subject := "Order Status Updated";
                      text := "Order ID: " ++ JS.ToString order_id ++ Sensors.nl
                              ++ "Status: " ++ JS.ToString status |} ;;
        ret (Http.ok_response
               (Http.JObject
                  [("message", Http.JVal (JS.Str "Order status updated successfully"));
                   ("notification",
                    Http.JObject [("text", Http.JVal (JS.Str "Order update"));
                                  ("status", Http.JVal status);
                                  ("order_id", Http.JVal order_id)])]))
    end.

(** [POST /register-token] with body [b] ([None] when the request has no
    parsed body): the response and the push provider's state after it.
    [subscribe] is what [subscribeToTopic] does with the token. *)
Definition register_token (w : world) (subscribe : JS.value -> outcome unit)
  (a : admin) (b : option JS.object) : M (Http.response * admin) :=
  let b' := match b with Some o => o | None => [] end in
  let token := JS.get b' "token" in
  let worker_id := JS.get b' "worker_id" in
  if negb (JS.truthy token) then
    ret (Http.error_response 400 "token is required", a)
  else
    r <- Http.query_exec (db w) CREATE_TOKENS_SQL [] ;;
    (match r with
     | Thrown err => tell [Console ERROR "[Tokens] Failed to ensure device_tokens table:"]
     | Returned _ => ret tt
     end) ;;
    r2 <- Http.query_exec (db w) UPSERT_TOKEN_SQL [JS.or worker_id JS.Null; token] ;;
    match r2 with
    | Thrown err2 =>
        tell [Console ERROR "[Tokens] Failed to insert token:"] ;;
        ret (Http.error_response 500 "Failed to save token", a)
    | Returned _ =>
        a' <- (if (0 <? apps a)%nat then
                 try_catch
                   (_ <- await (subscribe token) ;;
                    tell [Console LOG "[FCM-worker] Token subscribed to topic feeding"] ;;
                    ret {| apps := apps a;
                           subscriptions := subscriptions a ++ [(token, "feeding")] |})
                   (fun subErr =>
                      tell [Console ERROR "[FCM-worker] Failed to subscribe token to topic:"] ;;
                      ret a)
               else ret a) ;;
        ret (Http.ok_response (Http.JObject [("success", Http.JVal (JS.Bool true))]), a')
    end.

(** [workerResults[0].worker_id || workerResults[0].id]. *)
Definition worker_id_of (row : JS.object) : JS.value :=
  JS.or (JS.get row "worker_id") (JS.get row "id").

(** The handler of [GET /tasks], run with [req.user = user]. *)
Definition tasks (w : world) (user : JS.object) : M Http.response :=
  let userEmail := JS.get user "email" in
  if negb (JS.truthy userEmail) then
    ret (Http.error_response 400 "Invalid user email in token")
  else
    r <- Http.query_rows (db w) WORKER_ID_SQL [userEmail] ;;
    match r with
    | Thrown err => ret (Http.error_response 500 "Error fetching worker ID")
    | Returned [] => ret (Http.error_response 404 "Worker not found")
    | Returned (first :: _) =>
        let workerId := worker_id_of first in
        r2 <- Http.query_rows (db w) TASKS_SQL [workerId] ;;
        match r2 with
        | Thrown err => ret (Http.error_response 500 "Error fetching tasks")
        | Returned results => ret (Http.ok_response (Http.of_rows results))
        end
    end.

(** [task_id === undefined || task_id === null || task_id === '']. *)
Definition task_id_missing (task_id : JS.value) : bool :=
  (JS.strict_eq task_id JS.Undefined || JS.strict_eq task_id JS.Null
   || JS.strict_eq task_id (JS.Str EmptyString))%bool.

(** The handler of [PATCH /update-task-status], run with [req.user = user]
    and body [b]; destructuring an absent body throws. *)
Definition update_task_status (w : world) (b : option JS.object) (user : JS.object)
  : M Http.response :=
  match b with
  | None => throw TypeError
  | Some b' =>
      let task_id := JS.get b' "task_id" in
      let userEmail := JS.get user "email" in
      if task_id_missing task_id then
        ret (Http.error_response 400 "Task ID is required")
      else
        r <- Http.query_rows (db w) WORKER_ID_SQL [userEmail] ;;
        match r with
        | Thrown err => ret (Http.error_response 500 "Error fetching worker ID")
        | Returned [] => ret (Http.error_response 404 "Worker not found")
        | Returned (first :: _) =>
            let workerId := worker_id_of first in
            r2 <- Http.query_exec (db w) UPDATE_TASK_SQL [task_id; workerId] ;;
            match r2 with
            | Thrown err =>
                tell [Console ERROR "Error updating task status: "] ;;
                ret (Http.error_response 500 "Error updating task status")
            | Returned results =>
                if JS.strict_eq (JS.get results "affectedRows") (JS.Num 0) then
                  ret (Http.error_response 404 "Task not found or not assigned to this worker")
                else
                  r3 <- Http.query_rows (db w) TASK_STATUS_SQL [task_id; workerId] ;;
                  match r3 with
                  | Thrown err =>
                      tell [Console ERROR "Error fetching task status: "] ;;
                      ret (Http.error_response 500 "Error fetching task status")
                  | Returned taskResults =>
                      let currentStatus :=
                        match taskResults with
                        | row :: _ => JS.get row "status"
                        | [] => JS.Str "completed"
                        end in
                      sendMail w {| from := EMAIL_USER w;
                                    to := NOTIFY_TO;
                                    subject := "Task Status Updated";
                                    text := "Task ID: " ++ JS.ToString task_id ++ Sensors.nl
                                            ++ "Status: " ++ JS.ToString currentStatus |} ;;
                      ret (Http.ok_response
                             (Http.JObject
                                [("message",
                                  Http.JVal (JS.Str "Task status updated to completed successfully"));
                                 ("current_status", Http.JVal currentStatus);
                                 ("notification",
                                  Http.JObject [("text", Http.JVal (JS.Str "Task update"));
                                                ("status", Http.JVal currentStatus);
                                                ("task_id", Http.JVal task_id)])]))
                  end
            end
        end
  end.

(** The two routes as they are registered, behind the middleware. *)
Definition get_tasks (verify : JS.value -> outcome JS.object) (w : world)
  (req : Auth.request) : M Http.response :=
  Auth.guarded verify req (tasks w).

Definition patch_update_task_status (verify : JS.value -> outcome JS.object) (w : world)
  (req : Auth.request) : M Http.response :=
  Auth.guarded verify req (update_task_status w (Auth.body req)).

End WithHost.

End WorkerRoutes.

(* ===================================================================== *)
(** ** Push provider start-up *)
(* ===================================================================== *)

Module Firebase.

(** Where credentials can come from at start-up.  Loading from a source
    (parsing or requiring the account, building the credential and
    initialising the app) is one step of the code, which either completes
    or throws. *)
Record sources : Type := {
  FIREBASE_SERVICE_ACCOUNT : JS.value;
  from_service_account : outcome unit;
  GOOGLE_APPLICATION_CREDENTIALS : JS.value;
  credentials_file_exists : bool;
  from_credentials_file : outcome unit;
  default_file_exists : bool;
  from_default_file : outcome unit;
  from_application_default : outcome unit
}.

(** The console lines of one of the two start-up functions. *)
Record lines : Type := {
  from_env_line : string;
  from_file_line : string;
  from_default_line : string;
  from_adc_line : string;
  no_adc_line : string;
  none_line : string;
  failed_line : string
}.

Definition worker_lines : lines :=
  {| from_env_line := "[FCM-worker] Firebase Admin initialized from FIREBASE_SERVICE_ACCOUNT";
     from_file_line := "[FCM-worker] Firebase Admin initialized from GOOGLE_APPLICATION_CREDENTIALS";
     from_default_line := "[FCM-worker] Firebase Admin initialized from backend/google-services.json";
     from_adc_line := "[FCM-worker] Firebase Admin initialized using application default credentials";
     no_adc_line := "[FCM-worker] Application default credentials not available";
     none_line := "[FCM-worker] No firebase credentials found; FCM features will be disabled";
     failed_line := "[FCM-worker] Failed to init Firebase Admin:" |}.

Definition sensor_lines : lines :=
  {| from_env_line := "[FCM] Firebase Admin initialized from FIREBASE_SERVICE_ACCOUNT";
     from_file_line := "[FCM] Firebase Admin initialized from GOOGLE_APPLICATION_CREDENTIALS file";
     from_default_line := "[FCM] Firebase Admin initialized from backend/google-services.json";
     from_adc_line := "[FCM] Firebase Admin initialized using application default credentials";
     no_adc_line := "[FCM] Application default credentials not available";
     none_line := "[FCM] No Firebase credentials found. Set FIREBASE_SERVICE_ACCOUNT or GOOGLE_APPLICATION_CREDENTIALS or place google-services.json in backend folder";
     failed_line := "[FCM] Failed to initialize Firebase Admin:" |}.

(** One source: load from it, log, and report the new number of apps. *)
Definition load (r : outcome unit) (line : string) (apps : nat) : M nat :=
  _ <- await r ;;
  tell [Console LOG line] ;;
  ret (S apps).

(** The body shared by the two start-up functions: the number of
    initialised apps before, and after. *)
Definition init (l : lines) (s : sources) (apps : nat) : M nat :=
  try_catch
    (if (0 <? apps)%nat then ret apps
     else if JS.truthy (FIREBASE_SERVICE_ACCOUNT s) then
       load (from_service_account s) (from_env_line l) apps
     else if (JS.truthy (GOOGLE_APPLICATION_CREDENTIALS s) && credentials_file_exists s)%bool then
       load (from_credentials_file s) (from_file_line l) apps
     else if default_file_exists s then
       load (from_default_file s) (from_default_line l) apps
     else
       r <- try_catch
              (n <- load (from_application_default s) (from_adc_line l) apps ;; ret (Some n))
              (fun e => tell [Console WARN (no_adc_line l)] ;; ret None) ;;
       match r with
       | Some n => ret n
       | None => tell [Console WARN (none_line l)] ;; ret apps
       end)
    (fun err => tell [Console ERROR (failed_line l)] ;; ret apps).

(** [initFirebaseAdminForWorker()] of the worker routes. *)
Definition initFirebaseAdminForWorker : sources -> nat -> M nat := init worker_lines.

(** [initFirebaseAdmin()] of the sensor routes. *)
Definition initFirebaseAdmin : sources -> nat -> M nat := init sensor_lines.

(** The number of apps a run leaves: what it returned. *)
Definition apps_after (m : M nat) (before : nat) : nat :=
  match result m with
  | Returned n => n
  | Thrown _ => before
  end.

End Firebase.

(* ===================================================================== *)
(** ** Sensor routes: live readings, manual check, report query *)
(* ===================================================================== *)

Module SensorRoutes.

Definition REPORT_HEAD_SQL : string := "
        SELECT 
            s.Pond_ID, s.Water_Level, s.pH, s.WaterTemp, s.TDS,
            DATE_FORMAT(s.Updated_at, '%W, %d %M %Y') AS Date,
            CONCAT(LPAD(HOUR(s.Updated_at), 2, '0'), '.00') AS Time
        FROM sensors_data s
    ".
Definition REPORT_WHERE_SQL : string := " WHERE DATE(s.Updated_at) BETWEEN ? AND ?".
Definition REPORT_ORDER_SQL : string := " ORDER BY s.Updated_at DESC".
Definition SENSOR_DATA_SQL : string := "
        SELECT
            s.Pond_ID,
            s.Water_Level,
            s.pH,
            s.WaterTemp,
            s.TDS,
            DATE_FORMAT(s.Updated_at, '%Y/%m/%d') AS Date,
            CONCAT(LPAD(HOUR(s.Updated_at), 2, '0'), '.00') AS Time
        FROM sensors_data s
        ORDER BY s.Updated_at DESC
    ".

(** The statement and the bound values of [GET /downloadpdf], from the
    [start] and [end] of the query string. *)
Definition report_query (start end_ : JS.value) : string * list JS.value :=
  let sql := REPORT_HEAD_SQL in
  let params := [] in
  let '(sql, params) :=
    if (JS.truthy start && JS.truthy end_)%bool
    then ((sql ++ REPORT_WHERE_SQL)%string, params ++ [start; end_])
    else (sql, params) in
  ((sql ++ REPORT_ORDER_SQL)%string, params).

Section WithHost.
Context `{JS.Host}.

(** [GET /sensorsdatacome]. *)
Definition sensorsdatacome (w : Sensors.world) : M Http.response :=
  try_catch
    (data <- Sensors.fetchSensorDataFromESP w ;;
     ret (Http.ok_response (Http.of_object data)))
    (fun error =>
       if String.eqb (JS.name error) "AbortError" then
         ret (Http.error_response 504 "Request timed out after 30 seconds")
       else
         ret {| Http.status := 500;
                Http.body := Http.JObject
                  [("error", Http.JVal (JS.Str "Failed to fetch sensor data"));
                   ("details", Http.JVal (JS.Str (JS.message error)))] |}).


(** [GET /sensor-data]. *)
Definition sensor_data (st : Http.store) : M Http.response :=
  r <- Http.query_rows st SENSOR_DATA_SQL [] ;;
  match r with
  | Thrown err =>
      tell [Console ERROR "[Sensor Data] Query error:"] ;;
      ret {| Http.status := 500;
             Http.body := Http.JObject
               [("error", Http.JVal (JS.Str "Failed to retrieve sensor data"));
                ("details", Http.JVal (JS.Str (JS.message err)))] |}
  | Returned results => ret (Http.ok_response (Http.of_rows results))
  end.

End WithHost.

End SensorRoutes.

(* ===================================================================== *)
(** ** Settings routes: registered workers *)
(* ===================================================================== *)

Module Settings.

Definition WORKERS_SQL : string := "SELECT id, name, email, mobile_no FROM worker".
Definition UPDATE_WORKER_SQL : string := "UPDATE worker SET name = ?, email = ?, mobile_no = ? WHERE id = ?".
Definition DELETE_WORKER_SQL : string := "DELETE FROM worker WHERE id = ?".

Definition message_response (msg : string) : Http.response :=
  Http.ok_response (Http.JObject [("message", Http.JVal (JS.Str msg))]).

(** [GET /registered-workers]. *)
Definition get_registered_workers (st : Http.store) : M Http.response :=
  r <- Http.query_rows st WORKERS_SQL [] ;;
  match r with
  | Thrown err =>
      tell [Console ERROR "Error fetching workers:"] ;;
      ret (Http.error_response 500 "Error fetching workers")
  | Returned result => ret (Http.ok_response (Http.of_rows result))
  end.

(** [PUT /registered-workers/:id] with body [b]. *)
Definition put_registered_worker (st : Http.store) (id : string) (b : JS.object)
  : M Http.response :=
  let name := JS.get b "name" in
  let email := JS.get b "email" in
  let mobile_no := JS.get b "mobile_no" in
  if (negb (JS.truthy name) || negb (JS.truthy email) || negb (JS.truthy mobile_no))%bool then
    ret {| Http.status := 400;
           Http.body := Http.JObject
             [("error", Http.JVal (JS.Str "Validation Error"));
              ("message", Http.JVal (JS.Str "Name, email, and mobile_no are required"))] |}
  else
    r <- Http.query_exec st UPDATE_WORKER_SQL [name; email; mobile_no; JS.Str id] ;;
    match r with
    | Thrown err =>
        tell [Console ERROR "Error updating worker:"] ;;
        ret (Http.error_response 500 "Error updating worker")
    | Returned result =>
        if JS.strict_eq (JS.get result "affectedRows") (JS.Num 0) then
          ret (Http.error_response 404 "Worker not found")
        else ret (message_response "Worker updated successfully")
    end.

(** [DELETE /registered-workers/:id]. *)
Definition delete_registered_worker (st : Http.store) (id : string) : M Http.response :=
  r <- Http.query_exec st DELETE_WORKER_SQL [JS.Str id] ;;
  match r with
  | Thrown err =>
      tell [Console ERROR "Error deleting worker:"] ;;
      ret (Http.error_response 500 "Error deleting worker")
  | Returned result =>
      if JS.strict_eq (JS.get result "affectedRows") (JS.Num 0) then
        ret (Http.error_response 404 "Worker not found")
      else
        tell [Console LOG ("Worker with ID " ++ id ++ " deleted successfully")] ;;
        ret (message_response "Worker deleted successfully")
  end.

End Settings.

(* ===================================================================== *)
(** ** Store connection settings *)
(* ===================================================================== *)

Module DbConfig.

(** The environment variables the two connection modules read; [None] is
    an unset variable. *)
Record env : Type := {
  DB_HOST : option string;
  DB_PORT : option string;
  DB_USER : option string;
  DB_PASSWORD : option string;
  DB_NAME : option string;
  DB_SSL_CA : option string;
  NODE_ENV : option string
}.

(** The file system as the modules see it. *)
Record fs : Type := {
  existsSync : string -> bool;
  readFileSync : string -> outcome string
}.

(** [connectionConfig.ssl]: absent, a certificate, or a named profile. *)
Inductive ssl : Type :=
| NoSsl
| Ca (ca : string)
| Profile (name : string).

Record connectionConfig : Type := {
  host : JS.value;
  port : JS.value;
  user : JS.value;
  password : JS.value;
  database : JS.value;
  ssl_of : ssl
}.

(** [process.env.X] as a value. *)
Definition var (o : option string) : JS.value :=
  match o with
  | None => JS.Undefined
  | Some s => JS.Str s
  end.

(** The settings of the local-database module. *)
Definition local_config (e : env) (f : fs) : M connectionConfig :=
  let base := fun s =>
    {| host := var (DB_HOST e); port := var (DB_PORT e); user := var (DB_USER e);
       password := var (DB_PASSWORD e); database := var (DB_NAME e); ssl_of := s |} in
  match DB_SSL_CA e with
  | Some p =>
      if (JS.truthy (JS.Str p) && existsSync f p)%bool then
        ca <- await (readFileSync f p) ;;
        ret (base (Ca ca))
      else ret (base NoSsl)
  | None => ret (base NoSsl)
  end.

(** The settings of the deployed-database module. *)
Definition deployed_config (e : env) (f : fs) : M connectionConfig :=
  let base := fun s =>
    {| host := var (DB_HOST e); port := JS.or (var (DB_PORT e)) (JS.Num 3306);
       user := var (DB_USER e); password := var (DB_PASSWORD e);
       database := var (DB_NAME e); ssl_of := s |} in
  if JS.truthy (var (DB_SSL_CA e)) then
    s <- try_catch
           (if existsSync f (match DB_SSL_CA e with Some p => p | None => EmptyString end)
            then
              ca <- await (readFileSync f
                             (match DB_SSL_CA e with Some p => p | None => EmptyString end)) ;;
              ret (Ca ca)
            else ret NoSsl)
           (fun err =>
              tell [Console WARN ("Warning: Could not load SSL certificate: "
                                  ++ JS.message err)] ;;
              ret NoSsl) ;;
    ret (base s)
  else if JS.strict_eq (var (NODE_ENV e)) (JS.Str "production") then
    ret (base (Profile "Amazon RDS"))
  else ret (base NoSsl).

End DbConfig.

(* ===================================================================== *)
(** ** Notions used to state what the reminders array keeps *)
(* ===================================================================== *)

Module Reminders.

(** At most one reminder is held for any identifier. *)
Definition one_per_id (reminders : list reminder) : Prop :=
  forall id : JS.value, Worker.held_for id reminders <= 1.

(** The payloads of the realtime broadcasts of a trace, in order. *)
Fixpoint emitted (es : list effect) : list reminder :=
  match es with
  | [] => []
  | Emit _ r :: es' => r :: emitted es'
  | _ :: es' => emitted es'
  end.

(** The two decimal digits of a number below 100. *)
Definition two_digits (n : nat) : string :=
  String (ascii_of_nat (48 + n / 10)) (String (ascii_of_nat (48 + n mod 10)) EmptyString).

End Reminders.

(* ===================================================================== *)
(** ** Requests and stores on which the routes are evaluated *)
(* ===================================================================== *)

Module Inputs.

(** A verifier that knows three tokens: a worker's, an administrator's
    and an expired one; anything else is malformed. *)
Definition worker_claims : JS.object :=
  [("email", JS.Str "nimal@prawncare.lk"); ("role", JS.Str "worker")].

Definition verify (token : JS.value) : outcome JS.object :=
  if JS.strict_eq token (JS.Str "worker-token") then Returned worker_claims
  else if JS.strict_eq token (JS.Str "admin-token") then
    Returned [("email", JS.Str "owner@prawncare.lk"); ("role", JS.Str "admin")]
  else if JS.strict_eq token (JS.Str "old-token") then
    Thrown {| JS.name := "TokenExpiredError"; JS.message := "jwt expired";
              JS.code := JS.Undefined |}
  else
    Thrown {| JS.name := "JsonWebTokenError"; JS.message := "jwt malformed";
              JS.code := JS.Undefined |}.

Definition request_with (header : option string) (b : JS.object) : Auth.request :=
  {| Auth.authorization := header; Auth.body := Some b; Auth.query := Some [] |}.

(** A store with one worker and one task, in which every write affects
    one row. *)
Definition store : Http.store :=
  {| Http.select := fun sql values =>
       if String.eqb sql WorkerRoutes.WORKER_ID_SQL then Returned [[("id", JS.Num 3)]]
       else if String.eqb sql WorkerRoutes.TASK_STATUS_SQL then
         Returned [[("status", JS.Str "completed")]]
       else Returned [];
     Http.execute := fun sql values => Returned [("affectedRows", JS.Num 1)] |}.

(** A store that is down. *)
Definition broken_store : Http.store :=
  {| Http.select := fun sql values => Thrown Sample.connection_lost;
     Http.execute := fun sql values => Thrown Sample.connection_lost |}.

Definition world_on (st : Http.store) : WorkerRoutes.world :=
  {| WorkerRoutes.db := st;
     WorkerRoutes.sendMail_result := fun _ => Thrown (JS.Error "connect ECONNREFUSED");
     WorkerRoutes.EMAIL_USER := JS.Str "alerts@prawncare.lk" |}.

(** A push provider with one initialised app and no subscription yet. *)
Definition admin_ready : WorkerRoutes.admin :=
  {| WorkerRoutes.apps := 1; WorkerRoutes.subscriptions := [] |}.

(** Start-up sources: a malformed service account in the environment
    beside a usable default file. *)
Definition malformed_account : Firebase.sources :=
  {| Firebase.FIREBASE_SERVICE_ACCOUNT := JS.Str "{not json";
     Firebase.from_service_account := Thrown Sensors.SyntaxError;
     Firebase.GOOGLE_APPLICATION_CREDENTIALS := JS.Undefined;
     Firebase.credentials_file_exists := false;
     Firebase.from_credentials_file := Returned tt;
     Firebase.default_file_exists := true;
     Firebase.from_default_file := Returned tt;
     Firebase.from_application_default := Returned tt |}.

(** A deployment with a certificate path that names no file. *)
Definition production_env : DbConfig.env :=
  {| DbConfig.DB_HOST := Some "db.prawncare.lk";
     DbConfig.DB_PORT := None;
     DbConfig.DB_USER := Some "prawncare";
     DbConfig.DB_PASSWORD := Some "secret";
     DbConfig.DB_NAME := Some "prawncare";
     DbConfig.DB_SSL_CA := Some "/etc/ssl/missing.pem";
     DbConfig.NODE_ENV := Some "production" |}.

Definition no_files : DbConfig.fs :=
  {| DbConfig.existsSync := fun _ => false;
     DbConfig.readFileSync := fun _ => Thrown (JS.Error "ENOENT") |}.

Definition unreadable_files : DbConfig.fs :=
  {| DbConfig.existsSync := fun _ => true;
     DbConfig.readFileSync := fun _ => Thrown (JS.Error "EACCES") |}.

(** The payload of the end-to-end scenario as the JSON text the endpoint
    sends, its member names between double quotes, a host whose
    [JSON.parse] reads that text and the empty object, and the world of
    the scenario with the endpoint sending it. *)
Definition dq : string := String (ascii_of_nat 34) EmptyString.

Definition member (name value : string) : string := dq ++ name ++ dq ++ ":" ++ value.

Definition scenario_json : string :=
  "{" ++ member "waterLevelInside" "5" ++ "," ++ member "waterTemp" "26" ++ ","
      ++ member "tds" "300" ++ "}".

Definition json_host : JS.Host := {|
  JS.StringToNumber := fun _ => None;
  JS.NumberToString := fun q => NilZero.string_of_int (Z.to_int (Qnum q));
  JS.StringLess := String.ltb;
  JS.JSON_parse := fun s =>
    if String.eqb s scenario_json then Some Sample.snapshot
    else if String.eqb s "{}" then Some []
    else None
|}.


(** An endpoint that sends its status line after 120 ms and the
    scenario's payload 45 s after the request, and one that sends its
    status line after 120 ms and never ends the body. *)
Definition slow_body : Timeline.wire :=
  Timeline.Answers 120 200 (Timeline.Completes 44880 scenario_json).

Definition stalled_body : Timeline.wire :=
  Timeline.Answers 120 200 Timeline.Stalls.

(** The world of the end-to-end scenario with a store in which only the
    threshold row can be read. *)
Definition world_with_failing_lookup : Sensors.world :=
  {| Sensors.ESP_IP := Sensors.ESP_IP Sample.world;
     Sensors.EMAIL_USER := Sensors.EMAIL_USER Sample.world;
     Sensors.esp := Sensors.esp Sample.world;
     Sensors.db_query := fun sql values =>
       if String.eqb sql "SELECT * FROM thresholds LIMIT 1" then Returned [Sample.threshold]
       else Thrown Sample.connection_lost;
     Sensors.sendMail_result := Sensors.sendMail_result Sample.world;
     Sensors.FCM_SERVER_KEY := Sensors.FCM_SERVER_KEY Sample.world;
     Sensors.fcm_endpoint := Sensors.fcm_endpoint Sample.world |}.

End Inputs.

(* ===================================================================== *)
(** ** Reading the texts of a trace *)
(* ===================================================================== *)

Module Traces.

(** The mails of a trace, in order. *)
Fixpoint mails_sent (es : list effect) : list mail_options :=
  match es with
  | [] => []
  | SendMail m :: es' => m :: mails_sent es'
  | _ :: es' => mails_sent es'
  end.

(** The messages handed to the Admin SDK in a trace, in order. *)
Fixpoint admin_sends (es : list effect) : list fcm_message :=
  match es with
  | [] => []
  | AdminSend m :: es' => m :: admin_sends es'
  | _ :: es' => admin_sends es'
  end.

(** The bodies of the posted pushes of a trace, in order. *)
Fixpoint push_bodies (es : list effect) : list string :=
  match es with
  | [] => []
  | HttpPost _ _ b :: es' => b :: push_bodies es'
  | _ :: es' => push_bodies es'
  end.

End Traces.

(* ===================================================================== *)
(** ** Facts about the JavaScript operators *)
(* ===================================================================== *)

Section JSFacts.
Import JS.

Lemma strict_eq_refl (v : value) : strict_eq v v = true.
Proof.
  destruct v as [| |b|q|s]; simpl; trivial.
  - destruct b; reflexivity.
  - apply Qeq_bool_refl.
  - apply String.eqb_refl.
Qed.

Lemma strict_eq_sym (a b : value) : strict_eq a b = strict_eq b a.
Proof.
  destruct a as [| |x|x|x], b as [| |y|y|y]; simpl; trivial.
  - destruct x, y; reflexivity.
  - destruct (Qeq_bool x y) eqn:E, (Qeq_bool y x) eqn:E'; trivial.
    + apply Qeq_bool_sym in E. congruence.
    + apply Qeq_bool_sym in E'. congruence.
  - apply String.eqb_sym.
Qed.

Lemma strict_eq_trans (a b c : value) :
  strict_eq a b = true -> strict_eq b c = true -> strict_eq a c = true.
Proof.
  destruct a as [| |x|x|x], b as [| |y|y|y], c as [| |z|z|z];
    simpl; trivial; try discriminate.
  - destruct x, y, z; trivial.
  - apply Qeq_bool_trans.
  - intros E1 E2. apply String.eqb_eq in E1, E2. subst. apply String.eqb_refl.
Qed.

(** An identifier that differs from one of two equal identifiers differs
    from the other. *)
Lemma strict_eq_neq_l (a b c : value) :
  strict_eq a b = true -> strict_eq c b = false -> strict_eq a c = false.
Proof.
  intros Eab Ecb. destruct (strict_eq a c) eqn:Eac; trivial.
  rewrite strict_eq_sym in Eac.
  rewrite (strict_eq_trans c a b Eac Eab) in Ecb. discriminate.
Qed.

Lemma Qlt_bool_iff (x y : Q) : Qlt_bool x y = true <-> (x < y)%Q.
Proof.
  unfold Qlt_bool. rewrite negb_true_iff.
  split; intros E.
  - apply Qnot_le_lt. intros L. apply Qle_bool_iff in L. congruence.
  - destruct (Qle_bool y x) eqn:L; trivial.
    apply Qle_bool_iff in L. exfalso. exact (Qlt_not_le _ _ E L).
Qed.

Lemma Qlt_bool_false_iff (x y : Q) : Qlt_bool x y = false <-> (y <= x)%Q.
Proof.
  unfold Qlt_bool. rewrite negb_false_iff. apply Qle_bool_iff.
Qed.

End JSFacts.

(* ===================================================================== *)
(** ** Facts about the monad *)
(* ===================================================================== *)

Lemma effects_bind {A B} (m : M A) (k : A -> M B) (a : A) :
  result m = Returned a -> effects (bind m k) = effects m ++ effects (k a).
Proof. unfold effects, result, bind. intros ->. reflexivity. Qed.


Lemma bind_thrown {A B} (m : M A) (k : A -> M B) (e : JS.error) :
  result m = Thrown e -> bind m k = (effects m, Thrown e).
Proof. unfold effects, result, bind. intros ->. reflexivity. Qed.

(* ===================================================================== *)
(** ** Feeding reminders: the dedup store *)
(* ===================================================================== *)

Section WorkerFacts.
Context `{JS.Host}.
Import Worker.

Lemma strict_eq_congr (a b c : JS.value) :
  JS.strict_eq a b = true -> JS.strict_eq c a = JS.strict_eq c b.
Proof.
  intros E. destruct (JS.strict_eq c a) eqn:Eca.
  - symmetry. exact (strict_eq_trans c a b Eca E).
  - destruct (JS.strict_eq c b) eqn:Ecb; trivial.
    rewrite strict_eq_sym in E.
    rewrite (strict_eq_trans c b a Ecb E) in Eca. discriminate.
Qed.

Lemma exists_for_app (rs : list reminder) (r : reminder) (id : JS.value) :
  exists_for (rs ++ [r]) id = exists_for rs id || JS.strict_eq (feeding_ID r) id.
Proof.
  unfold exists_for. rewrite existsb_app. simpl. rewrite orb_false_r. reflexivity.
Qed.

Lemma exists_for_congr (rs : list reminder) (a b : JS.value) :
  JS.strict_eq a b = true -> exists_for rs a = exists_for rs b.
Proof.
  intros E. unfold exists_for. induction rs as [|r rs IH]; simpl; trivial.
  rewrite IH, (strict_eq_congr a b (feeding_ID r) E). reflexivity.
Qed.

Lemma held_for_app (rs : list reminder) (r : reminder) (id : JS.value) :
  held_for id (rs ++ [r]) =
  held_for id rs + (if JS.strict_eq (feeding_ID r) id then 1 else 0).
Proof.
  unfold held_for. rewrite filter_app, length_app. simpl.
  destruct (JS.strict_eq (feeding_ID r) id); reflexivity.
Qed.

Lemma held_for_none (rs : list reminder) (id : JS.value) :
  exists_for rs id = false -> held_for id rs = 0.
Proof.
  unfold exists_for, held_for. induction rs as [|r rs IH]; simpl; trivial.
  intros E. apply orb_false_iff in E. destruct E as [E1 E2].
  rewrite E1. auto.
Qed.

Lemma broadcasts_for_app (id : JS.value) (es es' : list effect) :
  broadcasts_for id (es ++ es') = broadcasts_for id es + broadcasts_for id es'.
Proof. unfold broadcasts_for. rewrite filter_app, length_app. reflexivity. Qed.

(** A dispatch broadcasts its reminder once, whatever the push provider does. *)
Lemma dispatch_broadcasts (f : fcm) (rem : reminder) (id : JS.value) :
  broadcasts_for id (effects (dispatch f rem)) =
  if JS.strict_eq (feeding_ID rem) id then 1 else 0.
Proof.
  unfold dispatch, sendFeedingPush.
  destruct (apps_initialized f); simpl.
  - match goal with |- context [send f ?m] => destruct (send f m) end;
      unfold broadcasts_for; simpl;
      destruct (JS.strict_eq (feeding_ID rem) id); reflexivity.
  - unfold broadcasts_for; simpl.
    destruct (JS.strict_eq (feeding_ID rem) id); reflexivity.
Qed.

(** While a reminder is held for an identifier, the loop body neither
    adds one for it nor broadcasts for it. *)
Lemma forEach_row_held (f : fcm) (ct : string) (st : list reminder * list effect)
  (r : row) (id : JS.value) :
  exists_for (fst st) id = true ->
  exists_for (fst (forEach_row f ct st r)) id = true /\
  held_for id (fst (forEach_row f ct st r)) = held_for id (fst st) /\
  broadcasts_for id (snd (forEach_row f ct st r)) = broadcasts_for id (snd st).
Proof.
  intros L. unfold forEach_row, tryCreate.
  destruct (exists_for (fst st) (row_feeding_ID r)) eqn:E; cbn [negb fst snd]; auto.
  assert (N : JS.strict_eq (row_feeding_ID r) id = false).
  { destruct (JS.strict_eq (row_feeding_ID r) id) eqn:X; trivial.
    rewrite (exists_for_congr _ _ _ X) in E. congruence. }
  rewrite exists_for_app, held_for_app, broadcasts_for_app, dispatch_broadcasts.
  cbn [new_reminder feeding_ID]. rewrite N, L. repeat split; lia.
Qed.

Lemma fold_forEach_row_held (f : fcm) (ct : string) (rows : list row) (id : JS.value) :
  forall st : list reminder * list effect,
    exists_for (fst st) id = true ->
    exists_for (fst (fold_left (forEach_row f ct) rows st)) id = true /\
    held_for id (fst (fold_left (forEach_row f ct) rows st)) = held_for id (fst st) /\
    broadcasts_for id (snd (fold_left (forEach_row f ct) rows st)) =
      broadcasts_for id (snd st).
Proof.
  induction rows as [|r rows IH]; intros st L; simpl; auto.
  destruct (forEach_row_held f ct st r id L) as (L1 & C1 & B1).
  destruct (IH _ L1) as (L2 & C2 & B2).
  repeat split; congruence.
Qed.

Lemma scan_held (f : fcm) (now : date) (results : outcome (list row))
  (rs : list reminder) (id : JS.value) :
  exists_for rs id = true ->
  exists_for (fst (scan f now results rs)) id = true /\
  held_for id (fst (scan f now results rs)) = held_for id rs /\
  broadcasts_for id (snd (scan f now results rs)) = 0.
Proof.
  intros L. unfold scan. destruct results as [rows|err]; cbn [fst snd app]; auto.
  destruct (0 <? List.length rows)%nat; cbn [fst snd]; auto.
  destruct (fold_forEach_row_held f (currentTime now) rows id
              (rs, [Query SCAN_SQL [JS.Str (currentTime now); JS.Str (currentTime now)]]) L)
    as (A & B & C).
  auto.
Qed.

Lemma acknowledge_other (id' id : JS.value) (rs : list reminder) :
  JS.strict_eq id' id = false ->
  exists_for (snd (acknowledge id' rs)) id = exists_for rs id /\
  held_for id (snd (acknowledge id' rs)) = held_for id rs.
Proof.
  intros N. unfold acknowledge. destruct (JS.truthy id'); simpl; auto.
  unfold exists_for, held_for.
  induction rs as [|r rs [IH1 IH2]]; simpl; auto.
  destruct (JS.strict_eq (feeding_ID r) id) eqn:E.
  - rewrite (strict_eq_neq_l _ _ _ E N). simpl. rewrite E. simpl. auto.
  - destruct (JS.strict_eq (feeding_ID r) id'); simpl; rewrite ?E; simpl; auto.
Qed.

Lemma run_held (id : JS.value) (ops : list op) :
  forall rs : list reminder,
    Forall (keeps id) ops ->
    exists_for rs id = true ->
    exists_for (fst (run rs ops)) id = true /\
    held_for id (fst (run rs ops)) = held_for id rs /\
    broadcasts_for id (snd (run rs ops)) = 0.
Proof.
  induction ops as [|o ops IH]; intros rs K L; simpl; auto.
  inversion K as [|? ? Ko Kops]; subst.
  assert (S1 : exists_for (fst (step rs o)) id = true /\
               held_for id (fst (step rs o)) = held_for id rs /\
               broadcasts_for id (snd (step rs o)) = 0).
  { destruct o as [f now results|id']; simpl.
    - apply scan_held; assumption.
    - simpl in Ko. destruct (acknowledge_other id' id rs Ko) as [A1 A2].
      rewrite A1, A2. auto. }
  destruct S1 as (L1 & C1 & B1).
  destruct (IH _ Kops L1) as (L2 & C2 & B2).
  rewrite broadcasts_for_app. repeat split; try congruence. lia.
Qed.

(** After the loop body has seen a row, a reminder is held for it. *)
Lemma forEach_row_holds (f : fcm) (ct : string) (st : list reminder * list effect)
  (r : row) :
  exists_for (fst (forEach_row f ct st r)) (row_feeding_ID r) = true.
Proof.
  unfold forEach_row, tryCreate.
  destruct (exists_for (fst st) (row_feeding_ID r)) eqn:E; cbn [negb fst snd]; trivial.
  rewrite exists_for_app. cbn [new_reminder feeding_ID].
  rewrite strict_eq_refl. apply orb_true_r.
Qed.

Lemma fold_forEach_row_holds (f : fcm) (ct : string) (rows : list row) (r : row) :
  forall st : list reminder * list effect,
    In r rows ->
    exists_for (fst (fold_left (forEach_row f ct) rows st)) (row_feeding_ID r) = true.
Proof.
  induction rows as [|x rows IH]; intros st I; [destruct I|].
  simpl. destruct I as [->|I]; [|apply IH; exact I].
  apply fold_forEach_row_held. apply forEach_row_holds.
Qed.

Lemma fold_forEach_row_silent (f : fcm) (ct : string) (rows : list row) :
  forall st : list reminder * list effect,
    (forall r, In r rows -> exists_for (fst st) (row_feeding_ID r) = true) ->
    fold_left (forEach_row f ct) rows st = st.
Proof.
  induction rows as [|x rows IH]; intros st All; trivial.
  simpl.
  assert (E : forEach_row f ct st x = st).
  { unfold forEach_row, tryCreate. rewrite (All x (or_introl eq_refl)). reflexivity. }
  rewrite E. apply IH. intros r I. apply All. right. exact I.
Qed.

(** Running the scan again on the same rows, with nothing acknowledged in
    between, changes no reminder and adds nothing to the trace but the
    statement it sends. *)
Lemma rescan_is_silent (f f' : fcm) (now now' : date) (rows : list row)
  (reminders : list reminder) :
  scan f' now' (Returned rows) (fst (scan f now (Returned rows) reminders)) =
  (fst (scan f now (Returned rows) reminders),
   [Query SCAN_SQL [JS.Str (currentTime now'); JS.Str (currentTime now')]]).
Proof.
  unfold scan. destruct (0 <? List.length rows)%nat; trivial.
  apply fold_forEach_row_silent. intros r I. cbn [fst].
  apply fold_forEach_row_holds. exact I.
Qed.

(** C1. Dedup invariant of the feeding scan.  When no reminder is held for
    a row's feeding identifier, the loop body creates one (the create
    returns the new, unacknowledged reminder), appends it and broadcasts it
    once.  From then on, through any further scans and any acknowledgments
    of other identifiers, a create for the same identifier returns none,
    the loop body changes neither the reminders nor the trace (no
    broadcast, no push), no broadcast for the identifier occurs, and
    exactly one reminder is held for it. *)
Theorem dedup_invariant (f : fcm) (ct : string) (r : row) (reminders : list reminder) :
  exists_for reminders (row_feeding_ID r) = false ->
  tryCreate reminders ct r = Some (new_reminder ct r) /\
  acknowledged (new_reminder ct r) = false /\
  fst (forEach_row f ct (reminders, []) r) = reminders ++ [new_reminder ct r] /\
  broadcasts_for (row_feeding_ID r) (snd (forEach_row f ct (reminders, []) r)) = 1 /\
  forall (ops : list op) (f' : fcm) (ct' : string) (r' : row) (out : list effect),
    Forall (keeps (row_feeding_ID r)) ops ->
    JS.strict_eq (row_feeding_ID r') (row_feeding_ID r) = true ->
    let later := run (reminders ++ [new_reminder ct r]) ops in
    tryCreate (fst later) ct' r' = None /\
    forEach_row f' ct' (fst later, out) r' = (fst later, out) /\
    broadcasts_for (row_feeding_ID r) (snd later) = 0 /\
    held_for (row_feeding_ID r) (fst later) = 1.
Proof.
  intros Fresh.
  assert (T : tryCreate reminders ct r = Some (new_reminder ct r)).
  { unfold tryCreate. rewrite Fresh. reflexivity. }
  split; [exact T|]. split; [reflexivity|].
  unfold forEach_row at 1 2. cbn [fst snd]. rewrite T. cbn [fst snd app].
  split; [reflexivity|].
  split.
  { rewrite dispatch_broadcasts. cbn [new_reminder feeding_ID].
    rewrite strict_eq_refl. reflexivity. }
  intros ops f' ct' r' out K Same.
  set (later := run (reminders ++ [new_reminder ct r]) ops).
  assert (L0 : exists_for (reminders ++ [new_reminder ct r]) (row_feeding_ID r) = true).
  { rewrite exists_for_app. cbn [new_reminder feeding_ID].
    rewrite strict_eq_refl. apply orb_true_r. }
  destruct (run_held (row_feeding_ID r) ops _ K L0) as (L & C & B).
  fold later in L, C, B.
  assert (T' : tryCreate (fst later) ct' r' = None).
  { unfold tryCreate. rewrite (exists_for_congr _ _ _ Same), L. reflexivity. }
  split; [exact T'|].
  split; [unfold forEach_row; cbn [fst snd]; rewrite T'; reflexivity|].
  split; [exact B|].
  rewrite C, held_for_app, (held_for_none _ _ Fresh).
  cbn [new_reminder feeding_ID]. rewrite strict_eq_refl. reflexivity.
Qed.

(** What [POST /acknowledge] answers for a request with a parsed body
    (C4, as the code has it).  The route is its guard on the body's
    [feeding_ID] followed by the removal.  For an identifier that passes
    the guard the response is status 200 with [success: true], whether or
    not a reminder was held; every reminder with that identifier is
    removed and no other; with none held the reminders are unchanged; a
    second acknowledgment answers as the first and changes nothing.  For
    an identifier that does not pass the guard the response is status 400,
    carries no success flag, and nothing is removed.  In neither case does
    the response tell whether a reminder was removed. *)
Theorem acknowledge_always_succeeds (b : JS.object) (reminders : list reminder) :
  let id := JS.get b "feeding_ID" in
  let first := acknowledge id reminders in
  let second := acknowledge id (snd first) in
  WorkerRoutes.post_acknowledge (Some b) reminders =
    (([], Returned (fst first)), snd first) /\
  WorkerRoutes.post_acknowledge (Some b) (snd first) =
    (([], Returned (fst second)), snd second) /\
  (JS.truthy id = true ->
     status (fst first) = 200 /\
     success_of (fst first) = Some true /\
     snd first = filter (fun rem => negb (JS.strict_eq (feeding_ID rem) id)) reminders /\
     exists_for (snd first) id = false /\
     (exists_for reminders id = false -> snd first = reminders) /\
     fst second = fst first /\
     success_of (fst second) = Some true /\
     snd second = snd first) /\
  (JS.truthy id = false ->
     status (fst first) = 400 /\
     success_of (fst first) = None /\
     snd first = reminders).
Proof.
  cbv zeta. set (id := JS.get b "feeding_ID").
  split; [reflexivity|]. split; [reflexivity|]. clearbody id. split.
  - intros T. unfold acknowledge. rewrite T.
    cbn [negb fst snd status success_of payload].
    assert (Gone : forall rs,
      exists_for (filter (fun rem => negb (JS.strict_eq (feeding_ID rem) id)) rs) id = false).
    { unfold exists_for. induction rs as [|x rs IH]; simpl; trivial.
      destruct (JS.strict_eq (feeding_ID x) id) eqn:E; simpl; rewrite ?E; auto. }
    assert (Same : forall rs, exists_for rs id = false ->
      filter (fun rem => negb (JS.strict_eq (feeding_ID rem) id)) rs = rs).
    { unfold exists_for. induction rs as [|x rs IH]; simpl; trivial.
      intros E. apply orb_false_iff in E. destruct E as [E1 E2].
      rewrite E1. simpl. f_equal. auto. }
    repeat split; auto.
  - intros F. unfold acknowledge. rewrite F. repeat split.
Qed.

(** With a parsed body, an acknowledgment whose [feeding_ID] is missing or
    empty (any value the guard [!feeding_ID] takes for absent) is
    answered with status 400 and leaves the reminders as they were. *)
Lemma acknowledge_rejects_missing_id (id : JS.value) (reminders : list reminder) :
  JS.truthy id = false ->
  acknowledge id reminders =
    ({| status := 400; payload := ErrorBody "feeding_ID is required" |}, reminders).
Proof.
  intros F. unfold acknowledge. rewrite F. reflexivity.
Qed.

Lemma post_acknowledge_rejects_missing_id (b : JS.object) (reminders : list reminder) :
  JS.truthy (JS.get b "feeding_ID") = false ->
  WorkerRoutes.post_acknowledge (Some b) reminders =
    (([], Returned {| status := 400; payload := ErrorBody "feeding_ID is required" |}),
     reminders).
Proof.
  intros F. unfold WorkerRoutes.post_acknowledge.
  rewrite (acknowledge_rejects_missing_id _ reminders F). reflexivity.
Qed.

End WorkerFacts.

Section WorkerRuns.
Import Worker.

Lemma dedup_invariant_witness :
  @exists_for [] (row_feeding_ID Sample.entry) = false /\
  @tryCreate Sample.host [] "13:50:00" Sample.entry =
    Some (@new_reminder Sample.host "13:50:00" Sample.entry) /\
  @tryCreate Sample.host
    (fst (@run Sample.host ([] ++ [@new_reminder Sample.host "13:50:00" Sample.entry])
            [Scan Sample.failing_fcm Sample.now (Returned [Sample.entry]);
             Acknowledge (JS.Num 8)]))
    "13:51:00" Sample.entry = None.
Proof.
  split; [reflexivity|].
  destruct (@dedup_invariant Sample.host Sample.working_fcm "13:50:00" Sample.entry []
              eq_refl) as (A & _ & _ & _ & D).
  split; [exact A|].
  refine (proj1 (D _ Sample.working_fcm "13:51:00" Sample.entry [] _ _)).
  - repeat constructor.
  - reflexivity.
Defined.

(** C4, as the specification words it, fails: with no reminder held for
    identifier 7 the acknowledgment removes nothing, yet the boolean of
    its response is [true], not [false]. *)
Lemma acknowledge_unknown_returns_true :
  @exists_for [] (JS.Num 7) = false /\
  snd (@acknowledge Sample.host (JS.Num 7) []) = [] /\
  success_of (fst (@acknowledge Sample.host (JS.Num 7) [])) = Some true /\
  success_of (fst (@acknowledge Sample.host (JS.Num 7) [])) <> Some false /\
  @WorkerRoutes.post_acknowledge Sample.host (Some [("feeding_ID", JS.Num 7)]) [] =
    (([], Returned (fst (@acknowledge Sample.host (JS.Num 7) []))), []).
Proof.
  repeat split; try reflexivity. discriminate.
Qed.

Lemma acknowledge_always_succeeds_witness :
  JS.truthy (JS.get [("feeding_ID", JS.Num 7)] "feeding_ID") = true /\
  JS.truthy (JS.get [("feeding_ID", JS.Num 0)] "feeding_ID") = false /\
  success_of (fst (@acknowledge Sample.host (JS.Num 7)
                     [@new_reminder Sample.host "13:50:00" Sample.entry])) = Some true /\
  success_of (fst (@acknowledge Sample.host (JS.Num 7)
                     (snd (@acknowledge Sample.host (JS.Num 7)
                             [@new_reminder Sample.host "13:50:00" Sample.entry]))))
    = Some true /\
  status (fst (@acknowledge Sample.host (JS.Num 0)
                 [@new_reminder Sample.host "13:50:00" Sample.entry])) = 400.
Proof.
  split; [reflexivity|]. split; [reflexivity|].
  destruct (proj1 (proj2 (proj2 (@acknowledge_always_succeeds Sample.host
              [("feeding_ID", JS.Num 7)]
              [@new_reminder Sample.host "13:50:00" Sample.entry]))) eq_refl)
    as (_ & A & _ & _ & _ & _ & B & _).
  split; [exact A|]. split; [exact B|].
  exact (proj1 (proj2 (proj2 (proj2 (@acknowledge_always_succeeds Sample.host
              [("feeding_ID", JS.Num 0)]
              [@new_reminder Sample.host "13:50:00" Sample.entry]))) eq_refl)).
Defined.

(** C10 on a request without a parsed body.  The handler throws while
    destructuring the body, before its guard: the run ends in a thrown
    [TypeError] and not in a response, so no status 400 is sent; the
    reminder held is left as it was.  With a parsed body that lacks the
    identifier the same store gets the 400 response. *)
Theorem acknowledge_without_body_throws :
  @WorkerRoutes.post_acknowledge Sample.host None
    [@new_reminder Sample.host "13:50:00" Sample.entry] =
    (([], Thrown WorkerRoutes.TypeError),
     [@new_reminder Sample.host "13:50:00" Sample.entry]) /\
  (forall r : response,
     result (fst (@WorkerRoutes.post_acknowledge Sample.host None
                    [@new_reminder Sample.host "13:50:00" Sample.entry])) <> Returned r) /\
  @WorkerRoutes.post_acknowledge Sample.host (Some [])
    [@new_reminder Sample.host "13:50:00" Sample.entry] =
    (([], Returned {| status := 400; payload := ErrorBody "feeding_ID is required" |}),
     [@new_reminder Sample.host "13:50:00" Sample.entry]).
Proof.
  split; [reflexivity|]. split; [intros r; discriminate | reflexivity].
Qed.

End WorkerRuns.

(* ===================================================================== *)
(** ** Condition check: the threshold evaluator *)
(* ===================================================================== *)

Section EvaluatorFacts.
Context `{JS.Host}.
Import Sensors.

Lemma prefix_empty (s : string) : String.prefix EmptyString s = true.
Proof. destruct s; reflexivity. Qed.

Lemma alert_for_own (m : metric) (v lo hi : JS.value) :
  alert_for m (alert_text m v lo hi) = true.
Proof. destruct m; unfold alert_for; simpl; apply prefix_empty. Qed.

Lemma alert_for_other (m m' : metric) (v lo hi : JS.value) :
  m <> m' -> alert_for m (alert_text m' v lo hi) = false.
Proof. destruct m, m'; intros N; try congruence; reflexivity. Qed.

Lemma metric_of_text (m : metric) (v lo hi : JS.value) :
  metric_of (alert_text m v lo hi) = Some m.
Proof.
  unfold metric_of. destruct m.
  - rewrite alert_for_own. reflexivity.
  - rewrite alert_for_other by discriminate. rewrite alert_for_own. reflexivity.
  - rewrite !alert_for_other by discriminate. rewrite alert_for_own. reflexivity.
Qed.

(** The [alerts] array is the three contributions, in the order of the
    three tests. *)
Lemma checkConditions_eq (p : pondData) (threshold : JS.object) :
  checkConditions p threshold =
  alert_if WaterLevel p threshold ++ alert_if Temperature p threshold
  ++ alert_if TDS p threshold.
Proof.
  unfold checkConditions, alert_if, out_of_range.
  cbn [observed min_key max_key alert_text].
  destruct (JS.less (waterLevel p) _ || JS.greater (waterLevel p) _);
  destruct (JS.less (temperature p) _ || JS.greater (temperature p) _);
  destruct (JS.less (tds p) _ || JS.greater (tds p) _); reflexivity.
Qed.

Lemma filter_own (m : metric) (p : pondData) (threshold : JS.object) :
  filter (alert_for m) (alert_if m p threshold) = alert_if m p threshold.
Proof.
  unfold alert_if. destruct (out_of_range m p threshold); simpl; trivial.
  rewrite alert_for_own. reflexivity.
Qed.

Lemma filter_other (m m' : metric) (p : pondData) (threshold : JS.object) :
  m <> m' -> filter (alert_for m) (alert_if m' p threshold) = [].
Proof.
  intros N. unfold alert_if. destruct (out_of_range m' p threshold); simpl; trivial.
  rewrite (alert_for_other _ _ _ _ _ N). reflexivity.
Qed.

(** The alerts of a metric in the array are its own contribution. *)
Lemma alerts_of_metric (m : metric) (p : pondData) (threshold : JS.object) :
  filter (alert_for m) (checkConditions p threshold) = alert_if m p threshold.
Proof.
  rewrite checkConditions_eq, !filter_app.
  destruct m;
    rewrite filter_own, !filter_other by discriminate;
    rewrite ?app_nil_r; reflexivity.
Qed.

Lemma out_of_range_numbers (m : metric) (p : pondData) (threshold : JS.object)
  (v lo hi : Q) :
  observed m p = JS.Num v ->
  JS.get threshold (min_key m) = JS.Num lo ->
  JS.get threshold (max_key m) = JS.Num hi ->
  out_of_range m p threshold = JS.Qlt_bool v lo || JS.Qlt_bool hi v.
Proof.
  intros Ev Elo Ehi. unfold out_of_range, JS.greater, JS.less.
  rewrite Ev, Elo, Ehi. reflexivity.
Qed.

(** C2. Threshold boundary.  For a metric whose observed value and bounds
    are numbers, the [alerts] array holds exactly one alert of that
    metric, with the metric's name and the observed value and range in its
    text, when the value is below [min] or above [max], and none when the
    value lies in [min, max]; in particular none at [min] and none at
    [max] of an interval. *)
Theorem threshold_boundary (m : metric) (p : pondData) (threshold : JS.object)
  (v lo hi : Q) :
  observed m p = JS.Num v ->
  JS.get threshold (min_key m) = JS.Num lo ->
  JS.get threshold (max_key m) = JS.Num hi ->
  ((v < lo \/ hi < v)%Q ->
     filter (alert_for m) (checkConditions p threshold) =
       [alert_text m (JS.Num v) (JS.Num lo) (JS.Num hi)] /\
     metric_of (alert_text m (JS.Num v) (JS.Num lo) (JS.Num hi)) = Some m) /\
  ((lo <= v /\ v <= hi)%Q ->
     filter (alert_for m) (checkConditions p threshold) = []) /\
  ((lo <= hi)%Q -> (v == lo \/ v == hi)%Q ->
     filter (alert_for m) (checkConditions p threshold) = []).
Proof.
  intros Ev Elo Ehi.
  rewrite alerts_of_metric. unfold alert_if.
  rewrite (out_of_range_numbers m p threshold v lo hi Ev Elo Ehi), Ev, Elo, Ehi.
  assert (Inside : (lo <= v /\ v <= hi)%Q ->
            (if JS.Qlt_bool v lo || JS.Qlt_bool hi v
             then [alert_text m (JS.Num v) (JS.Num lo) (JS.Num hi)] else []) = []).
  { intros [L U].
    apply Qlt_bool_false_iff in L. apply Qlt_bool_false_iff in U.
    rewrite L, U. reflexivity. }
  split; [|split].
  - intros Out. split; [|apply metric_of_text].
    assert (E : JS.Qlt_bool v lo || JS.Qlt_bool hi v = true).
    { apply orb_true_iff.
      destruct Out as [O|O]; [left|right]; apply Qlt_bool_iff; exact O. }
    rewrite E. reflexivity.
  - exact Inside.
  - intros Le [E|E]; apply Inside; rewrite E; split;
      try apply Qle_refl; exact Le.
Qed.

(** C3. Deterministic ordering.  The metrics named by the [alerts] array
    are those whose test holds, in the order water level, temperature,
    TDS; with all three tests holding the array is exactly the three
    alerts in that order.  The array depends on the threshold row through
    its property reads only, not on the order in which the row lists
    them. *)
Theorem alerts_fixed_order (p : pondData) (threshold : JS.object) :
  map metric_of (checkConditions p threshold) =
    (if out_of_range WaterLevel p threshold then [Some WaterLevel] else [])
    ++ (if out_of_range Temperature p threshold then [Some Temperature] else [])
    ++ (if out_of_range TDS p threshold then [Some TDS] else []) /\
  (out_of_range WaterLevel p threshold = true ->
   out_of_range Temperature p threshold = true ->
   out_of_range TDS p threshold = true ->
   checkConditions p threshold =
     [alert_text WaterLevel (waterLevel p) (JS.get threshold "min_water_level")
        (JS.get threshold "max_water_level");
      alert_text Temperature (temperature p) (JS.get threshold "min_temperature")
        (JS.get threshold "max_temperature");
      alert_text TDS (tds p) (JS.get threshold "min_tds") (JS.get threshold "max_tds")] /\
   map metric_of (checkConditions p threshold) =
     [Some WaterLevel; Some Temperature; Some TDS]) /\
  (forall threshold' : JS.object,
     (forall k, JS.get threshold k = JS.get threshold' k) ->
     checkConditions p threshold = checkConditions p threshold').
Proof.
  split; [|split].
  - rewrite checkConditions_eq, !map_app. unfold alert_if.
    destruct (out_of_range WaterLevel p threshold),
             (out_of_range Temperature p threshold),
             (out_of_range TDS p threshold);
      cbn [map app]; rewrite ?metric_of_text; reflexivity.
  - intros W T D. rewrite checkConditions_eq. unfold alert_if.
    rewrite W, T, D. cbn [app map observed min_key max_key].
    split; [reflexivity|]. rewrite !metric_of_text. reflexivity.
  - intros threshold' Same. unfold checkConditions. rewrite !Same. reflexivity.
Qed.

End EvaluatorFacts.

Section EvaluatorRuns.
Import Sensors.

Lemma threshold_boundary_witness :
  filter (alert_for WaterLevel)
    (@checkConditions Sample.host
       {| waterLevel := JS.Num 9; temperature := JS.Num 26; tds := JS.Num 300 |}
       Sample.threshold) =
    [@alert_text Sample.host WaterLevel (JS.Num 9) (JS.Num 10) (JS.Num 50)] /\
  filter (alert_for WaterLevel)
    (@checkConditions Sample.host
       {| waterLevel := JS.Num 10; temperature := JS.Num 26; tds := JS.Num 300 |}
       Sample.threshold) = [] /\
  filter (alert_for WaterLevel)
    (@checkConditions Sample.host
       {| waterLevel := JS.Num 50; temperature := JS.Num 26; tds := JS.Num 300 |}
       Sample.threshold) = [].
Proof.
  split; [|split].
  - refine (proj1 (proj1 (@threshold_boundary Sample.host WaterLevel
                            {| waterLevel := JS.Num 9; temperature := JS.Num 26;
                               tds := JS.Num 300 |} Sample.threshold
                            9 10 50 eq_refl eq_refl eq_refl) _)).
    left. reflexivity.
  - refine (proj2 (proj2 (@threshold_boundary Sample.host WaterLevel
                            {| waterLevel := JS.Num 10; temperature := JS.Num 26;
                               tds := JS.Num 300 |} Sample.threshold
                            10 10 50 eq_refl eq_refl eq_refl)) _ _).
    + discriminate.
    + left. reflexivity.
  - refine (proj2 (proj2 (@threshold_boundary Sample.host WaterLevel
                            {| waterLevel := JS.Num 50; temperature := JS.Num 26;
                               tds := JS.Num 300 |} Sample.threshold
                            50 10 50 eq_refl eq_refl eq_refl)) _ _).
    + discriminate.
    + right. reflexivity.
Defined.

Lemma alerts_fixed_order_witness :
  @checkConditions Sample.host
    {| waterLevel := JS.Num 5; temperature := JS.Num 40; tds := JS.Num 900 |}
    Sample.threshold =
  [ @alert_text Sample.host WaterLevel (JS.Num 5) (JS.Num 10) (JS.Num 50);
    @alert_text Sample.host Temperature (JS.Num 40) (JS.Num 20) (JS.Num 32);
    @alert_text Sample.host TDS (JS.Num 900) (JS.Num 0) (JS.Num 500) ].
Proof.
  exact (proj1 (proj1 (proj2 (@alerts_fixed_order Sample.host
    {| waterLevel := JS.Num 5; temperature := JS.Num 40; tds := JS.Num 900 |}
    Sample.threshold)) eq_refl eq_refl eq_refl)).
Defined.

End EvaluatorRuns.

(* ===================================================================== *)
(** ** Telemetry fetch *)
(* ===================================================================== *)

Section FetchFacts.
Context `{JS.Host}.
Import Sensors.

(** The run of the fetch when nothing arrives before the deadline. *)
Lemma fetch_timed_out (w : world) :
  silent_until_deadline (esp w) = true ->
  fetchSensorDataFromESP w =
    ([SetTimeout FETCH_TIMEOUT_MS; HttpGet (sensors_url w); Abort FETCH_TIMEOUT_MS;
      ClearTimeout], Thrown AbortError).
Proof.
  unfold fetchSensorDataFromESP, fetch_with_signal, silent_until_deadline.
  destruct (esp w) as [t st txt|t err|]; intros D;
    try (apply N.leb_le in D; apply N.ltb_ge in D; rewrite D); reflexivity.
Qed.

(** The run of the fetch when a response with a non-success status arrives
    in time. *)
Lemma fetch_bad_status (w : world) (t st : N) (txt : string) :
  esp w = Responds t st txt -> (t < FETCH_TIMEOUT_MS)%N -> ok st = false ->
  fetchSensorDataFromESP w =
    ([SetTimeout FETCH_TIMEOUT_MS; HttpGet (sensors_url w); ClearTimeout; ClearTimeout],
     Thrown (JS.Error ("HTTP " ++ JS.NumberToString (inject_Z (Z.of_N st)) ++ ": " ++ txt))).
Proof.
  intros E T K. apply N.ltb_lt in T.
  unfold fetchSensorDataFromESP, fetch_with_signal.
  rewrite E, T. unfold bind, try_catch. cbn. rewrite K. reflexivity.
Qed.

(** The run of the fetch when a well-formed success response arrives in
    time. *)
Lemma fetch_success (w : world) (t st : N) (txt : string) (o : JS.object) :
  esp w = Responds t st txt -> (t < FETCH_TIMEOUT_MS)%N -> ok st = true ->
  JS.JSON_parse txt = Some o ->
  fetchSensorDataFromESP w =
    ([SetTimeout FETCH_TIMEOUT_MS; HttpGet (sensors_url w); ClearTimeout], Returned o).
Proof.
  intros E T K P. apply N.ltb_lt in T.
  unfold fetchSensorDataFromESP, fetch_with_signal.
  rewrite E, T. unfold bind, try_catch. cbn. rewrite K. cbn. rewrite P. reflexivity.
Qed.

(** Every run of the fetch arms the timer first and sends one request. *)
Lemma fetch_one_request (w : world) :
  hd_error (effects (fetchSensorDataFromESP w)) = Some (SetTimeout FETCH_TIMEOUT_MS) /\
  requests (effects (fetchSensorDataFromESP w)) = [sensors_url w].
Proof.
  unfold fetchSensorDataFromESP, fetch_with_signal.
  destruct (esp w) as [t st txt|t err|]; try (split; reflexivity).
  - destruct (t <? FETCH_TIMEOUT_MS)%N; [|split; reflexivity].
    unfold bind, try_catch. cbn.
    destruct (ok st); cbn; [|split; reflexivity].
    destruct (JS.JSON_parse txt); split; reflexivity.
  - destruct (t <? FETCH_TIMEOUT_MS)%N; split; reflexivity.
Qed.

(** On an exchange whose body is there with the response, the fetch has
    settled when the timer would have fired, and what it has then done
    and thrown or returned is its run. *)
Lemma fetch_at_agrees (w : world) (now : N) :
  (FETCH_TIMEOUT_MS <= now)%N ->
  Timeline.fetchSensorDataFromESP_at (sensors_url w) (Timeline.wire_of (esp w)) now =
    (effects (fetchSensorDataFromESP w), Timeline.Settled (result (fetchSensorDataFromESP w))).
Proof.
  intros L.
  assert (W : forall t, (now <? N.min t FETCH_TIMEOUT_MS)%N = false).
  { intros t. apply N.ltb_ge. etransitivity; [apply N.le_min_r | exact L]. }
  unfold Timeline.fetchSensorDataFromESP_at, fetchSensorDataFromESP, fetch_with_signal.
  destruct (esp w) as [t st txt|t err|]; cbn [Timeline.wire_of].
  - rewrite W. destruct (t <? FETCH_TIMEOUT_MS)%N eqn:T; [|reflexivity].
    assert (D : (now <? t + 0)%N = false).
    { apply N.ltb_ge. rewrite N.add_0_r. apply N.ltb_lt in T.
      apply N.lt_le_incl. eapply N.lt_le_trans; eassumption. }
    rewrite D. unfold bind, try_catch. cbn.
    destruct (ok st); cbn; [|reflexivity].
    destruct (JS.JSON_parse txt); reflexivity.
  - rewrite W. destruct (t <? FETCH_TIMEOUT_MS)%N; reflexivity.
  - assert (D : (now <? FETCH_TIMEOUT_MS)%N = false) by (apply N.ltb_ge; exact L).
    rewrite D. reflexivity.
Qed.

(** At every time the fetch has armed its timer first and sent its one
    request. *)
Lemma fetch_at_one_request (url : string) (x : Timeline.wire) (now : N) :
  hd_error (fst (Timeline.fetchSensorDataFromESP_at url x now)) =
    Some (SetTimeout FETCH_TIMEOUT_MS) /\
  requests (fst (Timeline.fetchSensorDataFromESP_at url x now)) = [url].
Proof.
  unfold Timeline.fetchSensorDataFromESP_at.
  destruct x as [t st [d txt|d err|]|t err|];
    repeat match goal with
           | |- context [if ?b then _ else _] => destruct b
           | |- context [match JS.JSON_parse ?s with _ => _ end] => destruct (JS.JSON_parse s)
           end; split; reflexivity.
Qed.

(** Once the response or a transport failure has come before the timer
    fires, the request is not aborted, at no time. *)
Lemma fetch_at_no_abort (url : string) (x : Timeline.wire) (now : N) :
  Timeline.heard_by_deadline x = true ->
  ~ In (Abort FETCH_TIMEOUT_MS) (fst (Timeline.fetchSensorDataFromESP_at url x now)).
Proof.
  unfold Timeline.fetchSensorDataFromESP_at, Timeline.heard_by_deadline.
  destruct x as [t st [d txt|d err|]|t err|]; intros Hd; try discriminate; rewrite Hd;
    repeat match goal with
           | |- context [if ?b then _ else _] => destruct b
           | |- context [match JS.JSON_parse ?s with _ => _ end] => destruct (JS.JSON_parse s)
           end; cbn;
    intros K; repeat (destruct K as [K|K]; [discriminate|]); exact K.
Qed.

(** The telemetry fetch along the time of an exchange (C7, as the code
    has it).  At every time the fetch has armed a timer of 30000 ms and
    sent exactly one GET, so none is sent again.  The timer bounds the wait
    for the response: when neither a response nor a transport failure has
    come by the deadline the fetch is still waiting before 30000 ms, and
    from 30000 ms on the request is aborted and the fetch has thrown the
    abort error, whose name the callers test.  When the response comes in
    time the timer is cleared and no abort is ever issued, whatever the
    body does: while the body has not come to its end the fetch is still
    reading, also after 30000 ms, and when it never does the fetch never
    settles.  A non-success status is thrown, once the body has been
    read, as an error whose message carries the status and the body and
    which is not the abort error. *)
Theorem fetch_timeline (url : string) (x : Timeline.wire) (now : N) :
  FETCH_TIMEOUT_MS = 30000%N /\
  hd_error (fst (Timeline.fetchSensorDataFromESP_at url x now)) = Some (SetTimeout 30000) /\
  requests (fst (Timeline.fetchSensorDataFromESP_at url x now)) = [url] /\
  (Timeline.heard_by_deadline x = false ->
     ((now < 30000)%N ->
        Timeline.fetchSensorDataFromESP_at url x now =
          ([SetTimeout 30000; HttpGet url], Timeline.Waiting)) /\
     ((30000 <= now)%N ->
        Timeline.fetchSensorDataFromESP_at url x now =
          ([SetTimeout 30000; HttpGet url; Abort 30000; ClearTimeout],
           Timeline.Settled (Thrown AbortError))) /\
     JS.name AbortError = "AbortError") /\
  (Timeline.heard_by_deadline x = true ->
     ~ In (Abort 30000) (fst (Timeline.fetchSensorDataFromESP_at url x now))) /\
  (forall (t st : N) (body : Timeline.body_read),
     x = Timeline.Answers t st body -> (t < 30000)%N -> (t <= now)%N ->
     match body with
     | Timeline.Stalls => True
     | Timeline.Completes d _ => (now < t + d)%N
     | Timeline.Breaks d _ => (now < t + d)%N
     end ->
     Timeline.fetchSensorDataFromESP_at url x now =
       ([SetTimeout 30000; HttpGet url; ClearTimeout], Timeline.Reading)) /\
  (forall (t st d : N) (txt : string),
     x = Timeline.Answers t st (Timeline.Completes d txt) ->
     (t < 30000)%N -> (t + d <= now)%N -> ok st = false ->
     Timeline.fetchSensorDataFromESP_at url x now =
       ([SetTimeout 30000; HttpGet url; ClearTimeout; ClearTimeout],
        Timeline.Settled
          (Thrown (JS.Error ("HTTP " ++ JS.NumberToString (inject_Z (Z.of_N st))
                             ++ ": " ++ txt)))) /\
     JS.name (JS.Error ("HTTP " ++ JS.NumberToString (inject_Z (Z.of_N st)) ++ ": " ++ txt))
       <> JS.name AbortError).
Proof.
  split; [reflexivity|].
  destruct (fetch_at_one_request url x now) as [A B].
  split; [exact A|]. split; [exact B|]. split; [|split; [|split]].
  - intros Hd. unfold Timeline.fetchSensorDataFromESP_at.
    assert (Min : forall t, (t <? FETCH_TIMEOUT_MS)%N = false ->
                            N.min t FETCH_TIMEOUT_MS = FETCH_TIMEOUT_MS).
    { intros t T. apply N.min_r. apply N.ltb_ge. exact T. }
    split; [|split; [|reflexivity]].
    + intros L. apply N.ltb_lt in L. change 30000%N with FETCH_TIMEOUT_MS in L.
      destruct x as [t st body|t err|]; cbn in Hd;
        rewrite ?(Min _ Hd), L; reflexivity.
    + intros L. apply N.ltb_ge in L. change 30000%N with FETCH_TIMEOUT_MS in L.
      destruct x as [t st body|t err|]; cbn in Hd;
        rewrite ?(Min _ Hd), L, ?Hd; reflexivity.
  - apply fetch_at_no_abort.
  - intros t st body -> T Lo Pending.
    assert (T' : (t <? FETCH_TIMEOUT_MS)%N = true) by (apply N.ltb_lt; exact T).
    assert (W : (now <? N.min t FETCH_TIMEOUT_MS)%N = false).
    { apply N.ltb_ge. etransitivity; [apply N.le_min_l | exact Lo]. }
    unfold Timeline.fetchSensorDataFromESP_at. rewrite W, T'.
    destruct body as [d txt|d err|]; [| |reflexivity];
      apply N.ltb_lt in Pending; rewrite Pending; reflexivity.
  - intros t st d txt -> T Done Bad.
    assert (T' : (t <? FETCH_TIMEOUT_MS)%N = true) by (apply N.ltb_lt; exact T).
    assert (W : (now <? N.min t FETCH_TIMEOUT_MS)%N = false).
    { apply N.ltb_ge. etransitivity; [apply N.le_min_l|].
      etransitivity; [apply N.le_add_r | exact Done]. }
    apply N.ltb_ge in Done.
    unfold Timeline.fetchSensorDataFromESP_at. rewrite W, T', Done, Bad.
    split; [reflexivity | discriminate].
Qed.

End FetchFacts.

Section FetchRuns.
Import Sensors.

(** C7, as the specification words it, fails: the timer does not bound
    the fetch.  An endpoint sends its status line after 120 ms and the
    payload 45 s after the request: at 30 s the timer has been cleared,
    nothing is aborted and the fetch is still reading the body; at 45 s it
    returns the readings, not a timeout.  An endpoint that sends its
    status line and never ends the body leaves the fetch reading, an hour
    later as at 30 s, with no abort and no error. *)
Lemma slow_body_outlives_the_timeout :
  @JS.JSON_parse Inputs.json_host Inputs.scenario_json = Some Sample.snapshot /\
  @Timeline.fetchSensorDataFromESP_at Inputs.json_host
    "http://192.168.1.127/sensors" Inputs.slow_body 30000 =
    ([SetTimeout 30000; HttpGet "http://192.168.1.127/sensors"; ClearTimeout],
     Timeline.Reading) /\
  @Timeline.fetchSensorDataFromESP_at Inputs.json_host
    "http://192.168.1.127/sensors" Inputs.slow_body 45000 =
    ([SetTimeout 30000; HttpGet "http://192.168.1.127/sensors"; ClearTimeout],
     Timeline.Settled (Returned Sample.snapshot)) /\
  @Timeline.fetchSensorDataFromESP_at Inputs.json_host
    "http://192.168.1.127/sensors" Inputs.stalled_body 30000 =
    ([SetTimeout 30000; HttpGet "http://192.168.1.127/sensors"; ClearTimeout],
     Timeline.Reading) /\
  @Timeline.fetchSensorDataFromESP_at Inputs.json_host
    "http://192.168.1.127/sensors" Inputs.stalled_body 3600000 =
    ([SetTimeout 30000; HttpGet "http://192.168.1.127/sensors"; ClearTimeout],
     Timeline.Reading).
Proof. repeat split; reflexivity. Qed.

Lemma fetch_timeline_witness :
  Timeline.heard_by_deadline Timeline.Dead = false /\
  @Timeline.fetchSensorDataFromESP_at Sample.host "http://192.168.1.127/sensors"
    Timeline.Dead 29999 =
    ([SetTimeout 30000; HttpGet "http://192.168.1.127/sensors"], Timeline.Waiting) /\
  @Timeline.fetchSensorDataFromESP_at Sample.host "http://192.168.1.127/sensors"
    Timeline.Dead 30000 =
    ([SetTimeout 30000; HttpGet "http://192.168.1.127/sensors"; Abort 30000; ClearTimeout],
     Timeline.Settled (Thrown AbortError)) /\
  @Timeline.fetchSensorDataFromESP_at Sample.host "http://192.168.1.127/sensors"
    Inputs.stalled_body 3600000 =
    ([SetTimeout 30000; HttpGet "http://192.168.1.127/sensors"; ClearTimeout],
     Timeline.Reading) /\
  @Timeline.fetchSensorDataFromESP_at Sample.host "http://192.168.1.127/sensors"
    (Timeline.Answers 40 503 (Timeline.Completes 31000 "busy")) 31040 =
    ([SetTimeout 30000; HttpGet "http://192.168.1.127/sensors"; ClearTimeout; ClearTimeout],
     Timeline.Settled (Thrown (JS.Error "HTTP 503: busy"))).
Proof.
  split; [reflexivity|].
  split.
  { refine (proj1 (proj1 (proj2 (proj2 (proj2
      (@fetch_timeline Sample.host "http://192.168.1.127/sensors" Timeline.Dead 29999))))
      eq_refl) _). reflexivity. }
  split.
  { refine (proj1 (proj2 (proj1 (proj2 (proj2 (proj2
      (@fetch_timeline Sample.host "http://192.168.1.127/sensors" Timeline.Dead 30000))))
      eq_refl)) _). discriminate. }
  split.
  { refine (proj1 (proj2 (proj2 (proj2 (proj2 (proj2
      (@fetch_timeline Sample.host "http://192.168.1.127/sensors"
         Inputs.stalled_body 3600000))))))
      120%N 200%N Timeline.Stalls eq_refl eq_refl _ I). discriminate. }
  refine (proj1 (proj2 (proj2 (proj2 (proj2 (proj2 (proj2
      (@fetch_timeline Sample.host "http://192.168.1.127/sensors"
         (Timeline.Answers 40 503 (Timeline.Completes 31000 "busy")) 31040))))))
      40%N 503%N 31000%N "busy" eq_refl eq_refl _ eq_refl)).
  discriminate.
Defined.

End FetchRuns.

(* ===================================================================== *)
(** ** Condition check: the cycle and its notifications *)
(* ===================================================================== *)

Section CycleFacts.
Context `{JS.Host}.
Import Sensors.

Lemma attempted_app (c : channel) (es es' : list effect) :
  attempted c (es ++ es') = attempted c es || attempted c es'.
Proof. apply existsb_app. Qed.

Lemma try_catch_returns {A} (m : M A) (h : JS.error -> M A) (a : A) :
  result m = Returned a -> try_catch m h = m.
Proof. unfold result, try_catch. intros ->. reflexivity. Qed.



Lemma executeQuery_eq (w : world) (sql : string) (values : list JS.value) :
  executeQuery w sql values = ([Query sql values], db_query w sql values).
Proof. reflexivity. Qed.

Lemma bind_returned {A B} (es : list effect) (a : A) (k : A -> M B) :
  bind (es, Returned a) k = (es ++ effects (k a), result (k a)).
Proof. reflexivity. Qed.

Lemma result_pair {A} (es : list effect) (r : outcome A) : result (es, r) = r.
Proof. reflexivity. Qed.

Lemma effects_pair {A} (es : list effect) (r : outcome A) : effects (es, r) = es.
Proof. reflexivity. Qed.





(** The run of a cycle whose fetch returned and whose store holds no
    threshold row. *)
Lemma cycle_without_thresholds (w : world) (data : JS.object) :
  result (fetchSensorDataFromESP w) = Returned data ->
  db_query w "SELECT * FROM thresholds LIMIT 1" [] = Returned [] ->
  checkConditionsAndSendAlert w =
    (effects (fetchSensorDataFromESP w)
       ++ [Query "SELECT * FROM thresholds LIMIT 1" [];
           Console ERROR "[Alerts] No threshold configuration found"],
     Returned tt).
Proof.
  intros F Q. unfold checkConditionsAndSendAlert.
  destruct (fetchSensorDataFromESP w) as [es r]. cbn in F. subst r.
  rewrite bind_returned, executeQuery_eq, Q. reflexivity.
Qed.

(** The run of a cycle whose fetch returned, whose store holds a
    threshold row and whose [alerts] array is empty. *)
Lemma cycle_all_clear (w : world) (data threshold : JS.object) (rest : list JS.object) :
  result (fetchSensorDataFromESP w) = Returned data ->
  db_query w "SELECT * FROM thresholds LIMIT 1" [] = Returned (threshold :: rest) ->
  checkConditions {| waterLevel := JS.get data "waterLevelInside";
                     temperature := JS.get data "waterTemp";
                     tds := JS.get data "tds" |} threshold = [] ->
  checkConditionsAndSendAlert w =
    (effects (fetchSensorDataFromESP w)
       ++ [Query "SELECT * FROM thresholds LIMIT 1" [];
           Console LOG "[Alerts] All pond conditions are normal"],
     Returned tt).
Proof.
  intros F Q C. unfold checkConditionsAndSendAlert.
  destruct (fetchSensorDataFromESP w) as [es r]. cbn in F. subst r.
  rewrite bind_returned, executeQuery_eq, Q, bind_returned. cbv beta.
  rewrite C. reflexivity.
Qed.

(** A value whose numeric conversion is NaN is on neither side of numeric
    bounds. *)
Lemma nan_in_range (m : metric) (p : pondData) (threshold : JS.object) (lo hi : Q) :
  JS.ToNumber (observed m p) = None ->
  JS.get threshold (min_key m) = JS.Num lo ->
  JS.get threshold (max_key m) = JS.Num hi ->
  out_of_range m p threshold = false.
Proof.
  intros N Elo Ehi. unfold out_of_range, JS.greater, JS.less.
  rewrite Elo, Ehi.
  destruct (observed m p) as [| |b|q|s0]; cbn in N |- *;
    try discriminate; try rewrite N; reflexivity.
Qed.

(** The condition check on values it cannot compare, and without a
    threshold row (C5, as the code has it).  Without a threshold row the
    cycle logs that no configuration was found, sends nothing and returns
    normally: the error is not handed to the caller, and the all-clear
    line is not logged.  An observed value whose numeric conversion is NaN
    (a missing reading, a string that is no number) is on neither side of
    numeric bounds, so its metric contributes no alert; when the array is
    empty for a configured row the cycle logs the all-clear line. *)
Theorem unchecked_readings_raise_no_alert (w : world) (data : JS.object) :
  result (fetchSensorDataFromESP w) = Returned data ->
  (db_query w "SELECT * FROM thresholds LIMIT 1" [] = Returned [] ->
     checkConditionsAndSendAlert w =
       (effects (fetchSensorDataFromESP w)
          ++ [Query "SELECT * FROM thresholds LIMIT 1" [];
              Console ERROR "[Alerts] No threshold configuration found"],
        Returned tt)) /\
  (forall (m : metric) (p : pondData) (threshold : JS.object) (lo hi : Q),
     JS.ToNumber (observed m p) = None ->
     JS.get threshold (min_key m) = JS.Num lo ->
     JS.get threshold (max_key m) = JS.Num hi ->
     filter (alert_for m) (checkConditions p threshold) = []) /\
  (forall (threshold : JS.object) (rest : list JS.object),
     db_query w "SELECT * FROM thresholds LIMIT 1" [] = Returned (threshold :: rest) ->
     checkConditions {| waterLevel := JS.get data "waterLevelInside";
                        temperature := JS.get data "waterTemp";
                        tds := JS.get data "tds" |} threshold = [] ->
     checkConditionsAndSendAlert w =
       (effects (fetchSensorDataFromESP w)
          ++ [Query "SELECT * FROM thresholds LIMIT 1" [];
              Console LOG "[Alerts] All pond conditions are normal"],
        Returned tt)).
Proof.
  intros F. split; [|split].
  - apply cycle_without_thresholds with (data := data). exact F.
  - intros m p threshold lo hi N Elo Ehi.
    rewrite alerts_of_metric. unfold alert_if.
    rewrite (nan_in_range m p threshold lo hi N Elo Ehi). reflexivity.
  - intros threshold rest. apply cycle_all_clear. exact F.
Qed.



End CycleFacts.

Section CycleRuns.
Import Sensors.

(** C5, as the specification words it, fails: a payload with none of the
    three readings, checked against configured thresholds, is neither
    reported as an error nor skipped with one; the cycle ends with the
    all-clear line and no alert. *)
Lemma missing_readings_pass_as_all_clear :
  @checkConditionsAndSendAlert Sample.host
    (Sample.world_with (Responds 120 200 Sample.empty_text)) =
  ([SetTimeout 30000; HttpGet "http://192.168.1.127/sensors"; ClearTimeout;
    Query "SELECT * FROM thresholds LIMIT 1" [];
    Console LOG "[Alerts] All pond conditions are normal"],
   Returned tt).
Proof. reflexivity. Qed.

Lemma unchecked_readings_raise_no_alert_witness :
  result (@fetchSensorDataFromESP Sample.host
            (Sample.world_with (Responds 120 200 Sample.empty_text))) = Returned [] /\
  @checkConditionsAndSendAlert Sample.host Sample.world_without_thresholds =
    (effects (@fetchSensorDataFromESP Sample.host Sample.world_without_thresholds)
       ++ [Query "SELECT * FROM thresholds LIMIT 1" [];
           Console ERROR "[Alerts] No threshold configuration found"],
     Returned tt) /\
  filter (alert_for Temperature)
    (@checkConditions Sample.host
       {| waterLevel := JS.Num 30; temperature := JS.Undefined; tds := JS.Num 300 |}
       Sample.threshold) = [].
Proof.
  split; [reflexivity|]. split.
  - exact (proj1 (@unchecked_readings_raise_no_alert Sample.host
                    Sample.world_without_thresholds Sample.snapshot eq_refl) eq_refl).
  - exact (proj1 (proj2 (@unchecked_readings_raise_no_alert Sample.host
                    Sample.world_without_thresholds Sample.snapshot eq_refl))
             Temperature
             {| waterLevel := JS.Num 30; temperature := JS.Undefined; tds := JS.Num 300 |}
             Sample.threshold 20%Q 32%Q eq_refl eq_refl eq_refl).
Defined.



End CycleRuns.


(* ===================================================================== *)
(** ** Archival job *)
(* ===================================================================== *)

Section ArchivalFacts.
Context `{JS.Host}.
Import Sensors.

Lemma queries_app (es es' : list effect) : queries (es ++ es') = queries es ++ queries es'.
Proof.
  induction es as [|e es IH]; simpl; trivial. destruct e; simpl; rewrite ?IH; reflexivity.
Qed.

Lemma requests_app (es es' : list effect) :
  requests (es ++ es') = requests es ++ requests es'.
Proof.
  induction es as [|e es IH]; simpl; trivial. destruct e; simpl; rewrite ?IH; reflexivity.
Qed.

Lemma fetch_no_query (w : world) : queries (effects (fetchSensorDataFromESP w)) = [].
Proof.
  unfold fetchSensorDataFromESP, fetch_with_signal.
  destruct (esp w) as [t st txt|t err|]; try reflexivity.
  - destruct (t <? FETCH_TIMEOUT_MS)%N; [|reflexivity].
    unfold bind, try_catch. cbn.
    destruct (ok st); cbn; [|reflexivity].
    destruct (JS.JSON_parse txt); reflexivity.
  - destruct (t <? FETCH_TIMEOUT_MS)%N; reflexivity.
Qed.

(** On a successful fetch the job sends one statement, the insert, with
    four bound values: the constant pond 1 and the three readings. *)
Lemma saveSensorsData_query (w : world) (data : JS.object) :
  result (fetchSensorDataFromESP w) = Returned data ->
  result (saveSensorsData w) = Returned tt /\
  queries (effects (saveSensorsData w)) =
    [(INSERT_SENSORS,
      [JS.Num 1; JS.get data "waterLevelInside"; JS.get data "waterTemp";
       JS.get data "tds"])].
Proof.
  intros F. pose proof (fetch_no_query w) as NQ.
  unfold saveSensorsData.
  destruct (fetchSensorDataFromESP w) as [es r]. cbn in F, NQ. subst r.
  rewrite bind_returned, executeQuery_eq. cbv beta.
  destruct (db_query w INSERT_SENSORS _) as [rows|err].
  - split; [reflexivity|]. cbn. rewrite queries_app, NQ. reflexivity.
  - split.
    + cbn. destruct (String.eqb (JS.name err) "AbortError"); reflexivity.
    + cbn. rewrite !queries_app, NQ.
      destruct (String.eqb (JS.name err) "AbortError"); reflexivity.
Qed.

(** On a failed fetch the job logs and ends: no statement is sent and no
    second request is made. *)
Lemma saveSensorsData_skips (w : world) (e : JS.error) :
  result (fetchSensorDataFromESP w) = Thrown e ->
  result (saveSensorsData w) = Returned tt /\
  queries (effects (saveSensorsData w)) = [] /\
  requests (effects (saveSensorsData w)) = [sensors_url w].
Proof.
  intros F. pose proof (fetch_no_query w) as NQ.
  destruct (fetch_one_request w) as [_ RQ].
  unfold saveSensorsData.
  destruct (fetchSensorDataFromESP w) as [es r]. cbn in F, NQ, RQ. subst r.
  cbn. rewrite queries_app, requests_app, NQ, RQ.
  destruct (String.eqb (JS.name e) "AbortError"); repeat split; reflexivity.
Qed.

End ArchivalFacts.

Section ArchivalRuns.
Import Sensors.

(** C8 on a payload that carries a pH reading.  The fetch returns the
    snapshot with pH 7; the job sends the insert that names five columns
    and has five placeholders, with four bound values, and the pH reading
    is not among them. *)
Theorem archival_binds_no_pH :
  result (@fetchSensorDataFromESP Sample.host
            (Sample.world_with (Responds 120 200 Sample.ph_text))) =
    Returned Sample.ph_snapshot /\
  JS.get Sample.ph_snapshot "pH" = JS.Num 7 /\
  queries (effects (@saveSensorsData Sample.host
                      (Sample.world_with (Responds 120 200 Sample.ph_text)))) =
    [(INSERT_SENSORS, [JS.Num 1; JS.Num 30; JS.Num 26; JS.Num 300])] /\
  count_char "?" INSERT_SENSORS = 5 /\
  List.length [JS.Num 1; JS.Num 30; JS.Num 26; JS.Num 300] = 4 /\
  existsb (JS.strict_eq (JS.Num 7)) [JS.Num 1; JS.Num 30; JS.Num 26; JS.Num 300] = false.
Proof. repeat split; reflexivity. Qed.

End ArchivalRuns.

(* ===================================================================== *)
(** ** Store connection errors *)
(* ===================================================================== *)

Section DbFacts.
Import Db.

(** The two error handlers of the store connection (C9, as the code has
    it).  On a connection-lost or connection-reset error either handler
    makes one reconnection attempt and returns: the error is not thrown
    on.  The handler of the deployed-database module does the same on an
    enqueue-after-fatal-error error, which the other handler throws.  On
    any other error either handler throws the error it was given and
    makes no reconnection attempt. *)
Theorem on_error_contract (err : JS.error) :
  (has_code err "PROTOCOL_CONNECTION_LOST" || has_code err "ECONNRESET" = true ->
     result (on_error_local err) = Returned tt /\
     reconnects (effects (on_error_local err)) = 1 /\
     result (on_error err) = Returned tt /\
     reconnects (effects (on_error err)) = 1) /\
  (has_code err "PROTOCOL_ENQUEUE_AFTER_FATAL_ERROR" = true ->
     result (on_error err) = Returned tt /\
     reconnects (effects (on_error err)) = 1) /\
  (has_code err "PROTOCOL_CONNECTION_LOST" || has_code err "ECONNRESET" = false ->
     result (on_error_local err) = Thrown err /\
     reconnects (effects (on_error_local err)) = 0) /\
  (has_code err "PROTOCOL_CONNECTION_LOST" || has_code err "ECONNRESET"
   || has_code err "PROTOCOL_ENQUEUE_AFTER_FATAL_ERROR" = false ->
     result (on_error err) = Thrown err /\
     reconnects (effects (on_error err)) = 0).
Proof.
  unfold on_error, on_error_local.
  split; [|split; [|split]]; intros C.
  - rewrite C. repeat split; reflexivity.
  - rewrite C, orb_true_r. repeat split; reflexivity.
  - rewrite C. repeat split; reflexivity.
  - rewrite C. repeat split; reflexivity.
Qed.

Lemma on_error_contract_witness :
  has_code Sample.connection_lost "PROTOCOL_CONNECTION_LOST"
  || has_code Sample.connection_lost "ECONNRESET" = true /\
  reconnects (effects (on_error Sample.connection_lost)) = 1 /\
  result (on_error Sample.access_denied) = Thrown Sample.access_denied /\
  result (on_error_local Sample.access_denied) = Thrown Sample.access_denied.
Proof.
  split; [reflexivity|]. split; [|split].
  - exact (proj2 (proj2 (proj2 (proj1 (on_error_contract Sample.connection_lost) eq_refl)))).
  - exact (proj1 (proj2 (proj2 (proj2 (on_error_contract Sample.access_denied))) eq_refl)).
  - exact (proj1 (proj1 (proj2 (proj2 (on_error_contract Sample.access_denied))) eq_refl)).
Defined.

(** C9, as the specification words it, fails on the deployed-database
    module: an enqueue-after-fatal-error error is neither a lost nor a
    reset connection, yet the handler makes a reconnection attempt and
    returns instead of throwing the error on. *)
Lemma enqueue_after_fatal_reconnects :
  has_code Sample.enqueue_after_fatal "PROTOCOL_CONNECTION_LOST" = false /\
  has_code Sample.enqueue_after_fatal "ECONNRESET" = false /\
  reconnects (effects (on_error Sample.enqueue_after_fatal)) = 1 /\
  result (on_error Sample.enqueue_after_fatal) = Returned tt /\
  result (on_error Sample.enqueue_after_fatal) <> Thrown Sample.enqueue_after_fatal.
Proof. repeat split; try reflexivity. discriminate. Qed.

End DbFacts.

(* ===================================================================== *)
(** ** The reminders array over time *)
(* ===================================================================== *)

Section ReminderInvariants.
Context `{JS.Host}.
Import Worker Reminders.

Lemma emitted_app (es es' : list effect) : emitted (es ++ es') = emitted es ++ emitted es'.
Proof.
  induction es as [|e es IH]; simpl; trivial. destruct e; simpl; rewrite ?IH; reflexivity.
Qed.

Lemma dispatch_emitted (f : fcm) (rem : reminder) : emitted (effects (dispatch f rem)) = [rem].
Proof.
  unfold dispatch, sendFeedingPush.
  destruct (apps_initialized f); [|reflexivity].
  match goal with |- context [send f ?m] => destruct (send f m) end; reflexivity.
Qed.

Lemma held_for_filter_le (id id' : JS.value) (rs : list reminder) :
  held_for id (filter (fun rem => negb (JS.strict_eq (feeding_ID rem) id')) rs)
  <= held_for id rs.
Proof.
  unfold held_for. induction rs as [|r rs IH]; simpl; trivial.
  destruct (JS.strict_eq (feeding_ID r) id'), (JS.strict_eq (feeding_ID r) id) eqn:E;
    simpl; rewrite ?E; simpl; lia.
Qed.

Lemma forEach_row_one_per_id (f : fcm) (ct : string) (st : list reminder * list effect)
  (r : row) :
  one_per_id (fst st) -> one_per_id (fst (forEach_row f ct st r)).
Proof.
  intros O. unfold forEach_row, tryCreate.
  destruct (exists_for (fst st) (row_feeding_ID r)) eqn:E; cbn [negb fst snd]; trivial.
  intros id. rewrite held_for_app. cbn [new_reminder feeding_ID].
  destruct (JS.strict_eq (row_feeding_ID r) id) eqn:S; [|specialize (O id); lia].
  rewrite (exists_for_congr _ _ _ S) in E. rewrite (held_for_none _ _ E). lia.
Qed.

Lemma fold_one_per_id (f : fcm) (ct : string) (rows : list row) :
  forall st : list reminder * list effect,
    one_per_id (fst st) -> one_per_id (fst (fold_left (forEach_row f ct) rows st)).
Proof.
  induction rows as [|r rows IH]; intros st O; simpl; trivial.
  apply IH. apply forEach_row_one_per_id. exact O.
Qed.

Lemma step_one_per_id (rs : list reminder) (o : op) :
  one_per_id rs -> one_per_id (fst (step rs o)).
Proof.
  intros O. destruct o as [f now results|id']; simpl.
  - unfold scan. destruct results as [rows|err]; simpl; trivial.
    destruct (0 <? List.length rows)%nat; simpl; trivial.
    apply (fold_one_per_id f (currentTime now) rows
             (rs, [Query SCAN_SQL [JS.Str (currentTime now); JS.Str (currentTime now)]])).
    exact O.
  - unfold acknowledge. destruct (JS.truthy id'); simpl; trivial.
    intros id. specialize (O id). pose proof (held_for_filter_le id id' rs). lia.
Qed.

(** X1. Whatever scans and acknowledgments follow one another, the
    reminders array never comes to hold two reminders for one feeding
    identifier, provided it did not at the start (as the empty array the
    server starts with does not). *)
Theorem run_keeps_one_per_id (ops : list op) (reminders : list reminder) :
  one_per_id reminders -> one_per_id (fst (run reminders ops)).
Proof.
  revert reminders. induction ops as [|o ops IH]; intros rs O; simpl; trivial.
  apply IH. apply step_one_per_id. exact O.
Qed.

Lemma fold_extends (f : fcm) (ct : string) (rows : list row) :
  forall (rs : list reminder) (st : list reminder * list effect),
    fst st = rs ++ emitted (snd st) ->
    Forall (fun r => acknowledged r = false /\ reminder_time r = ct) (emitted (snd st)) ->
    fst (fold_left (forEach_row f ct) rows st) =
      rs ++ emitted (snd (fold_left (forEach_row f ct) rows st)) /\
    Forall (fun r => acknowledged r = false /\ reminder_time r = ct)
      (emitted (snd (fold_left (forEach_row f ct) rows st))).
Proof.
  induction rows as [|r rows IH]; intros rs st E F; simpl; [auto|].
  apply IH.
  - unfold forEach_row. destruct (tryCreate (fst st) ct r); [|exact E].
    cbn [fst snd]. rewrite emitted_app, dispatch_emitted, E, app_assoc. reflexivity.
  - unfold forEach_row, tryCreate.
    destruct (negb (exists_for (fst st) (row_feeding_ID r))); [|exact F].
    cbn [fst snd]. rewrite emitted_app, dispatch_emitted.
    apply Forall_app. split; [exact F|]. constructor; [|constructor].
    split; reflexivity.
Qed.

Lemma scan_extends (f : fcm) (now : date) (results : outcome (list row))
  (reminders : list reminder) :
  fst (scan f now results reminders) =
    reminders ++ emitted (snd (scan f now results reminders)) /\
  Forall (fun r => acknowledged r = false /\ reminder_time r = currentTime now)
    (emitted (snd (scan f now results reminders))).
Proof.
  unfold scan. destruct results as [rows|err]; simpl.
  - destruct (0 <? List.length rows)%nat; simpl.
    + apply (fold_extends f (currentTime now) rows reminders
               (reminders,
                [Query SCAN_SQL [JS.Str (currentTime now); JS.Str (currentTime now)]])).
      * simpl. rewrite app_nil_r. reflexivity.
      * constructor.
    + rewrite app_nil_r. split; [reflexivity|constructor].
  - rewrite app_nil_r. split; [reflexivity|constructor].
Qed.

(** X2. A scan only appends: the array after it is the array before it
    followed by exactly the reminders the scan broadcast, in the order it
    broadcast them, each of them unacknowledged and stamped with the
    minute of the scan.  A scan whose query failed appends and broadcasts
    nothing. *)
Theorem scan_appends_what_it_broadcasts (f : fcm) (now : date)
  (results : outcome (list row)) (reminders : list reminder) :
  fst (scan f now results reminders) =
    reminders ++ emitted (snd (scan f now results reminders)) /\
  Forall (fun r => acknowledged r = false /\ reminder_time r = currentTime now)
    (emitted (snd (scan f now results reminders))) /\
  (forall err, emitted (snd (scan f now (Thrown err) reminders)) = [] /\
               fst (scan f now (Thrown err) reminders) = reminders).
Proof.
  destruct (scan_extends f now results reminders) as [G1 G2].
  split; [exact G1|]. split; [exact G2|].
  intros err. split; reflexivity.
Qed.

(** X3. Running the scan a second time over the same rows, with nothing
    acknowledged in between, changes no reminder and does nothing but
    send its statement, bound to the minute of the second run: no console
    line, no broadcast and no push, whatever the minute and the state of
    the push provider. *)
Theorem second_scan_only_queries (f f' : fcm) (now now' : date) (rows : list row)
  (reminders : list reminder) :
  scan f' now' (Returned rows) (fst (scan f now (Returned rows) reminders)) =
  (fst (scan f now (Returned rows) reminders),
   [Query SCAN_SQL [JS.Str (currentTime now'); JS.Str (currentTime now')]]) /\
  Reminders.emitted (snd (scan f' now' (Returned rows)
                            (fst (scan f now (Returned rows) reminders)))) = [] /\
  (forall c : channel,
     attempted c (snd (scan f' now' (Returned rows)
                         (fst (scan f now (Returned rows) reminders)))) = false).
Proof.
  rewrite rescan_is_silent. cbn [snd].
  split; [reflexivity|]. split; [reflexivity|].
  intros c. destruct c; reflexivity.
Qed.



Lemma step_keeps_unacknowledged (rs : list reminder) (o : op) :
  Forall (fun r => acknowledged r = false) rs ->
  Forall (fun r => acknowledged r = false) (fst (step rs o)).
Proof.
  intros U. destruct o as [f now results|id']; simpl.
  - destruct (scan_extends f now results rs) as (E & F).
    rewrite E. apply Forall_app. split; [exact U|].
    eapply Forall_impl; [|exact F]. intros a [A _]. exact A.
  - unfold acknowledge. destruct (JS.truthy id'); simpl; trivial.
    apply Forall_forall. intros x I. apply filter_In in I.
    rewrite Forall_forall in U. apply U. apply I.
Qed.

(** X5. The [acknowledged] flag of a reminder is never set: through any
    scans and acknowledgments every reminder in the array still carries
    [acknowledged: false]; an acknowledgment removes the reminder instead
    of marking it. *)
Theorem acknowledged_flag_is_never_set (ops : list op) (reminders : list reminder) :
  Forall (fun r => acknowledged r = false) reminders ->
  Forall (fun r => acknowledged r = false) (fst (run reminders ops)).
Proof.
  revert reminders. induction ops as [|o ops IH]; intros rs U; simpl; trivial.
  apply IH. apply step_keeps_unacknowledged. exact U.
Qed.

End ReminderInvariants.

Section ScanTime.
Import Worker Reminders.

Lemma pad2_two_digits (n : nat) : n < 100 -> pad2 n = two_digits n.
Proof.
  intros L.
  assert (A : forallb (fun k => String.eqb (pad2 k) (two_digits k)) (seq 0 100) = true)
    by (vm_compute; reflexivity).
  rewrite forallb_forall in A.
  apply String.eqb_eq. apply A. apply in_seq. lia.
Qed.

(** X6. The minute stamp of a scan has the form HH:MM:00 for every hour
    below 24 and minute below 60: two digits each, zero-padded, with the
    seconds cut to 00; so it is eight characters long and two scans get
    the same stamp only in the same minute of the day. *)
Theorem currentTime_format (now : date) :
  getHours now < 24 -> getMinutes now < 60 ->
  currentTime now =
    (two_digits (getHours now) ++ ":" ++ two_digits (getMinutes now) ++ ":00")%string /\
  String.length (currentTime now) = 8 /\
  (forall now' : date,
     getHours now' < 24 -> getMinutes now' < 60 ->
     currentTime now' = currentTime now ->
     getHours now' = getHours now /\ getMinutes now' = getMinutes now).
Proof.
  intros Hh Hm.
  assert (F : forall d, getHours d < 24 -> getMinutes d < 60 ->
            currentTime d =
            (two_digits (getHours d) ++ ":" ++ two_digits (getMinutes d) ++ ":00")%string).
  { intros d A B. unfold currentTime.
    rewrite !pad2_two_digits by lia. reflexivity. }
  split; [apply F; assumption|]. split.
  - rewrite F by assumption. unfold two_digits.
    generalize (ascii_of_nat (48 + getHours now / 10)),
               (ascii_of_nat (48 + getHours now mod 10)),
               (ascii_of_nat (48 + getMinutes now / 10)),
               (ascii_of_nat (48 + getMinutes now mod 10)).
    intros a b c d. reflexivity.
  - intros now' Hh' Hm' E. rewrite !F in E by assumption.
    unfold two_digits in E.
    remember (ascii_of_nat (48 + getHours now / 10)) as a1 eqn:A1.
    remember (ascii_of_nat (48 + getHours now mod 10)) as b1 eqn:B1.
    remember (ascii_of_nat (48 + getMinutes now / 10)) as c1 eqn:C1.
    remember (ascii_of_nat (48 + getMinutes now mod 10)) as d1 eqn:D1.
    remember (ascii_of_nat (48 + getHours now' / 10)) as a2 eqn:A2.
    remember (ascii_of_nat (48 + getHours now' mod 10)) as b2 eqn:B2.
    remember (ascii_of_nat (48 + getMinutes now' / 10)) as c2 eqn:C2.
    remember (ascii_of_nat (48 + getMinutes now' mod 10)) as d2 eqn:D2.
    cbn in E. injection E as E1 E2 E3 E4. subst.
    assert (D : forall a b, a < 10 -> b < 10 ->
              ascii_of_nat (48 + a) = ascii_of_nat (48 + b) -> a = b).
    { intros a b A B Q. apply (f_equal nat_of_ascii) in Q.
      rewrite !nat_ascii_embedding in Q by lia. lia. }
    assert (Q1 : getHours now' / 10 = getHours now / 10)
      by (apply D; auto; apply Nat.Div0.div_lt_upper_bound; lia).
    assert (R1 : getHours now' mod 10 = getHours now mod 10)
      by (apply D; auto; apply Nat.mod_upper_bound; lia).
    assert (Q2 : getMinutes now' / 10 = getMinutes now / 10)
      by (apply D; auto; apply Nat.Div0.div_lt_upper_bound; lia).
    assert (R2 : getMinutes now' mod 10 = getMinutes now mod 10)
      by (apply D; auto; apply Nat.mod_upper_bound; lia).
    pose proof (Nat.div_mod_eq (getHours now') 10).
    pose proof (Nat.div_mod_eq (getHours now) 10).
    pose proof (Nat.div_mod_eq (getMinutes now') 10).
    pose proof (Nat.div_mod_eq (getMinutes now) 10).
    lia.
Qed.

End ScanTime.

Section ReminderRuns.
Import Worker Reminders.

Lemma run_keeps_one_per_id_witness :
  one_per_id [] /\
  one_per_id (fst (@run Sample.host []
                     [Scan Sample.working_fcm Sample.now (Returned [Sample.entry; Sample.entry]);
                      Acknowledge (JS.Num 7);
                      Scan Sample.failing_fcm Sample.now (Returned [Sample.entry])])).
Proof.
  assert (E : one_per_id []) by (intros id; apply Nat.le_0_l).
  split; [exact E|].
  apply (@run_keeps_one_per_id Sample.host). exact E.
Defined.


Lemma acknowledged_flag_is_never_set_witness :
  Forall (fun r => acknowledged r = false) [] /\
  Forall (fun r => acknowledged r = false)
    (fst (@run Sample.host []
            [Scan Sample.working_fcm Sample.now (Returned [Sample.entry])])).
Proof.
  split; [constructor|].
  apply (@acknowledged_flag_is_never_set Sample.host). constructor.
Defined.

Lemma currentTime_format_witness :
  getHours Sample.now < 24 /\ getMinutes Sample.now < 60 /\
  currentTime Sample.now = "13:50:00".
Proof.
  split; [cbn; lia|]. split; [cbn; lia|].
  exact (proj1 (currentTime_format Sample.now ltac:(cbn; lia) ltac:(cbn; lia))).
Defined.

End ReminderRuns.


(* ===================================================================== *)
(** ** Authentication of the worker routes *)
(* ===================================================================== *)

Section AuthFacts.
Import Auth.

Lemma split_no_space (s : string) : has_space s = false -> split_space s = [s].
Proof.
  induction s as [|c s IH]; simpl; trivial.
  intros E. apply orb_false_iff in E. destruct E as [E1 E2].
  rewrite E1, (IH E2). reflexivity.
Qed.

Lemma split_at_space (a b : string) :
  has_space a = false -> split_space (a ++ " " ++ b) = a :: split_space b.
Proof.
  induction a as [|c a IH]; simpl; trivial.
  intros E. apply orb_false_iff in E. destruct E as [E1 E2].
  rewrite E1. simpl in IH. rewrite (IH E2). reflexivity.
Qed.

Lemma lower_bearer_nonempty (s : string) : toLowerCase s = "bearer" -> s <> EmptyString.
Proof. intros E ->. discriminate. Qed.

Lemma nonempty_eqb (s : string) : s <> EmptyString -> String.eqb s EmptyString = false.
Proof. intros N. apply String.eqb_neq. exact N. Qed.

Lemma append_nonempty (a b : string) : (a ++ " " ++ b)%string <> EmptyString.
Proof. destruct a; discriminate. Qed.

(** X7. The forms of the [authorization] header.  A header made of a
    scheme that spells [bearer] in any mix of cases, one space and a
    token without spaces yields that token, which then wins over any
    token in the body or the query string.  A header without any space is
    taken whole as the token.  A two-part header with another scheme, and
    a header of three parts, yield no token, so the token of the body is
    used instead. *)
Theorem authorization_header_forms (scheme tok : string)
  (b q : option JS.object) :
  has_space scheme = false -> has_space tok = false -> tok <> EmptyString ->
  (toLowerCase scheme = "bearer" ->
     token_of {| authorization := Some (scheme ++ " " ++ tok)%string; body := b; query := q |}
       = JS.Str tok) /\
  (token_of {| authorization := Some tok; body := b; query := q |} = JS.Str tok) /\
  (toLowerCase scheme <> "bearer" -> JS.truthy (field b "token") = true ->
     token_of {| authorization := Some (scheme ++ " " ++ tok)%string; body := b; query := q |}
       = field b "token") /\
  (JS.truthy (field b "token") = true ->
     token_of {| authorization := Some (scheme ++ " " ++ tok ++ " " ++ tok)%string;
                 body := b; query := q |} = field b "token").
Proof.
  intros Ss St Nt.
  assert (Tt : JS.truthy (JS.Str tok) = true).
  { simpl. rewrite (nonempty_eqb tok Nt). reflexivity. }
  assert (P2 : split_space (scheme ++ " " ++ tok) = [scheme; tok]).
  { rewrite (split_at_space _ _ Ss), (split_no_space _ St). reflexivity. }
  assert (P3 : split_space (scheme ++ " " ++ tok ++ " " ++ tok) = [scheme; tok; tok]).
  { rewrite (split_at_space _ _ Ss), (split_at_space _ _ St), (split_no_space _ St).
    reflexivity. }
  repeat split.
  - intros L. unfold token_of, header_token. cbn [authorization body query].
    rewrite (nonempty_eqb _ (append_nonempty scheme tok)), P2.
    cbn [negb List.length Nat.eqb nth andb]. rewrite L, String.eqb_refl.
    cbn [andb]. rewrite Tt. cbn [negb andb]. rewrite Tt. reflexivity.
  - unfold token_of, header_token. cbn [authorization body query].
    rewrite (nonempty_eqb tok Nt), (split_no_space _ St).
    cbn [negb List.length Nat.eqb nth andb]. rewrite Tt. cbn [negb andb].
    rewrite Tt. reflexivity.
  - intros L B. unfold token_of, header_token. cbn [authorization body query].
    rewrite (nonempty_eqb _ (append_nonempty scheme tok)), P2.
    cbn [negb List.length Nat.eqb nth andb].
    apply String.eqb_neq in L. rewrite L. cbn [JS.truthy negb andb]. rewrite B.
    cbn [negb andb]. rewrite B. reflexivity.
  - intros B. unfold token_of, header_token. cbn [authorization body query].
    rewrite (nonempty_eqb _ (append_nonempty scheme (tok ++ " " ++ tok))), P3.
    cbn [negb List.length Nat.eqb nth andb JS.truthy]. rewrite B.
    cbn [negb andb]. rewrite B. reflexivity.
Qed.

(** X8. Whom the middleware lets through.  The request is handed on,
    with the decoded claims as its user, exactly when a token was found,
    [jwt.verify] accepted it, and its role is absent or is [worker]; a
    token without a role is therefore let through.  In every other case
    the middleware answers itself, with status 401 or 403, and it never
    throws. *)
Theorem authenticate_admits_exactly (verify : JS.value -> outcome JS.object)
  (req : request) :
  (forall user : JS.object,
     result (authenticateToken verify req) = Returned (Next user) <->
     JS.truthy (token_of req) = true /\
     verify (token_of req) = Returned user /\
     (JS.truthy (JS.get user "role") = false \/
      JS.strict_eq (JS.get user "role") (JS.Str "worker") = true)) /\
  (exists v : verdict,
     result (authenticateToken verify req) = Returned v /\
     match v with
     | Next _ => True
     | Respond r => Http.status r = 401 \/ Http.status r = 403
     end).
Proof.
  unfold authenticateToken.
  destruct (JS.truthy (token_of req)) eqn:T; cbn [negb].
  2:{ split.
      - intros user. split; [discriminate|]. intros (A & _). discriminate.
      - eexists. split; [reflexivity|]. left. reflexivity. }
  destruct (verify (token_of req)) as [decoded|err] eqn:V.
  2:{ split.
      - intros user. split; [discriminate|]. intros (_ & A & _). discriminate.
      - eexists. split; [reflexivity|]. left. reflexivity. }
  destruct (JS.truthy (JS.get decoded "role")) eqn:R;
    destruct (JS.strict_eq (JS.get decoded "role") (JS.Str "worker")) eqn:W;
    cbn [negb andb]; (split; [intros user; split|]).
  all: try (intros E; cbn in E; injection E as <-; auto).
  all: try (intros (_ & A & B); injection A as <-; try reflexivity;
            destruct B; congruence).
  all: try (eexists; split; [reflexivity|]; try exact I; right; reflexivity).
  all: try discriminate.
Qed.

End AuthFacts.

(* ===================================================================== *)
(** ** Worker routes: tasks, orders, device tokens *)
(* ===================================================================== *)

Section WorkerRouteFacts.
Context `{JS.Host}.
Import WorkerRoutes.

(** Every run of the middleware returns a verdict and touches neither the
    store nor the mail transport. *)
Lemma authenticate_is_quiet (verify : JS.value -> outcome JS.object) (req : Auth.request) :
  exists (es : list effect) (v : Auth.verdict),
    Auth.authenticateToken verify req = (es, Returned v) /\
    Sensors.queries es = [] /\ Http.mails es = false /\
    match v with
    | Auth.Next _ => True
    | Auth.Respond r => Http.status r = 401 \/ Http.status r = 403
    end.
Proof.
  unfold Auth.authenticateToken.
  destruct (JS.truthy (Auth.token_of req)); cbn [negb].
  2:{ do 2 eexists. split; [reflexivity|]. repeat split. left. reflexivity. }
  destruct (verify (Auth.token_of req)) as [decoded|err].
  2:{ do 2 eexists. split; [reflexivity|]. repeat split. left. reflexivity. }
  destruct (JS.truthy (JS.get decoded "role")
            && negb (JS.strict_eq (JS.get decoded "role") (JS.Str "worker")))%bool.
  - do 2 eexists. split; [reflexivity|]. repeat split. right. reflexivity.
  - do 2 eexists. split; [reflexivity|]. repeat split.
Qed.

Lemma guarded_rejected (verify : JS.value -> outcome JS.object) (req : Auth.request)
  (handler : JS.object -> M Http.response) :
  (forall user, result (Auth.authenticateToken verify req) <> Returned (Auth.Next user)) ->
  exists r : Http.response,
    result (Auth.guarded verify req handler) = Returned r /\
    (Http.status r = 401 \/ Http.status r = 403) /\
    Sensors.queries (effects (Auth.guarded verify req handler)) = [] /\
    Http.mails (effects (Auth.guarded verify req handler)) = false.
Proof.
  intros Rej.
  destruct (authenticate_is_quiet verify req) as (es & v & E & Q & Ml & S).
  unfold Auth.guarded. rewrite E in *. rewrite bind_returned.
  destruct v as [user|r].
  - exfalso. apply (Rej user). reflexivity.
  - exists r. cbn [ret effects result fst snd]. rewrite app_nil_r. auto.
Qed.

(** X9. A request the middleware does not let through reaches neither
    the store nor the mail transport on the two guarded routes: the task
    list and the task update answer 401 or 403 with no statement sent. *)
Theorem rejected_request_reaches_no_store (verify : JS.value -> outcome JS.object)
  (w : world) (req : Auth.request) :
  (forall user, result (Auth.authenticateToken verify req) <> Returned (Auth.Next user)) ->
  (exists r : Http.response,
     result (get_tasks verify w req) = Returned r /\
     (Http.status r = 401 \/ Http.status r = 403) /\
     Sensors.queries (effects (get_tasks verify w req)) = [] /\
     Http.mails (effects (get_tasks verify w req)) = false) /\
  (exists r : Http.response,
     result (patch_update_task_status verify w req) = Returned r /\
     (Http.status r = 401 \/ Http.status r = 403) /\
     Sensors.queries (effects (patch_update_task_status verify w req)) = [] /\
     Http.mails (effects (patch_update_task_status verify w req)) = false).
Proof.
  intros Rej. split; apply guarded_rejected; exact Rej.
Qed.

(** X10. A request that fails a route's own check is answered with
    status 400 before anything else happens: no statement is sent, no
    mail, no console line.  This holds for an order update without order
    id or status, a token registration without token, a task list for a
    user without email, and a task update whose task id is undefined,
    null or the empty string. *)
Theorem invalid_requests_touch_nothing (w : world) (b user : JS.object)
  (subscribe : JS.value -> outcome unit) (a : admin) :
  (JS.truthy (JS.get b "order_id") = false \/ JS.truthy (JS.get b "status") = false ->
     update_order_status w b =
       ([], Returned (Http.error_response 400 "Order ID and status are required"))) /\
  (JS.truthy (JS.get b "token") = false ->
     register_token w subscribe a (Some b) =
       ([], Returned (Http.error_response 400 "token is required", a)) /\
     register_token w subscribe a None =
       ([], Returned (Http.error_response 400 "token is required", a))) /\
  (JS.truthy (JS.get user "email") = false ->
     tasks w user = ([], Returned (Http.error_response 400 "Invalid user email in token"))) /\
  (task_id_missing (JS.get b "task_id") = true ->
     update_task_status w (Some b) user =
       ([], Returned (Http.error_response 400 "Task ID is required"))).
Proof.
  split; [|split; [|split]].
  - intros [E|E]; unfold update_order_status; rewrite E; cbn [negb orb];
      [|rewrite orb_true_r]; reflexivity.
  - intros E. split; unfold register_token; [rewrite E|]; reflexivity.
  - intros E. unfold tasks. rewrite E. reflexivity.
  - intros E. unfold update_task_status. rewrite E. reflexivity.
Qed.

(** X11. The task update.  With a body, the route always answers (it
    throws only when the body is absent, before any statement).  The
    status mail is sent exactly when the answer is 200, whatever the mail
    transport then does; every statement sent binds as many values as it
    has placeholders; and the update statement is never sent before the
    worker look-up has returned a row: without one, the look-up is the
    only statement. *)
Theorem task_update_outcomes (w : world) (b user : JS.object) :
  (exists r : Http.response,
     result (update_task_status w (Some b) user) = Returned r /\
     Http.mails (effects (update_task_status w (Some b) user)) = (Http.status r =? 200)%nat) /\
  forallb Http.bound_exactly
    (Sensors.queries (effects (update_task_status w (Some b) user))) = true /\
  ((forall first rest,
      Http.select (db w) WORKER_ID_SQL [JS.get user "email"] <> Returned (first :: rest)) ->
   forall q, In q (Sensors.queries (effects (update_task_status w (Some b) user))) ->
             fst q = WORKER_ID_SQL) /\
  update_task_status w None user = ([], Thrown TypeError).
Proof.
  unfold update_task_status, Http.query_rows, Http.query_exec, sendMail.
  destruct (task_id_missing (JS.get b "task_id")).
  { repeat split; [eexists; split; reflexivity | intros _ q []]. }
  destruct (Http.select (db w) WORKER_ID_SQL [JS.get user "email"])
    as [[|first rest]|err] eqn:S1.
  1,3: repeat split; [eexists; split; reflexivity
                     | intros _ q [<-|[]]; reflexivity].
  cbv [bind fst snd app].
  destruct (Http.execute (db w) UPDATE_TASK_SQL _) as [results|err].
  2:{ repeat split; [eexists; split; reflexivity
                    | intros N; exfalso; exact (N first rest eq_refl)]. }
  destruct (JS.strict_eq (JS.get results "affectedRows") (JS.Num 0)).
  { repeat split; [eexists; split; reflexivity
                  | intros N; exfalso; exact (N first rest eq_refl)]. }
  destruct (Http.select (db w) TASK_STATUS_SQL _) as [taskResults|err].
  2:{ repeat split; [eexists; split; reflexivity
                    | intros N; exfalso; exact (N first rest eq_refl)]. }
  cbv [tell ret].
  match goal with |- context [sendMail_result w ?m] => destruct (sendMail_result w m) end;
    (repeat split; [eexists; split; reflexivity
                   | intros N; exfalso; exact (N first rest eq_refl)]).
Qed.

(** X12. The order update.  For a body with order id and status the
    update statement is sent once, bound to the status and then the id;
    the notification mail is sent exactly when the answer is 200, and a
    failing mail transport does not change the answer, which carries the
    status and the order id of the request. *)
Theorem order_update_outcomes (w : world) (b : JS.object) :
  JS.truthy (JS.get b "order_id") = true ->
  JS.truthy (JS.get b "status") = true ->
  Sensors.queries (effects (update_order_status w b)) =
    [(UPDATE_ORDER_SQL, [JS.get b "status"; JS.get b "order_id"])] /\
  Http.bound_exactly (UPDATE_ORDER_SQL, [JS.get b "status"; JS.get b "order_id"]) = true /\
  (forall err, Http.execute (db w) UPDATE_ORDER_SQL [JS.get b "status"; JS.get b "order_id"]
               = Thrown err ->
     result (update_order_status w b) =
       Returned (Http.error_response 500 "Error updating order status") /\
     Http.mails (effects (update_order_status w b)) = false) /\
  (forall h, Http.execute (db w) UPDATE_ORDER_SQL [JS.get b "status"; JS.get b "order_id"]
             = Returned h ->
     result (update_order_status w b) =
       Returned (Http.ok_response
         (Http.JObject
            [("message", Http.JVal (JS.Str "Order status updated successfully"));
             ("notification",
              Http.JObject [("text", Http.JVal (JS.Str "Order update"));
                            ("status", Http.JVal (JS.get b "status"));
                            ("order_id", Http.JVal (JS.get b "order_id"))])])) /\
     Http.mails (effects (update_order_status w b)) = true).
Proof.
  intros Ti Ts.
  unfold update_order_status, Http.query_exec, sendMail. rewrite Ti, Ts. cbn [negb orb].
  destruct (Http.execute (db w) UPDATE_ORDER_SQL _) as [h|err].
  - cbv [bind fst snd app tell ret].
    match goal with |- context [sendMail_result w ?m] => destruct (sendMail_result w m) end;
      (repeat split; try reflexivity; intros; try discriminate; reflexivity).
  - repeat split; try reflexivity; intros; try discriminate; reflexivity.
Qed.

(** X13. Token registration.  For a body with a token, the table
    statement and then the upsert are always sent, the upsert bound to
    the worker id (or null) and the token; a failure of the table
    statement is only logged.  The answer is 200 exactly when the upsert
    went through and 500 otherwise: neither the table statement nor the
    topic subscription can fail the registration.  The subscription is
    recorded only on a 200 answer with an initialised push provider, and
    nothing else of the provider's state changes. *)
Theorem token_registration_outcomes (w : world) (subscribe : JS.value -> outcome unit)
  (a : admin) (b : JS.object) :
  JS.truthy (JS.get b "token") = true ->
  Sensors.queries (effects (register_token w subscribe a (Some b))) =
    [(CREATE_TOKENS_SQL, []);
     (UPSERT_TOKEN_SQL, [JS.or (JS.get b "worker_id") JS.Null; JS.get b "token"])] /\
  exists (r : Http.response) (a' : admin),
    result (register_token w subscribe a (Some b)) = Returned (r, a') /\
    (Http.status r = 200 <->
     exists h, Http.execute (db w) UPSERT_TOKEN_SQL
                 [JS.or (JS.get b "worker_id") JS.Null; JS.get b "token"] = Returned h) /\
    (Http.status r = 200 \/ Http.status r = 500) /\
    apps a' = apps a /\
    (subscriptions a' = subscriptions a \/
     (Http.status r = 200 /\ 0 < apps a /\
      subscribe (JS.get b "token") = Returned tt /\
      subscriptions a' = subscriptions a ++ [(JS.get b "token", "feeding")])).
Proof.
  intros T. unfold register_token, Http.query_exec. rewrite T. cbn [negb].
  destruct (Http.execute (db w) CREATE_TOKENS_SQL []) as [h0|e0];
    cbv [bind fst snd app tell ret];
    (destruct (Http.execute (db w) UPSERT_TOKEN_SQL _) as [h|e] eqn:U;
     [ destruct (0 <? apps a)%nat eqn:Z;
       [ destruct (subscribe (JS.get b "token")) as [[]|se] eqn:Sb | ]
     | ]);
    (split; [reflexivity|]); do 2 eexists; (split; [reflexivity|]);
    cbn [Http.status Http.ok_response Http.error_response apps subscriptions];
    repeat split; intros;
    try (eexists; reflexivity); try discriminate; auto;
    try (match goal with X : exists _, _ |- _ => destruct X; discriminate end).
  all: try (right; repeat split; auto; apply Nat.ltb_lt; exact Z).
Qed.

End WorkerRouteFacts.

(* ===================================================================== *)
(** ** Push provider start-up *)
(* ===================================================================== *)

Section FirebaseFacts.
Import Firebase.

Lemma init_cases (l : lines) (s : sources) (apps : nat) :
  exists n : nat,
    result (init l s apps) = Returned n /\
    (n = apps \/ (apps = 0 /\ n = 1)) /\
    (0 < apps -> effects (init l s apps) = []).
Proof.
  unfold init, load.
  destruct apps as [|k].
  - cbn [Nat.ltb Nat.leb].
    destruct (JS.truthy (FIREBASE_SERVICE_ACCOUNT s)).
    { destruct (from_service_account s) as [[]|e]; eexists;
        (split; [reflexivity|]); split; auto; intros Z; inversion Z. }
    destruct (JS.truthy (GOOGLE_APPLICATION_CREDENTIALS s) && credentials_file_exists s)%bool.
    { destruct (from_credentials_file s) as [[]|e]; eexists;
        (split; [reflexivity|]); split; auto; intros Z; inversion Z. }
    destruct (default_file_exists s).
    { destruct (from_default_file s) as [[]|e]; eexists;
        (split; [reflexivity|]); split; auto; intros Z; inversion Z. }
    destruct (from_application_default s) as [[]|e]; eexists;
      (split; [reflexivity|]); split; auto; intros Z; inversion Z.
  - eexists. split; [reflexivity|]. split; auto.
Qed.

(** X14. Start-up of the push provider never throws and initialises at
    most one app.  Started with an app already initialised it does
    nothing at all, so when the worker routes and the sensor routes both
    run their start-up, in either order and with any sources, the second
    run finds the first one's app and at most one app exists afterwards. *)
Theorem provider_starts_at_most_once (s1 s2 : sources) :
  (forall (l : lines) (s : sources) (apps : nat),
     exists n : nat, result (init l s apps) = Returned n /\ apps <= n /\ n <= Nat.max apps 1) /\
  (forall (l : lines) (s : sources) (apps : nat),
     0 < apps -> init l s apps = ([], Returned apps)) /\
  apps_after (initFirebaseAdmin s2
                (apps_after (initFirebaseAdminForWorker s1 0) 0))
             (apps_after (initFirebaseAdminForWorker s1 0) 0) <= 1 /\
  apps_after (initFirebaseAdminForWorker s1
                (apps_after (initFirebaseAdmin s2 0) 0))
             (apps_after (initFirebaseAdmin s2 0) 0) <= 1.
Proof.
  assert (A : forall l s apps, exists n,
            result (init l s apps) = Returned n /\ apps <= n /\ n <= Nat.max apps 1).
  { intros l s apps. destruct (init_cases l s apps) as (n & R & C & _).
    exists n. split; [exact R|]. lia. }
  assert (B : forall l l' s s',
            apps_after (init l' s' (apps_after (init l s 0) 0)) (apps_after (init l s 0) 0) <= 1).
  { intros l l' s s'. unfold apps_after.
    destruct (init_cases l s 0) as (n & R & C & _). rewrite R.
    destruct (init_cases l' s' n) as (n' & R' & C' & _). rewrite R'. lia. }
  split; [exact A|]. split.
  - intros l s [|k] Z; [inversion Z|]. reflexivity.
  - split; apply B.
Qed.

(** X15. A service account in the environment that fails to load leaves
    the push provider uninitialised even when a credentials file or the
    default file could have been loaded: the failure is logged and no
    other source is tried.  Only the failure of the last source, the
    application default credentials, is caught on the spot and reported
    as two warnings. *)
Theorem failed_service_account_stops_startup (l : lines) (s : sources) (e : JS.error) :
  (JS.truthy (FIREBASE_SERVICE_ACCOUNT s) = true ->
   from_service_account s = Thrown e ->
   init l s 0 = ([Console ERROR (failed_line l)], Returned 0)) /\
  (JS.truthy (FIREBASE_SERVICE_ACCOUNT s) = false ->
   (JS.truthy (GOOGLE_APPLICATION_CREDENTIALS s) && credentials_file_exists s)%bool = false ->
   default_file_exists s = false ->
   from_application_default s = Thrown e ->
   init l s 0 = ([Console WARN (no_adc_line l); Console WARN (none_line l)], Returned 0)).
Proof.
  unfold init, load. split.
  - intros T F. cbn [Nat.ltb Nat.leb]. rewrite T, F. reflexivity.
  - intros T G D F. cbn [Nat.ltb Nat.leb]. rewrite T, G, D, F. reflexivity.
Qed.

End FirebaseFacts.

(* ===================================================================== *)
(** ** Store connection settings *)
(* ===================================================================== *)

Section DbConfigFacts.
Import DbConfig.

(** X16. Transport security of the deployed-database settings.  Building
    the settings never throws: an unreadable certificate is logged and
    dropped.  The named profile is chosen exactly when no certificate
    path is set and the environment is production; so a certificate path
    that names no file leaves the connection without transport security,
    in production too.  The port falls back to 3306. *)
Theorem deployed_config_ssl (e : env) (f : fs) :
  (exists c : connectionConfig, result (deployed_config e f) = Returned c) /\
  (forall c, result (deployed_config e f) = Returned c ->
     (ssl_of c = Profile "Amazon RDS" <->
      JS.truthy (var (DB_SSL_CA e)) = false /\ NODE_ENV e = Some "production") /\
     (forall p, DB_SSL_CA e = Some p -> p <> EmptyString -> existsSync f p = false ->
        ssl_of c = NoSsl) /\
     (DB_PORT e = None -> port c = JS.Num 3306)).
Proof.
  unfold deployed_config.
  destruct (DB_SSL_CA e) as [p|] eqn:Ca; cbn [var JS.truthy].
  - destruct (String.eqb p EmptyString) eqn:Ep; cbn [negb].
    + apply String.eqb_eq in Ep. subst p.
      destruct (JS.strict_eq (var (NODE_ENV e)) (JS.Str "production")) eqn:P.
      * split; [eexists; reflexivity|].
        intros c E. cbn in E. injection E as <-. cbn [ssl_of port].
        split; [|split].
        -- split; [intros _|reflexivity]. split; [reflexivity|].
           destruct (NODE_ENV e) as [n|]; [|discriminate].
           cbn in P. apply String.eqb_eq in P. subst. reflexivity.
        -- intros p E N. injection E as <-. congruence.
        -- intros ->. reflexivity.
      * split; [eexists; reflexivity|].
        intros c E. cbn in E. injection E as <-. cbn [ssl_of port].
        split; [|split].
        -- split; [discriminate|]. intros [_ N]. rewrite N in P. discriminate.
        -- reflexivity.
        -- intros ->. reflexivity.
    + destruct (existsSync f p) eqn:X.
      * destruct (readFileSync f p) as [ca|err];
          (split; [eexists; reflexivity|]);
          intros c E; cbn in E; injection E as <-; cbn [ssl_of port];
          (split; [|split]);
          try (split; [discriminate|intros [N _]; discriminate]);
          try (intros p' E' _ X'; injection E' as <-; congruence);
          try (intros ->; reflexivity).
      * split; [eexists; reflexivity|].
        intros c E. cbn in E. injection E as <-. cbn [ssl_of port].
        split; [|split].
        -- split; [discriminate|intros [N _]; discriminate].
        -- reflexivity.
        -- intros ->. reflexivity.
  - destruct (JS.strict_eq (var (NODE_ENV e)) (JS.Str "production")) eqn:P.
    + split; [eexists; reflexivity|].
      intros c E. cbn in E. injection E as <-. cbn [ssl_of port].
      split; [|split].
      * split; [intros _|reflexivity]. split; [reflexivity|].
        destruct (NODE_ENV e) as [n|]; [|discriminate].
        cbn in P. apply String.eqb_eq in P. subst. reflexivity.
      * discriminate.
      * intros ->. reflexivity.
    + split; [eexists; reflexivity|].
      intros c E. cbn in E. injection E as <-. cbn [ssl_of port].
      split; [|split].
      * split; [discriminate|]. intros [_ N]. rewrite N in P. discriminate.
      * discriminate.
      * intros ->. reflexivity.
Qed.

(** X17. The local-database settings throw, at module load, exactly when
    a certificate path is set, the file exists and reading it fails; in
    every other case they are built, with the certificate when it was
    read and without transport security otherwise, whatever the
    environment is called. *)
Theorem local_config_ssl (e : env) (f : fs) :
  (forall err,
     result (local_config e f) = Thrown err <->
     exists p, DB_SSL_CA e = Some p /\ p <> EmptyString /\ existsSync f p = true /\
               readFileSync f p = Thrown err) /\
  (forall c, result (local_config e f) = Returned c ->
     ssl_of c = NoSsl \/
     exists p ca, DB_SSL_CA e = Some p /\ readFileSync f p = Returned ca /\ ssl_of c = Ca ca).
Proof.
  unfold local_config.
  destruct (DB_SSL_CA e) as [p|].
  2:{ split.
      - intros err. split; [discriminate|]. intros (p & E & _). discriminate.
      - intros c E. cbn in E. injection E as <-. left. reflexivity. }
  cbn [JS.truthy].
  destruct (String.eqb p EmptyString) eqn:Ep; cbn [negb andb].
  { apply String.eqb_eq in Ep. split.
    - intros err. split; [discriminate|].
      intros (p' & E & N & _). injection E as <-. congruence.
    - intros c E. cbn in E. injection E as <-. left. reflexivity. }
  apply String.eqb_neq in Ep.
  destruct (existsSync f p) eqn:X.
  - destruct (readFileSync f p) as [ca|err0] eqn:R.
    + split.
      * intros err. split; [discriminate|].
        intros (p' & E & _ & _ & R'). injection E as <-. congruence.
      * intros c E. cbn in E. injection E as <-. right.
        exists p, ca. auto.
    + split.
      * intros err. split.
        -- intros E. cbn in E. injection E as <-. exists p. auto.
        -- intros (p' & E & _ & _ & R'). injection E as <-.
           rewrite R in R'. injection R' as <-. reflexivity.
      * intros c E. discriminate.
  - split.
    + intros err. split; [discriminate|].
      intros (p' & E & _ & X' & _). injection E as <-. congruence.
    + intros c E. cbn in E. injection E as <-. left. reflexivity.
Qed.

End DbConfigFacts.

(* ===================================================================== *)
(** ** Sensor routes and the condition check *)
(* ===================================================================== *)

Section SensorRouteFacts.
Context `{JS.Host}.
Import Sensors SensorRoutes Traces.


Lemma fetch_no_attempt (w : world) (c : channel) :
  attempted c (effects (fetchSensorDataFromESP w)) = false.
Proof.
  unfold fetchSensorDataFromESP, fetch_with_signal.
  destruct (esp w) as [t st txt|t err|]; try (destruct c; reflexivity).
  - destruct (t <? FETCH_TIMEOUT_MS)%N; [|destruct c; reflexivity].
    unfold bind, try_catch. cbn.
    destruct (ok st); cbn; [|destruct c; reflexivity].
    destruct (JS.JSON_parse txt); destruct c; reflexivity.
  - destruct (t <? FETCH_TIMEOUT_MS)%N; destruct c; reflexivity.
Qed.

(** X18. The live-readings route maps the outcome of the fetch to a
    status: 504 when nothing arrived before the deadline, 500 with the
    upstream status and body in its details when the endpoint answered
    with a non-success status, and 200 with the parsed payload as it is
    otherwise.  It never throws and sends one request. *)
Theorem live_readings_statuses (w : world) :
  (exists r, result (sensorsdatacome w) = Returned r) /\
  requests (effects (sensorsdatacome w)) = [sensors_url w] /\
  (silent_until_deadline (esp w) = true ->
     result (sensorsdatacome w) =
       Returned (Http.error_response 504 "Request timed out after 30 seconds")) /\
  (forall t st txt,
     esp w = Responds t st txt -> (t < FETCH_TIMEOUT_MS)%N -> ok st = false ->
     result (sensorsdatacome w) =
       Returned {| Http.status := 500;
                   Http.body := Http.JObject
                     [("error", Http.JVal (JS.Str "Failed to fetch sensor data"));
                      ("details",
                       Http.JVal (JS.Str ("HTTP " ++ JS.NumberToString (inject_Z (Z.of_N st))
                                          ++ ": " ++ txt)))] |}) /\
  (forall t st txt o,
     esp w = Responds t st txt -> (t < FETCH_TIMEOUT_MS)%N -> ok st = true ->
     JS.JSON_parse txt = Some o ->
     result (sensorsdatacome w) = Returned (Http.ok_response (Http.of_object o))).
Proof.
  split; [|split; [|split; [|split]]].
  - unfold sensorsdatacome.
    destruct (fetchSensorDataFromESP w) as [es [data|e]]; cbn.
    + eexists. reflexivity.
    + destruct (String.eqb (JS.name e) "AbortError"); eexists; reflexivity.
  - destruct (fetch_one_request w) as [_ R]. unfold sensorsdatacome.
    destruct (fetchSensorDataFromESP w) as [es [data|e]]; cbn in *.
    + rewrite app_nil_r. exact R.
    + destruct (String.eqb (JS.name e) "AbortError"); cbn; rewrite app_nil_r; exact R.
  - intros D. unfold sensorsdatacome. rewrite (fetch_timed_out w D). reflexivity.
  - intros t st txt E T K. unfold sensorsdatacome.
    rewrite (fetch_bad_status w t st txt E T K). reflexivity.
  - intros t st txt o E T K P. unfold sensorsdatacome.
    rewrite (fetch_success w t st txt o E T K P). reflexivity.
Qed.


(** X20. A cycle whose fetch failed ends at once: its only further
    effect is one console line, which says timed out for the abort error
    and gives the error's message otherwise; no statement is sent to the
    store, no channel is attempted and no second request is made. *)
Theorem failed_fetch_ends_cycle (w : world) (e : JS.error) :
  result (fetchSensorDataFromESP w) = Thrown e ->
  checkConditionsAndSendAlert w =
    (effects (fetchSensorDataFromESP w)
       ++ [Console ERROR
             (if String.eqb (JS.name e) "AbortError"
              then "[Alerts] Fetch request timed out"
              else "[Alerts] Error checking conditions: " ++ JS.message e)],
     Returned tt) /\
  queries (effects (checkConditionsAndSendAlert w)) = [] /\
  requests (effects (checkConditionsAndSendAlert w)) = [sensors_url w] /\
  (forall c, attempted c (effects (checkConditionsAndSendAlert w)) = false).
Proof.
  intros F.
  pose proof (fetch_no_query w) as NQ.
  pose proof (fetch_no_attempt w) as NA.
  destruct (fetch_one_request w) as [_ RQ].
  unfold checkConditionsAndSendAlert.
  destruct (fetchSensorDataFromESP w) as [es r].
  cbn [effects result fst snd] in F, NQ, RQ, NA. subst r.
  cbn [bind try_catch fst snd effects result].
  destruct (String.eqb (JS.name e) "AbortError"); cbn [tell fst snd];
    (split; [reflexivity|]);
    rewrite queries_app, requests_app, NQ, RQ;
    (split; [reflexivity|]); (split; [reflexivity|]);
    intros c; rewrite attempted_app, (NA c); destruct c; reflexivity.
Qed.

(** X21. When alerts were raised and the look-up of the worker emails
    fails, the cycle stops there: neither the mail nor the push is
    attempted for these alerts, the failure is logged, and the cycle
    still returns normally. *)
Theorem failed_worker_lookup_drops_alerts (w : world) (data threshold : JS.object)
  (rest : list JS.object) (err : JS.error) :
  result (fetchSensorDataFromESP w) = Returned data ->
  db_query w "SELECT * FROM thresholds LIMIT 1" [] = Returned (threshold :: rest) ->
  checkConditions {| waterLevel := JS.get data "waterLevelInside";
                     temperature := JS.get data "waterTemp";
                     tds := JS.get data "tds" |} threshold <> [] ->
  db_query w "SELECT email FROM worker" [] = Thrown err ->
  result (checkConditionsAndSendAlert w) = Returned tt /\
  attempted Email (effects (checkConditionsAndSendAlert w)) = false /\
  attempted Push (effects (checkConditionsAndSendAlert w)) = false /\
  queries (effects (checkConditionsAndSendAlert w)) =
    [("SELECT * FROM thresholds LIMIT 1", []); ("SELECT email FROM worker", [])].
Proof.
  intros F Q C W.
  pose proof (fetch_no_query w) as NQ.
  pose proof (fetch_no_attempt w) as NA.
  unfold checkConditionsAndSendAlert.
  destruct (fetchSensorDataFromESP w) as [es r].
  cbn [effects result fst snd] in F, NQ, NA. subst r.
  rewrite bind_returned, executeQuery_eq, Q, bind_returned. cbv beta.
  destruct (checkConditions _ threshold) as [|a alerts] eqn:CC; [congruence|].
  cbn [List.length Nat.ltb Nat.leb].
  unfold dispatchAlerts. rewrite executeQuery_eq, W.
  cbn [bind try_catch fst snd effects result app].
  destruct (String.eqb (JS.name err) "AbortError"); cbn [tell fst snd];
    (split; [reflexivity|]);
    rewrite !attempted_app, !queries_app, NQ, (NA Email), (NA Push);
    repeat split; reflexivity.
Qed.

(** X22. Mail and push carry the same text: whenever an alert set is
    dispatched and the worker look-up returns rows, one mail is sent,
    with the alerts joined by line feeds as its text and the rows' emails
    joined by a comma and a space as its recipients; the one push posted,
    when a server key is configured, has the same text as its body. *)
Theorem mail_and_push_same_text (w : world) (alerts : list string)
  (row : JS.object) (rows : list JS.object) :
  db_query w "SELECT email FROM worker" [] = Returned (row :: rows) ->
  map text (mails_sent (effects (dispatchAlerts w alerts))) = [JS.join nl alerts] /\
  map to (mails_sent (effects (dispatchAlerts w alerts))) =
    [JS.join ", " (map JS.join_item (map (fun r => JS.get r "email") (row :: rows)))] /\
  push_bodies (effects (dispatchAlerts w alerts)) =
    (if JS.truthy (FCM_SERVER_KEY w) then [JS.join nl alerts] else []).
Proof.
  intros Q. unfold dispatchAlerts. rewrite executeQuery_eq, Q, bind_returned. cbv beta.
  cbn [map List.length Nat.eqb].
  unfold sendAlertEmails, sendPushNotificationFCM.
  match goal with |- context [sendMail_result w ?m] => destruct (sendMail_result w m) end;
    destruct (JS.truthy (FCM_SERVER_KEY w));
    try (destruct (fcm_endpoint w) as [[st txt]|pushErr];
         [destruct (ok st) eqn:K; [destruct (JS.JSON_parse txt) eqn:P|]|]);
    cbv [bind try_catch await tell ret fst snd effects result app negb];
    rewrite ?K; cbv [bind try_catch await tell ret fst snd effects result app negb];
    rewrite ?P;
    (repeat split; reflexivity).
Qed.

End SensorRouteFacts.

(* ===================================================================== *)
(** ** Statements sent to the store *)
(* ===================================================================== *)

Section StatementFacts.
Context `{JS.Host}.
Import Sensors.

(** X23. The report statement filters by date exactly when both [start]
    and [end] are given, binding them in that order to its two
    placeholders; with either one missing the other is ignored and the
    statement is the unfiltered one with nothing bound.  Either way it
    binds as many values as it has placeholders. *)
Theorem report_query_binds (start end_ : JS.value) :
  Http.bound_exactly (SensorRoutes.report_query start end_) = true /\
  ((JS.truthy start && JS.truthy end_)%bool = true ->
     SensorRoutes.report_query start end_ =
       ((SensorRoutes.REPORT_HEAD_SQL ++ SensorRoutes.REPORT_WHERE_SQL
         ++ SensorRoutes.REPORT_ORDER_SQL)%string, [start; end_])) /\
  ((JS.truthy start && JS.truthy end_)%bool = false ->
     SensorRoutes.report_query start end_ =
       ((SensorRoutes.REPORT_HEAD_SQL ++ SensorRoutes.REPORT_ORDER_SQL)%string, [])).
Proof.
  unfold SensorRoutes.report_query.
  destruct (JS.truthy start && JS.truthy end_)%bool; repeat split;
    try reflexivity; intros; discriminate.
Qed.

(** X24. A write that changed no row is never reported as a success:
    the worker update and the worker delete answer 200 exactly when the
    statement went through and the store reports a number of affected
    rows other than zero, and 404 when it reports zero; the update binds
    name, email, mobile number and then the id of the path. *)
Theorem unchanged_write_is_not_found (st : Http.store) (id : string) (b : JS.object) :
  JS.truthy (JS.get b "name") = true ->
  JS.truthy (JS.get b "email") = true ->
  JS.truthy (JS.get b "mobile_no") = true ->
  queries (effects (Settings.put_registered_worker st id b)) =
    [(Settings.UPDATE_WORKER_SQL,
      [JS.get b "name"; JS.get b "email"; JS.get b "mobile_no"; JS.Str id])] /\
  queries (effects (Settings.delete_registered_worker st id)) =
    [(Settings.DELETE_WORKER_SQL, [JS.Str id])] /\
  (forall h,
     Http.execute st Settings.UPDATE_WORKER_SQL
       [JS.get b "name"; JS.get b "email"; JS.get b "mobile_no"; JS.Str id] = Returned h ->
     result (Settings.put_registered_worker st id b) =
       Returned (if JS.strict_eq (JS.get h "affectedRows") (JS.Num 0)
                 then Http.error_response 404 "Worker not found"
                 else Settings.message_response "Worker updated successfully")) /\
  (forall h,
     Http.execute st Settings.DELETE_WORKER_SQL [JS.Str id] = Returned h ->
     result (Settings.delete_registered_worker st id) =
       Returned (if JS.strict_eq (JS.get h "affectedRows") (JS.Num 0)
                 then Http.error_response 404 "Worker not found"
                 else Settings.message_response "Worker deleted successfully")) /\
  (forall e,
     Http.execute st Settings.DELETE_WORKER_SQL [JS.Str id] = Thrown e ->
     result (Settings.delete_registered_worker st id) =
       Returned (Http.error_response 500 "Error deleting worker")).
Proof.
  intros Tn Te Tm.
  unfold Settings.put_registered_worker, Settings.delete_registered_worker, Http.query_exec.
  rewrite Tn, Te, Tm. cbn [negb orb].
  split; [|split; [|split; [|split]]].
  - destruct (Http.execute st Settings.UPDATE_WORKER_SQL _) as [h|e]; [|reflexivity].
    cbv [bind fst snd app].
    destruct (JS.strict_eq (JS.get h "affectedRows") (JS.Num 0)); reflexivity.
  - destruct (Http.execute st Settings.DELETE_WORKER_SQL _) as [h|e]; [|reflexivity].
    cbv [bind fst snd app].
    destruct (JS.strict_eq (JS.get h "affectedRows") (JS.Num 0)); reflexivity.
  - intros h E. rewrite E. cbv [bind fst snd app result].
    destruct (JS.strict_eq (JS.get h "affectedRows") (JS.Num 0)); reflexivity.
  - intros h E. rewrite E. cbv [bind fst snd app result].
    destruct (JS.strict_eq (JS.get h "affectedRows") (JS.Num 0)); reflexivity.
  - intros e E. rewrite E. reflexivity.
Qed.

Lemma dispatch_statements (w : world) (alerts : list string) :
  forallb Http.bound_exactly (queries (effects (dispatchAlerts w alerts))) = true.
Proof.
  unfold dispatchAlerts. rewrite executeQuery_eq.
  destruct (db_query w "SELECT email FROM worker" []) as [rows|err]; [|reflexivity].
  rewrite bind_returned. cbv beta. rewrite effects_pair, queries_app.
  rewrite forallb_app. cbn [queries forallb andb]. 
  replace (Http.bound_exactly ("SELECT email FROM worker", [])) with true by reflexivity.
  cbn [andb].
  set (mail := if (List.length (map (fun row => JS.get row "email") rows) =? 0)%nat
               then tell [Console ERROR "[Alerts] No worker emails found"]
               else sendAlertEmails w alerts (map (fun row => JS.get row "email") rows)).
  assert (M : result mail = Returned tt /\ queries (effects mail) = []).
  { unfold mail. destruct (List.length _ =? 0)%nat; [split; reflexivity|].
    unfold sendAlertEmails.
    match goal with |- context [sendMail_result w ?m] => destruct (sendMail_result w m) end;
      split; reflexivity. }
  destruct M as [M1 M2].
  rewrite (effects_bind _ _ tt M1), queries_app, M2. cbn [app].
  unfold sendPushNotificationFCM.
  destruct (JS.truthy (FCM_SERVER_KEY w)); [|reflexivity].
  destruct (fcm_endpoint w) as [[s txt]|e]; [|reflexivity].
  cbv [bind try_catch await tell ret fst snd effects result app negb].
  destruct (ok s); [|reflexivity].
  destruct (JS.JSON_parse txt); reflexivity.
Qed.

Lemma cycle_statements (w : world) :
  forallb Http.bound_exactly (queries (effects (checkConditionsAndSendAlert w))) = true.
Proof.
  pose proof (fetch_no_query w) as NQ.
  unfold checkConditionsAndSendAlert.
  destruct (fetchSensorDataFromESP w) as [es [data|e]]; cbn [effects fst] in NQ.
  - rewrite bind_returned, executeQuery_eq.
    destruct (db_query w "SELECT * FROM thresholds LIMIT 1" []) as [[|threshold rest]|err].
    + cbn. rewrite queries_app, NQ. reflexivity.
    + rewrite bind_returned. cbv beta.
      set (alerts := checkConditions _ threshold).
      destruct (0 <? List.length alerts)%nat.
      * pose proof (dispatch_statements w alerts) as D.
        destruct (dispatchAlerts w alerts) as [ds [[]|de]]; cbn [effects fst] in D.
        -- cbn. rewrite !queries_app, NQ. cbn. exact D.
        -- cbn. destruct (String.eqb (JS.name de) "AbortError"); cbn;
             rewrite ?queries_app, ?NQ; cbn;
             rewrite ?queries_app, ?forallb_app, ?D; reflexivity.
      * cbn. rewrite !queries_app, NQ. reflexivity.
    + cbn. destruct (String.eqb (JS.name err) "AbortError"); cbn;
        rewrite !queries_app, NQ; reflexivity.
  - cbn. destruct (String.eqb (JS.name e) "AbortError"); cbn;
      rewrite queries_app, NQ; reflexivity.
Qed.

(** X25. Every statement the routes and the condition check send binds
    exactly as many values as it has placeholders: the order list and
    update, the timetable, the token registration, the task list and
    update, the worker list, update and delete, the sensor list and the
    two statements of a condition-check cycle, on every path through
    them and for every store. *)
Theorem statements_are_fully_bound (w : WorkerRoutes.world) (st : Http.store)
  (sw : world) (b user : JS.object) (ob : option JS.object)
  (subscribe : JS.value -> outcome unit) (a : WorkerRoutes.admin) (id : string) :
  forallb Http.bound_exactly (queries (effects (WorkerRoutes.new_orders w))) = true /\
  forallb Http.bound_exactly (queries (effects (WorkerRoutes.time_table w))) = true /\
  forallb Http.bound_exactly (queries (effects (WorkerRoutes.update_order_status w b))) = true /\
  forallb Http.bound_exactly
    (queries (effects (WorkerRoutes.register_token w subscribe a ob))) = true /\
  forallb Http.bound_exactly (queries (effects (WorkerRoutes.tasks w user))) = true /\
  forallb Http.bound_exactly (queries (effects (Settings.get_registered_workers st))) = true /\
  forallb Http.bound_exactly (queries (effects (Settings.put_registered_worker st id b))) = true /\
  forallb Http.bound_exactly (queries (effects (Settings.delete_registered_worker st id))) = true /\
  forallb Http.bound_exactly (queries (effects (SensorRoutes.sensor_data st))) = true /\
  forallb Http.bound_exactly (queries (effects (checkConditionsAndSendAlert sw))) = true.
Proof.
  repeat split.
  - unfold WorkerRoutes.new_orders, Http.query_rows.
    destruct (Http.select (WorkerRoutes.db w) _ _); reflexivity.
  - unfold WorkerRoutes.time_table, Http.query_rows.
    destruct (Http.select (WorkerRoutes.db w) _ _); reflexivity.
  - unfold WorkerRoutes.update_order_status, Http.query_exec, WorkerRoutes.sendMail.
    destruct (negb _ || negb _)%bool; [reflexivity|].
    destruct (Http.execute (WorkerRoutes.db w) _ _); [|reflexivity].
    cbv [bind fst snd app tell ret].
    match goal with |- context [WorkerRoutes.sendMail_result w ?m] =>
      destruct (WorkerRoutes.sendMail_result w m) end; reflexivity.
  - unfold WorkerRoutes.register_token, Http.query_exec.
    destruct (negb _); [reflexivity|].
    destruct (Http.execute (WorkerRoutes.db w) WorkerRoutes.CREATE_TOKENS_SQL []);
      cbv [bind fst snd app tell ret];
      (destruct (Http.execute (WorkerRoutes.db w) WorkerRoutes.UPSERT_TOKEN_SQL _);
       [destruct (0 <? WorkerRoutes.apps a)%nat;
        [match goal with |- context [subscribe ?t] => destruct (subscribe t) as [[]|] end|]|]);
      reflexivity.
  - unfold WorkerRoutes.tasks, Http.query_rows.
    destruct (negb _); [reflexivity|].
    destruct (Http.select (WorkerRoutes.db w) WorkerRoutes.WORKER_ID_SQL _)
      as [[|first rest]|]; try reflexivity.
    cbv [bind fst snd app].
    destruct (Http.select (WorkerRoutes.db w) WorkerRoutes.TASKS_SQL _); reflexivity.
  - unfold Settings.get_registered_workers, Http.query_rows.
    destruct (Http.select st _ _); reflexivity.
  - unfold Settings.put_registered_worker, Http.query_exec.
    destruct (negb _ || negb _ || negb _)%bool; [reflexivity|].
    destruct (Http.execute st _ _) as [h|]; [|reflexivity].
    cbv [bind fst snd app].
    destruct (JS.strict_eq (JS.get h "affectedRows") (JS.Num 0)); reflexivity.
  - unfold Settings.delete_registered_worker, Http.query_exec.
    destruct (Http.execute st _ _) as [h|]; [|reflexivity].
    cbv [bind fst snd app].
    destruct (JS.strict_eq (JS.get h "affectedRows") (JS.Num 0)); reflexivity.
  - unfold SensorRoutes.sensor_data, Http.query_rows.
    destruct (Http.select st _ _); reflexivity.
  - apply cycle_statements.
Qed.

End StatementFacts.

(* ===================================================================== *)
(** ** Evaluator and archival job, further *)
(* ===================================================================== *)

Section EvaluatorBounds.
Context `{JS.Host}.
Import Sensors.

(** X26. One evaluation raises at most three alerts, at most one per
    metric, and every entry of the array is the alert of one of the three
    metrics, whatever the readings and the threshold row hold (numbers,
    strings, nulls or nothing). *)
Theorem alerts_are_bounded (p : pondData) (threshold : JS.object) :
  List.length (checkConditions p threshold) <= 3 /\
  (forall m : metric,
     List.length (filter (alert_for m) (checkConditions p threshold)) <= 1) /\
  Forall (fun a => exists m : metric, metric_of a = Some m) (checkConditions p threshold).
Proof.
  split; [|split].
  - rewrite checkConditions_eq. unfold alert_if.
    destruct (out_of_range WaterLevel p threshold),
             (out_of_range Temperature p threshold),
             (out_of_range TDS p threshold); cbn [app List.length]; lia.
  - intros m. rewrite alerts_of_metric. unfold alert_if.
    destruct (out_of_range m p threshold); cbn [List.length]; lia.
  - rewrite checkConditions_eq. unfold alert_if.
    destruct (out_of_range WaterLevel p threshold),
             (out_of_range Temperature p threshold),
             (out_of_range TDS p threshold); cbn [app];
      repeat constructor; eexists; apply metric_of_text.
Qed.

Lemma saveSensorsData_shape (w : world) :
  exists tail : list effect,
    saveSensorsData w = (effects (fetchSensorDataFromESP w) ++ tail, Returned tt) /\
    requests tail = [] /\
    List.length (queries tail) <= 1 /\
    (forall e, result (fetchSensorDataFromESP w) = Thrown e -> queries tail = []) /\
    (forall c : channel, attempted c tail = false).
Proof.
  unfold saveSensorsData.
  destruct (fetchSensorDataFromESP w) as [es [data|e]].
  - rewrite bind_returned, executeQuery_eq.
    destruct (db_query w INSERT_SENSORS _) as [rows|err].
    + eexists. split; [reflexivity|]. cbn.
      repeat split; try lia; try discriminate. intros c; destruct c; reflexivity.
    + destruct (String.eqb (JS.name err) "AbortError") eqn:N;
        (eexists; split;
         [cbn [bind try_catch tell await ret fst snd effects result];
          rewrite N; cbn [tell fst snd]; rewrite <- app_assoc; reflexivity|]);
        cbn; (repeat split; try lia; try discriminate);
        intros c; destruct c; reflexivity.
  - destruct (String.eqb (JS.name e) "AbortError") eqn:N;
      (eexists; split;
       [cbn [bind try_catch tell await ret fst snd effects result];
        rewrite N; cbn [tell fst snd]; reflexivity|]);
      cbn; (repeat split; try lia; try reflexivity);
      intros c; destruct c; reflexivity.
Qed.

(** X27. The archival job never throws and never notifies anyone: a
    failed fetch and a failed insert alike end in one console line.  It
    sends one request to the endpoint and at most one statement to the
    store, and none when the fetch failed. *)
Theorem archival_job_is_contained (w : world) :
  result (saveSensorsData w) = Returned tt /\
  requests (effects (saveSensorsData w)) = [sensors_url w] /\
  List.length (queries (effects (saveSensorsData w))) <= 1 /\
  (forall e, result (fetchSensorDataFromESP w) = Thrown e ->
             queries (effects (saveSensorsData w)) = []) /\
  (forall c : channel, attempted c (effects (saveSensorsData w)) = false).
Proof.
  destruct (saveSensorsData_shape w) as (tail & E & R & L & Q & A).
  destruct (fetch_one_request w) as [_ RQ].
  rewrite E, result_pair, effects_pair, requests_app, queries_app, RQ, R,
    (fetch_no_query w).
  split; [reflexivity|]. split; [reflexivity|]. split; [exact L|].
  split; [exact Q|].
  intros c. rewrite attempted_app, (fetch_no_attempt w c), (A c). reflexivity.
Qed.

End EvaluatorBounds.

(* ===================================================================== *)
(** ** What an admitted request and a created reminder carry *)
(* ===================================================================== *)

Section CarriedData.
Context `{JS.Host}.

Lemma admitted_is_silent (verify : JS.value -> outcome JS.object) (req : Auth.request)
  (user : JS.object) :
  result (Auth.authenticateToken verify req) = Returned (Auth.Next user) ->
  Auth.authenticateToken verify req = ([], Returned (Auth.Next user)).
Proof.
  unfold Auth.authenticateToken.
  destruct (JS.truthy (Auth.token_of req)); cbn [negb]; [|discriminate].
  destruct (verify (Auth.token_of req)) as [decoded|err]; [|discriminate].
  destruct (JS.truthy (JS.get decoded "role")
            && negb (JS.strict_eq (JS.get decoded "role") (JS.Str "worker")))%bool;
    [discriminate|].
  intros E. cbn in E. injection E as <-. reflexivity.
Qed.

(** X28. The task list of an admitted request depends on the verified
    claims only: it is the handler run on those claims, so two requests
    admitted with the same claims get the same statements and the same
    answer, whatever else their header, body and query string hold.  The
    look-up is bound to the email of the claims and the task statement to
    the id of the worker row found. *)
Theorem task_list_depends_on_claims_only (verify : JS.value -> outcome JS.object)
  (w : WorkerRoutes.world) (req req' : Auth.request) (user : JS.object) :
  result (Auth.authenticateToken verify req) = Returned (Auth.Next user) ->
  result (Auth.authenticateToken verify req') = Returned (Auth.Next user) ->
  WorkerRoutes.get_tasks verify w req = WorkerRoutes.tasks w user /\
  WorkerRoutes.get_tasks verify w req' = WorkerRoutes.get_tasks verify w req /\
  (JS.truthy (JS.get user "email") = true ->
   forall first rest,
     Http.select (WorkerRoutes.db w) WorkerRoutes.WORKER_ID_SQL [JS.get user "email"] =
       Returned (first :: rest) ->
     Sensors.queries (effects (WorkerRoutes.get_tasks verify w req)) =
       [(WorkerRoutes.WORKER_ID_SQL, [JS.get user "email"]);
        (WorkerRoutes.TASKS_SQL, [WorkerRoutes.worker_id_of first])]).
Proof.
  intros A A'.
  assert (G : forall r, result (Auth.authenticateToken verify r) = Returned (Auth.Next user) ->
              WorkerRoutes.get_tasks verify w r = WorkerRoutes.tasks w user).
  { intros r Ar. unfold WorkerRoutes.get_tasks, Auth.guarded.
    rewrite (admitted_is_silent verify r user Ar), bind_returned.
    destruct (WorkerRoutes.tasks w user) as [es o]. reflexivity. }
  split; [exact (G req A)|]. split; [rewrite (G req A), (G req' A'); reflexivity|].
  intros T first rest S. rewrite (G req A).
  unfold WorkerRoutes.tasks, Http.query_rows. rewrite T, S. cbv [negb bind fst snd app].
  destruct (Http.select (WorkerRoutes.db w) WorkerRoutes.TASKS_SQL _); reflexivity.
Qed.

(** X29. The push of a reminder the scan created.  With an initialised
    push provider, exactly one message is handed to it, whether the send
    then succeeds or fails: titled Feeding Reminder, addressed to the
    topic feeding, with the reminder's own message as its body (the
    fallback text is never used, since a created reminder's message is
    never empty) and the minute of the scan in its data. *)
Theorem push_of_created_reminder (f : Worker.fcm) (ct : string) (r : Worker.row) :
  Worker.apps_initialized f = true ->
  exists m : fcm_message,
    Traces.admin_sends (effects (Worker.dispatch f (Worker.new_reminder ct r))) = [m] /\
    title m = "Feeding Reminder" /\
    topic m = "feeding" /\
    body m = message (Worker.new_reminder ct r) /\
    In ("reminder_time", JS.ToString (JS.or (JS.Str ct) (JS.Str EmptyString))) (data m) /\
    In ("feeding_ID",
        JS.ToString (JS.or (Worker.row_feeding_ID r) (JS.Str EmptyString))) (data m).
Proof.
  intros I. unfold Worker.dispatch, Worker.sendFeedingPush. rewrite I. cbn [negb].
  match goal with |- context [Worker.send f ?m] =>
    exists m; destruct (Worker.send f m) end;
    (split; [reflexivity|]); cbn [title topic body data];
    (repeat split; try reflexivity; cbn; auto).
Qed.

End CarriedData.

(* ===================================================================== *)
(** ** The routes on concrete requests *)
(* ===================================================================== *)

Section RouteRuns.

Lemma authorization_header_forms_witness :
  Auth.has_space "Bearer" = false /\ Auth.has_space "worker-token" = false /\
  Auth.token_of (Inputs.request_with (Some "Bearer worker-token")
                   [("token", JS.Str "admin-token")]) = JS.Str "worker-token" /\
  Auth.token_of (Inputs.request_with (Some "Basic worker-token")
                   [("token", JS.Str "admin-token")]) = JS.Str "admin-token".
Proof.
  split; [reflexivity|]. split; [reflexivity|].
  assert (N : "worker-token" <> EmptyString) by discriminate.
  split.
  - exact (proj1 (authorization_header_forms "Bearer" "worker-token"
                    (Some [("token", JS.Str "admin-token")]) (Some [])
                    eq_refl eq_refl N) eq_refl).
  - refine (proj1 (proj2 (proj2 (authorization_header_forms "Basic" "worker-token"
                    (Some [("token", JS.Str "admin-token")]) (Some [])
                    eq_refl eq_refl N))) _ eq_refl).
    discriminate.
Defined.

Lemma authenticate_admits_exactly_witness :
  result (Auth.authenticateToken Inputs.verify
            (Inputs.request_with (Some "Bearer worker-token") [])) =
    Returned (Auth.Next Inputs.worker_claims).
Proof.
  apply (proj1 (authenticate_admits_exactly Inputs.verify
                  (Inputs.request_with (Some "Bearer worker-token") []))).
  split; [reflexivity|]. split; [reflexivity|]. right. reflexivity.
Defined.

Lemma rejected_request_reaches_no_store_witness :
  (forall user,
     result (Auth.authenticateToken Inputs.verify
               (Inputs.request_with (Some "Bearer admin-token") [("task_id", JS.Num 4)]))
     <> Returned (Auth.Next user)) /\
  Sensors.queries
    (effects (@WorkerRoutes.patch_update_task_status Sample.host Inputs.verify
                (Inputs.world_on Inputs.store)
                (Inputs.request_with (Some "Bearer admin-token") [("task_id", JS.Num 4)])))
    = [].
Proof.
  assert (R : forall user,
     result (Auth.authenticateToken Inputs.verify
               (Inputs.request_with (Some "Bearer admin-token") [("task_id", JS.Num 4)]))
     <> Returned (Auth.Next user)) by (intros user; discriminate).
  split; [exact R|].
  destruct (proj2 (@rejected_request_reaches_no_store Sample.host Inputs.verify
                     (Inputs.world_on Inputs.store)
                     (Inputs.request_with (Some "Bearer admin-token")
                        [("task_id", JS.Num 4)]) R)) as (r & _ & _ & Q & _).
  exact Q.
Defined.

Lemma invalid_requests_touch_nothing_witness :
  JS.truthy (JS.get [("status", JS.Str "Shipped")] "order_id") = false /\
  @WorkerRoutes.update_order_status Sample.host (Inputs.world_on Inputs.store)
    [("status", JS.Str "Shipped")] =
    ([], Returned (Http.error_response 400 "Order ID and status are required")).
Proof.
  split; [reflexivity|].
  apply (proj1 (@invalid_requests_touch_nothing Sample.host (Inputs.world_on Inputs.store)
                  [("status", JS.Str "Shipped")] [] (fun _ => Returned tt)
                  Inputs.admin_ready)).
  left. reflexivity.
Defined.

Lemma task_update_outcomes_witness :
  (forall first rest,
     Http.select Inputs.broken_store WorkerRoutes.WORKER_ID_SQL
       [JS.get Inputs.worker_claims "email"] <> Returned (first :: rest)) /\
  forall q,
    In q (Sensors.queries
            (effects (@WorkerRoutes.update_task_status Sample.host
                        (Inputs.world_on Inputs.broken_store)
                        (Some [("task_id", JS.Num 4)]) Inputs.worker_claims))) ->
    fst q = WorkerRoutes.WORKER_ID_SQL.
Proof.
  assert (N : forall first rest,
     Http.select Inputs.broken_store WorkerRoutes.WORKER_ID_SQL
       [JS.get Inputs.worker_claims "email"] <> Returned (first :: rest))
    by (intros first rest; discriminate).
  split; [exact N|].
  exact (proj1 (proj2 (proj2 (@task_update_outcomes Sample.host
                  (Inputs.world_on Inputs.broken_store) [("task_id", JS.Num 4)]
                  Inputs.worker_claims))) N).
Defined.

Lemma order_update_outcomes_witness :
  Http.mails
    (effects (@WorkerRoutes.update_order_status Sample.host (Inputs.world_on Inputs.store)
                [("order_id", JS.Num 12); ("status", JS.Str "Shipped")])) = true /\
  Http.mails
    (effects (@WorkerRoutes.update_order_status Sample.host
                (Inputs.world_on Inputs.broken_store)
                [("order_id", JS.Num 12); ("status", JS.Str "Shipped")])) = false.
Proof.
  split.
  - exact (proj2 (proj2 (proj2 (proj2 (@order_update_outcomes Sample.host
             (Inputs.world_on Inputs.store)
             [("order_id", JS.Num 12); ("status", JS.Str "Shipped")] eq_refl eq_refl)))
             [("affectedRows", JS.Num 1)] eq_refl)).
  - exact (proj2 (proj1 (proj2 (proj2 (@order_update_outcomes Sample.host
             (Inputs.world_on Inputs.broken_store)
             [("order_id", JS.Num 12); ("status", JS.Str "Shipped")] eq_refl eq_refl)))
             Sample.connection_lost eq_refl)).
Defined.

Lemma token_registration_outcomes_witness :
  JS.truthy (JS.get [("token", JS.Str "device-1")] "token") = true /\
  Sensors.queries
    (effects (WorkerRoutes.register_token (Inputs.world_on Inputs.store)
                (fun _ => Thrown (JS.Error "messaging/invalid-argument"))
                Inputs.admin_ready (Some [("token", JS.Str "device-1")]))) =
    [(WorkerRoutes.CREATE_TOKENS_SQL, []);
     (WorkerRoutes.UPSERT_TOKEN_SQL, [JS.Null; JS.Str "device-1"])].
Proof.
  split; [reflexivity|].
  exact (proj1 (token_registration_outcomes (Inputs.world_on Inputs.store)
                  (fun _ => Thrown (JS.Error "messaging/invalid-argument"))
                  Inputs.admin_ready [("token", JS.Str "device-1")] eq_refl)).
Defined.

Lemma provider_starts_at_most_once_witness :
  Firebase.init Firebase.sensor_lines Inputs.malformed_account 1 = ([], Returned 1).
Proof.
  apply (proj1 (proj2 (provider_starts_at_most_once Inputs.malformed_account
                         Inputs.malformed_account))).
  constructor.
Defined.

Lemma failed_service_account_stops_startup_witness :
  JS.truthy (Firebase.FIREBASE_SERVICE_ACCOUNT Inputs.malformed_account) = true /\
  Firebase.default_file_exists Inputs.malformed_account = true /\
  Firebase.initFirebaseAdminForWorker Inputs.malformed_account 0 =
    ([Console ERROR "[FCM-worker] Failed to init Firebase Admin:"], Returned 0).
Proof.
  split; [reflexivity|]. split; [reflexivity|].
  exact (proj1 (failed_service_account_stops_startup Firebase.worker_lines
                  Inputs.malformed_account Sensors.SyntaxError) eq_refl eq_refl).
Defined.

Lemma deployed_config_ssl_witness :
  DbConfig.DB_SSL_CA Inputs.production_env = Some "/etc/ssl/missing.pem" /\
  DbConfig.NODE_ENV Inputs.production_env = Some "production" /\
  forall c, result (DbConfig.deployed_config Inputs.production_env Inputs.no_files) = Returned c ->
            DbConfig.ssl_of c = DbConfig.NoSsl.
Proof.
  split; [reflexivity|]. split; [reflexivity|].
  intros c E.
  refine (proj1 (proj2 (proj2 (deployed_config_ssl Inputs.production_env Inputs.no_files) c E))
            "/etc/ssl/missing.pem" eq_refl _ eq_refl).
  discriminate.
Defined.

Lemma local_config_ssl_witness :
  result (DbConfig.local_config Inputs.production_env Inputs.unreadable_files) =
    Thrown (JS.Error "EACCES").
Proof.
  apply (proj1 (local_config_ssl Inputs.production_env Inputs.unreadable_files)).
  exists "/etc/ssl/missing.pem".
  split; [reflexivity|]. split; [discriminate|]. split; reflexivity.
Defined.

Lemma live_readings_statuses_witness :
  Sensors.silent_until_deadline (Sensors.esp (Sample.world_with Sensors.Silent)) = true /\
  result (@SensorRoutes.sensorsdatacome Sample.host (Sample.world_with Sensors.Silent)) =
    Returned (Http.error_response 504 "Request timed out after 30 seconds").
Proof.
  split; [reflexivity|].
  exact (proj1 (proj2 (proj2 (@live_readings_statuses Sample.host
                  (Sample.world_with Sensors.Silent)))) eq_refl).
Defined.

Lemma failed_fetch_ends_cycle_witness :
  result (@Sensors.fetchSensorDataFromESP Sample.host (Sample.world_with Sensors.Silent)) =
    Thrown Sensors.AbortError /\
  Sensors.queries
    (effects (@Sensors.checkConditionsAndSendAlert Sample.host
                (Sample.world_with Sensors.Silent))) = [].
Proof.
  split; [reflexivity|].
  exact (proj1 (proj2 (@failed_fetch_ends_cycle Sample.host (Sample.world_with Sensors.Silent)
                         Sensors.AbortError eq_refl))).
Defined.

Lemma failed_worker_lookup_drops_alerts_witness :
  Sensors.db_query Inputs.world_with_failing_lookup "SELECT email FROM worker" [] =
    Thrown Sample.connection_lost /\
  attempted Push
    (effects (@Sensors.checkConditionsAndSendAlert Sample.host
                Inputs.world_with_failing_lookup)) = false.
Proof.
  split; [reflexivity|].
  refine (proj1 (proj2 (proj2 (@failed_worker_lookup_drops_alerts Sample.host
            Inputs.world_with_failing_lookup Sample.snapshot Sample.threshold []
            Sample.connection_lost eq_refl eq_refl _ eq_refl)))).
  discriminate.
Defined.

Lemma mail_and_push_same_text_witness :
  Sensors.db_query Sample.world "SELECT email FROM worker" [] =
    Returned [[("email", JS.Str "nimal@prawncare.lk")]; [("email", JS.Str "kamal@prawncare.lk")]] /\
  map to (Traces.mails_sent
            (effects (@Sensors.dispatchAlerts Sample.host Sample.world ["a"; "b"]))) =
    ["nimal@prawncare.lk, kamal@prawncare.lk"].
Proof.
  split; [reflexivity|].
  exact (proj1 (proj2 (@mail_and_push_same_text Sample.host Sample.world ["a"; "b"]
                         [("email", JS.Str "nimal@prawncare.lk")]
                         [[("email", JS.Str "kamal@prawncare.lk")]] eq_refl))).
Defined.

Lemma report_query_binds_witness :
  snd (SensorRoutes.report_query (JS.Str "2025-01-01") JS.Undefined) = [] /\
  snd (SensorRoutes.report_query (JS.Str "2025-01-01") (JS.Str "2025-01-31")) =
    [JS.Str "2025-01-01"; JS.Str "2025-01-31"].
Proof.
  split.
  - exact (f_equal snd (proj2 (proj2 (report_query_binds (JS.Str "2025-01-01") JS.Undefined))
                          eq_refl)).
  - exact (f_equal snd (proj1 (proj2 (report_query_binds (JS.Str "2025-01-01")
                                        (JS.Str "2025-01-31"))) eq_refl)).
Defined.

Lemma unchanged_write_is_not_found_witness :
  result (@Settings.put_registered_worker
            {| Http.select := fun _ _ => Returned [];
               Http.execute := fun _ _ => Returned [("affectedRows", JS.Num 0)] |}
            "99"
            [("name", JS.Str "Nimal"); ("email", JS.Str "nimal@prawncare.lk");
             ("mobile_no", JS.Str "0771234567")]) =
    Returned (Http.error_response 404 "Worker not found").
Proof.
  exact (proj1 (proj2 (proj2 (unchanged_write_is_not_found
            {| Http.select := fun _ _ => Returned [];
               Http.execute := fun _ _ => Returned [("affectedRows", JS.Num 0)] |}
            "99"
            [("name", JS.Str "Nimal"); ("email", JS.Str "nimal@prawncare.lk");
             ("mobile_no", JS.Str "0771234567")] eq_refl eq_refl eq_refl)))
          [("affectedRows", JS.Num 0)] eq_refl).
Defined.

Lemma archival_job_is_contained_witness :
  result (@Sensors.fetchSensorDataFromESP Sample.host (Sample.world_with Sensors.Silent)) =
    Thrown Sensors.AbortError /\
  Sensors.queries
    (effects (@Sensors.saveSensorsData Sample.host (Sample.world_with Sensors.Silent))) = [].
Proof.
  split; [reflexivity|].
  exact (proj1 (proj2 (proj2 (proj2 (@archival_job_is_contained Sample.host
                  (Sample.world_with Sensors.Silent)))))
           Sensors.AbortError eq_refl).
Defined.

Lemma task_list_depends_on_claims_only_witness :
  result (Auth.authenticateToken Inputs.verify
            (Inputs.request_with (Some "Bearer worker-token") [])) =
    Returned (Auth.Next Inputs.worker_claims) /\
  WorkerRoutes.get_tasks Inputs.verify (Inputs.world_on Inputs.store)
    (Inputs.request_with None [("token", JS.Str "worker-token")]) =
  WorkerRoutes.get_tasks Inputs.verify (Inputs.world_on Inputs.store)
    (Inputs.request_with (Some "Bearer worker-token") []).
Proof.
  split; [reflexivity|].
  exact (proj1 (proj2 (task_list_depends_on_claims_only Inputs.verify
                  (Inputs.world_on Inputs.store)
                  (Inputs.request_with (Some "Bearer worker-token") [])
                  (Inputs.request_with None [("token", JS.Str "worker-token")])
                  Inputs.worker_claims eq_refl eq_refl))).
Defined.

Lemma push_of_created_reminder_witness :
  Worker.apps_initialized Sample.failing_fcm = true /\
  exists m : fcm_message,
    Traces.admin_sends
      (effects (@Worker.dispatch Sample.host Sample.failing_fcm
                  (@Worker.new_reminder Sample.host "13:50:00" Sample.entry))) = [m] /\
    body m = "Feeding reminder: Pond 1 needs feeding at 14:00:00".
Proof.
  split; [reflexivity|].
  destruct (@push_of_created_reminder Sample.host Sample.failing_fcm "13:50:00" Sample.entry
              eq_refl) as (m & A & _ & _ & B & _).
  exists m. split; [exact A | exact B].
Defined.

End RouteRuns.
